(** * Image ingestion pipeline of the image-converter plugin (src/main.ts)

    A shallow embedding of the drop/paste ingestion pipeline:
    [dropPaste_registerEvents], [handleDrop], [handlePaste],
    [insertLinkAtCursorPosition], [formatFileSize],
    [showSizeComparisonNotification] and [getPresetByName].

    The collaborators that live in other files of the plugin or in the host
    (capability registry, destination planner, transcoding service, link
    formatter, prompt dialogs, vault, editor) are taken as a record of
    functions, [Host]; what main.ts does with their results is modelled
    line by line. *)

From Stdlib Require Import ZArith QArith Floats Uint63 Ascii DecimalString Lia.
From stdpp Require Import gmap strings list.

Local Open Scope string_scope.
Local Open Scope list_scope.
Local Open Scope Z_scope.

(** ** JavaScript strings and numbers *)

Module Js.

(** [s.includes(pat)]. *)
Fixpoint includes (s pat : string) : bool :=
  String.prefix pat s ||
  match s with
  | EmptyString => false
  | String _ s' => includes s' pat
  end.

(** [s.startsWith(pat)]. *)
Definition startsWith (s pat : string) : bool := String.prefix pat s.

(** [s.length], every character of the model counting for one code unit. *)
Definition length (s : string) : Z := Z.of_nat (String.length s).

(** Template rendering of an integer-valued number, [`${n}`]. *)
Definition of_int (n : Z) : string := NilZero.string_of_int (Z.to_int n).

(** The integer nearest to [10 * |num/den|], the larger one on a tie:
    the [n] of Number.prototype.toFixed for one fraction digit. *)
Definition tenths (num : Z) (den : positive) : Z :=
  (20 * Z.abs num + Z.pos den) / (2 * Z.pos den).

(** A count of tenths written with one fraction digit. *)
Definition one_decimal (t : Z) : string :=
  of_int (t / 10) +:+ "." +:+ of_int (t mod 10).

(** [x.toFixed(1)] for a finite [x] given exactly as a fraction, below
    the 1e21 threshold at which toFixed switches to exponent notation. *)
Definition toFixed1 (x : Q) : string :=
  (if Qnum x <? 0 then "-" else "") +:+ one_decimal (tenths (Qnum x) (Qden x)).

(** The exact value of a finite binary64 number. *)
Definition exact (s : bool) (m : positive) (e : Z) : Q :=
  let n := if s then Z.neg m else Z.pos m in
  match e with
  | Z0 => n # 1
  | Z.pos p => (n * 2 ^ Z.pos p) # 1
  | Z.neg p => n # (2 ^ p)
  end.

(** [x.toFixed(1)] for a binary64 number. *)
Definition toFixed1_float (x : float) : string :=
  match Prim2SF x with
  | S754_zero _ => "0.0"
  | S754_infinity false => "Infinity"
  | S754_infinity true => "-Infinity"
  | S754_nan => "NaN"
  | S754_finite s m e => toFixed1 (exact s m e)
  end.

(** A byte count as a number; exact below 2^53. *)
Definition number (n : Z) : float := PrimFloat.of_uint63 (Uint63.of_Z n).

End Js.

(** ** formatFileSize (main.ts 1027-1035)

    [bytes / 1024] and [bytes / (1024 * 1024)] divide an integer by a power
    of two, which binary64 does without rounding, so the quotient handed to
    [toFixed] is the exact fraction. *)

Definition formatFileSize (bytes : Z) : string :=
  if bytes <? 1024 then
    Js.of_int bytes +:+ " bytes"
  else if bytes <? 1024 * 1024 then
    Js.toFixed1 (bytes # 1024) +:+ " KB"
  else
    Js.toFixed1 (bytes # (1024 * 1024)) +:+ " MB".

(** ** Data model *)

(** A position in the editor, obsidian's [EditorPosition]. *)
Record EditorPosition := { line : Z; ch : Z }.

(** A browser [File]: [size] is the length of what [arrayBuffer()] gives. *)
Record File := {
  file_name : string;
  file_type : string;
  file_content : list Byte.byte;
}.

Definition file_size (f : File) : Z := Z.of_nat (List.length (file_content f)).

(** [ArrayBuffer.byteLength]. *)
Definition byteLength (b : list Byte.byte) : Z := Z.of_nat (List.length b).

(** An entry of the vault as main.ts uses it: only [.path] is read. *)
Record TAbstractFile := { path : string }.

(** The preset records are declared in ImageConverterSettings.ts,
    LinkFormatSettings.ts and NonDestructiveResizeSettings.ts; the fields
    below are the ones main.ts reads, with the names it reads them by. *)
Record ConversionPreset := {
  conv_name : string;
  outputFormat : string;
  quality : Z;
  colorDepth : Q;
  resizeMode : string;
  desiredWidth : Z;
  desiredHeight : Z;
  desiredLongestEdge : Z;
  enlargeOrReduce : string;
  allowLargerFiles : bool;
  skipConversionPatterns : string;
}.

Record FilenamePreset := {
  fn_name : string;
  conflictResolution : string;
  skipRenamePatterns : string;
}.

Record FolderPreset := { folder_name : string }.

Record LinkFormatPreset := {
  lf_name : string;
  linkFormat : string;
  pathFormat : string;
}.

Record NonDestructiveResizePreset := { rs_name : string }.

(** [T extends { name: string }], the bound of [getPresetByName]. *)
Class Named (T : Type) := name_of : T -> string.

#[global] Instance ConversionPreset_named : Named ConversionPreset := conv_name.
#[global] Instance FilenamePreset_named : Named FilenamePreset := fn_name.
#[global] Instance FolderPreset_named : Named FolderPreset := folder_name.
#[global] Instance LinkFormatPreset_named : Named LinkFormatPreset := lf_name.
#[global] Instance ResizePreset_named : Named NonDestructiveResizePreset := rs_name.

Record LinkFormatSettings := {
  selectedLinkFormatPreset : string;
  linkFormatPresets : list LinkFormatPreset;
}.

Record NonDestructiveResizeSettings := {
  selectedResizePreset : string;
  resizePresets : list NonDestructiveResizePreset;
}.

(** The fields of [ImageConverterSettings] the pipeline reads.  The
    conversion parameters of the settings object itself are the fallback
    of [processImage]'s arguments when no conversion preset is selected. *)
Record ImageConverterSettings := {
  modalBehavior : string;
  selectedConversionPreset : string;
  conversionPresets : list ConversionPreset;
  selectedFilenamePreset : string;
  filenamePresets : list FilenamePreset;
  selectedFolderPreset : string;
  folderPresets : list FolderPreset;
  linkFormatSettings : LinkFormatSettings;
  nonDestructiveResizeSettings : NonDestructiveResizeSettings;
  neverProcessFilenames : string;
  revertToOriginalIfLarger : bool;
  showSpaceSavedNotification : bool;
  cursorLocation : string;
  settings_conversion : ConversionPreset;
}.

(** The five presets one unit works with.  A preset is [None] where the
    source's variable holds [undefined] ([presetArray[0]] of an empty array). *)
Record PresetBundle := {
  selConversion : option ConversionPreset;
  selFilename : option FilenamePreset;
  selFolder : option FolderPreset;
  selLinkFormat : option LinkFormatPreset;
  selResize : option NonDestructiveResizePreset;
}.

(** The arguments of [imageProcessor.processImage] after the file. *)
Record ProcessArgs := {
  arg_outputFormat : string;
  arg_quality : Q;
  arg_colorDepth : Q;
  arg_resizeMode : string;
  arg_desiredWidth : Z;
  arg_desiredHeight : Z;
  arg_desiredLongestEdge : Z;
  arg_enlargeOrReduce : string;
  arg_allowLargerFiles : bool;
}.

(** ** Thrown values, results and effects *)

(** What a [catch (error)] clause can receive: an [Error] carrying a
    message; an object with a [message] that is no instance of [Error]
    (an error of another realm, a plain object); or a value without a
    [message] (a string, [undefined]).  The folder catch clause reads
    [error.message], the transcoding one tests [error instanceof Error]. *)
Inductive Thrown :=
  | ErrorObj (message : string)
  | MessageObj (message : string)
  | NonError.

(** The result of a call that may throw. *)
Inductive Result (A : Type) :=
  | Ok (a : A)
  | Throw (e : Thrown).
Arguments Ok {A} a.
Arguments Throw {A} e.

(** What awaiting one of the prompt dialogs gives: the dialog's callback
    is the only caller of [resolve], so a dialog that is dismissed leaves
    the promise unsettled. *)
Inductive Prompt (A : Type) :=
  | Answered (a : A)
  | Unanswered
  | PromptThrows (e : Thrown).
Arguments Answered {A} a.
Arguments Unanswered {A}.
Arguments PromptThrows {A} e.

(** What the host's [createBinary] can do besides creating the entry. *)
Inductive CreateFault :=
  | CreateThrows (e : Thrown)
  | CreateNull.

Inductive ConsoleLevel := Warn | Error.

(** The observable actions of the pipeline, in the order they happen. *)
Inductive Effect :=
  | ENotice (msg : string)
  | EConsole (lvl : ConsoleLevel) (msg : string)
  | EProcessImage (file : string) (args : ProcessArgs)
  | ECreateBinary (at_path : string) (data : list Byte.byte)
  | EReplaceRange (text : string) (pos : EditorPosition)
  | ESetCursor (pos : EditorPosition)
  | EPreventDefault.

(** The state the pipeline acts on: the vault's files by path, the
    editor's cursor, and the trace of actions so far.  Folders are not
    entries of [vault]; creating them is the host's [ensureFolderExists]. *)
Record World := {
  vault : gmap string (list Byte.byte);
  cursor : EditorPosition;
  trace : list Effect;
}.

(** How a promise ends. *)
Inductive Outcome (A : Type) :=
  | Fulfilled (a : A)
  | Rejected (e : Thrown)
  | Pending.
Arguments Fulfilled {A} a.
Arguments Rejected {A} e.
Arguments Pending {A}.

(** An async computation: it ends in an outcome and leaves a world. *)
Definition Task (A : Type) : Type := World -> Outcome A * World.

Definition ret {A} (a : A) : Task A := fun w => (Fulfilled a, w).

Definition bind {A B} (m : Task A) (k : A -> Task B) : Task B := fun w =>
  match m w with
  | (Fulfilled a, w') => k a w'
  | (Rejected e, w') => (Rejected e, w')
  | (Pending, w') => (Pending, w')
  end.

Definition throw {A} (e : Thrown) : Task A := fun w => (Rejected e, w).

(** [try { body } catch (error) { handler }]. *)
Definition try_catch {A} (body : Task A) (handler : Thrown -> Task A) : Task A :=
  fun w =>
    match body w with
    | (Rejected e, w') => handler e w'
    | r => r
    end.

(** A call of an async function whose promise is dropped: its effects
    happen, its rejection reaches nobody. *)
Definition not_awaited {A} (m : Task A) : Task unit := fun w =>
  (Fulfilled tt, snd (m w)).

Definition lift {A} (r : Result A) : Task A :=
  match r with
  | Ok a => ret a
  | Throw e => throw e
  end.

Definition await_prompt {A} (p : Prompt A) : Task A :=
  match p with
  | Answered a => ret a
  | Unanswered => fun w => (Pending, w)
  | PromptThrows e => throw e
  end.

(** The world after some more actions were recorded. *)
Definition logged (w : World) (es : list Effect) : World :=
  {| vault := vault w; cursor := cursor w; trace := trace w ++ es |}.

Definition emit (e : Effect) : Task unit := fun w => (Fulfilled tt, logged w [e]).

Definition read_vault : Task (gmap string (list Byte.byte)) := fun w =>
  (Fulfilled (vault w), w).

Notation "'let*' x ':=' m 'in' k" := (bind m (fun x => k))
  (at level 10, x name, m at level 100, k at level 200).
Notation "m ';;' k" := (bind m (fun _ => k))
  (at level 100, k at level 200, right associativity).

(** [new Notice(msg)], [console.warn], [console.error]. *)
Definition notice (msg : string) : Task unit := emit (ENotice msg).
Definition console_warn (msg : string) : Task unit := emit (EConsole Warn msg).
Definition console_error (msg : string) : Task unit := emit (EConsole Error msg).

(** The engine's TypeError for a property read on [undefined] or [null]. *)
Definition TypeError : Thrown :=
  ErrorObj "Cannot read properties of undefined".

(** [error.message], which is [undefined] for a value that is no Error. *)
Definition message_of (e : Thrown) : option string :=
  match e with
  | ErrorObj m | MessageObj m => Some m
  | NonError => None
  end.

(** ** Collaborators

    Everything main.ts calls and does not define.  The planner's
    functions may look at the vault; none of them is given the power to
    change the modelled state, which only main.ts's own calls of
    [createBinary], [replaceRange], [setCursor] and [Notice] do. *)
Record Host := {
  (* SupportedImageFormats.ts *)
  isSupported : string -> string -> bool;
  (* FolderAndFilenameManagement.ts *)
  matches_patterns : string -> string -> bool;
  should_skip_rename : string -> FilenamePreset -> bool;
  should_skip_conversion : string -> ConversionPreset -> bool;
  determineDestination :
    gmap string (list Byte.byte) -> File -> TAbstractFile ->
    option ConversionPreset -> option FilenamePreset -> option FolderPreset ->
    Result (string * string);
  ensureFolderExists : gmap string (list Byte.byte) -> string -> Result unit;
  handleNameConflicts :
    gmap string (list Byte.byte) -> string -> string -> string -> Result string;
  combinePath : string -> string -> string;
  (* ImageProcessor.ts *)
  processImage : File -> ProcessArgs -> Result (list Byte.byte);
  (* LinkFormatter.ts *)
  formatLink :
    string -> string -> string -> option TAbstractFile ->
    option NonDestructiveResizePreset -> Result string;
  (* ConfirmDialog and PresetSelectionModal *)
  confirmDialog : File -> Prompt unit;
  presetSelectionModal : File -> Prompt PresetBundle;
  (* app.workspace.getActiveFile() *)
  getActiveFile : option TAbstractFile;
  (* the editor: where a cursor standing at the first position is after
     the text was inserted at the second *)
  cursorAfterInsert : EditorPosition -> string -> EditorPosition -> EditorPosition;
  (* what keeps app.vault.createBinary from creating the entry *)
  createBinary_fault : gmap string (list Byte.byte) -> string -> option CreateFault;
}.

(** The double quote of the template literals. *)
Definition dq : string := String (Ascii.ascii_of_nat 34) EmptyString.

(** Which of the two handlers a unit belongs to. *)
Inductive EventKind := Drop | Paste.

(** A dropped [DataTransfer] and where the mouse was ([editor.posAtMouse]). *)
Record DragEvent := {
  dataTransfer : option (list File);
  posAtMouse : option EditorPosition;
}.

(** A clipboard item: [getAsFile()] is only called for [kind === "file"]. *)
Record ClipboardItem := {
  kind : string;
  item_type : string;
  getAsFile : option File;
}.

Record ClipboardEvent := { clipboardData : option (list ClipboardItem) }.

(** The [itemData] entries built by the paste handler. *)
Record ItemData := {
  data_kind : string;
  data_type : string;
  data_file : option File;
}.

(** ** The pipeline *)

Section Pipeline.

Context (host : Host) (settings : ImageConverterSettings).

(** [app.vault.getAbstractFileByPath]. *)
Definition getAbstractFileByPath (v : gmap string (list Byte.byte)) (p : string)
  : option TAbstractFile :=
  match v !! p with
  | Some _ => Some {| path := p |}
  | None => None
  end.

(** [app.vault.createBinary]: the entry is created unless the host faults. *)
Definition createBinary (p : string) (data : list Byte.byte)
  : Task (option TAbstractFile) :=
  emit (ECreateBinary p data) ;;
  fun w =>
    match createBinary_fault host (vault w) p with
    | Some (CreateThrows e) => (Rejected e, w)
    | Some CreateNull => (Fulfilled None, w)
    | None =>
        (Fulfilled (Some {| path := p |}),
         {| vault := <[p := data]> (vault w); cursor := cursor w; trace := trace w |})
    end.

(** [editor.setCursor]. *)
Definition setCursor (pos : EditorPosition) : Task unit :=
  emit (ESetCursor pos) ;;
  fun w => (Fulfilled tt, {| vault := vault w; cursor := pos; trace := trace w |}).

(** [editor.replaceRange(text, pos)]: the text is inserted at [pos] and
    the editor moves its cursor as it sees fit. *)
Definition replaceRange (text : string) (pos : EditorPosition) : Task unit :=
  emit (EReplaceRange text pos) ;;
  fun w =>
    (Fulfilled tt,
     {| vault := vault w;
        cursor := cursorAfterInsert host (cursor w) text pos;
        trace := trace w |}).

(** getPresetByName (main.ts 1050-1061). *)
Definition getPresetByName {T : Type} `{Named T}
    (presetName : string) (presetArray : list T) (presetType : string)
  : Task (option T) :=
  match List.find (fun p => String.eqb (name_of p) presetName) presetArray with
  | None =>
      console_warn (presetType +:+ " preset " +:+ dq +:+ presetName +:+ dq +:+
                    " not found, using default") ;;
      ret (head presetArray)
  | Some preset => ret (Some preset)
  end.

(** Preset resolution of one unit (main.ts 404-482 and 702-780). *)
Definition resolvePresets (file : File) : Task PresetBundle :=
  let* showModal :=
    (if String.eqb (modalBehavior settings) "ask" then
       await_prompt (confirmDialog host file) ;; ret true
     else ret (String.eqb (modalBehavior settings) "always")) in
  if showModal : bool then
    await_prompt (presetSelectionModal host file)
  else
    let* c := getPresetByName (selectedConversionPreset settings) (conversionPresets settings)
                "Conversion" in
    let* f := getPresetByName (selectedFilenamePreset settings) (filenamePresets settings)
                "Filename" in
    let* d := getPresetByName (selectedFolderPreset settings) (folderPresets settings)
                "Folder" in
    let* l := getPresetByName
                (selectedLinkFormatPreset (linkFormatSettings settings))
                (linkFormatPresets (linkFormatSettings settings)) "Link Format" in
    let* r := getPresetByName
                (selectedResizePreset (nonDestructiveResizeSettings settings))
                (resizePresets (nonDestructiveResizeSettings settings)) "Resize" in
    ret {| selConversion := c; selFilename := f; selFolder := d;
           selLinkFormat := l; selResize := r |}.

(** [s || fallback] on strings: the empty string is falsy. *)
Definition or_string (s : option string) (fallback : string) : string :=
  match s with
  | Some EmptyString | None => fallback
  | Some s => s
  end.

(** The awaited [linkFormatter.formatLink(...)] of
    insertLinkAtCursorPosition, with the presets it falls back to
    (main.ts 991-1009). *)
Definition formattedLinkFor
    (linkPath : string)
    (selectedLinkFormatPreset' : option LinkFormatPreset)
    (selectedResizePreset' : option NonDestructiveResizePreset) : Result string :=
  let activeFile := getActiveFile host in
  let linkFormatPresetToUse :=
    match selectedLinkFormatPreset' with
    | Some p => Some p
    | None =>
        List.find
          (fun p => String.eqb (lf_name p)
                      (selectedLinkFormatPreset (linkFormatSettings settings)))
          (linkFormatPresets (linkFormatSettings settings))
    end in
  let resizePresetToUse :=
    match selectedResizePreset' with
    | Some p => Some p
    | None =>
        List.find
          (fun p => String.eqb (rs_name p)
                      (selectedResizePreset (nonDestructiveResizeSettings settings)))
          (resizePresets (nonDestructiveResizeSettings settings))
    end in
  formatLink host linkPath
    (or_string (linkFormat <$> linkFormatPresetToUse) "wikilink")
    (or_string (pathFormat <$> linkFormatPresetToUse) "shortest")
    activeFile resizePresetToUse.

(** insertLinkAtCursorPosition (main.ts 983-1025). *)
Definition insertLinkAtCursorPosition
    (linkPath : string) (cursor : EditorPosition)
    (selectedLinkFormatPreset' : option LinkFormatPreset)
    (selectedResizePreset' : option NonDestructiveResizePreset) : Task unit :=
  let* formattedLink :=
    lift (formattedLinkFor linkPath selectedLinkFormatPreset' selectedResizePreset') in
  replaceRange formattedLink cursor ;;
  if String.eqb (cursorLocation settings) "back" then
    setCursor {| line := line cursor; ch := ch cursor + Js.length formattedLink |}
  else ret tt.

(** The percentage of showSizeComparisonNotification, computed in binary64
    as the source does: [((newSize - originalSize) / originalSize * 100)]. *)
Definition percentChange (originalSize newSize : Z) : string :=
  Js.toFixed1_float
    (PrimFloat.mul
       (PrimFloat.div
          (PrimFloat.sub (Js.number newSize) (Js.number originalSize))
          (Js.number originalSize))
       (Js.number 100)).

(** The text of the size-comparison notice. *)
Definition sizeComparisonMessage (originalSize newSize : Z) : string :=
  let changeSymbol := if newSize >? originalSize then "+" else "" in
  formatFileSize originalSize +:+ " → " +:+ formatFileSize newSize +:+
  " (" +:+ changeSymbol +:+ percentChange originalSize newSize +:+ "%)".

(** showSizeComparisonNotification (main.ts 1037-1048). *)
Definition showSizeComparisonNotification (originalSize newSize : Z) : Task unit :=
  if negb (showSpaceSavedNotification settings) then ret tt
  else notice (sizeComparisonMessage originalSize newSize).

(** The arguments handed to [processImage]: each one is the preset's
    field when a conversion preset is selected and the settings' own
    otherwise (main.ts 588-617). *)
Definition processArgs (c : option ConversionPreset) : ProcessArgs :=
  let p := match c with Some p => p | None => settings_conversion settings end in
  {| arg_outputFormat := outputFormat p;
     arg_quality := quality p # 100;
     arg_colorDepth := colorDepth p;
     arg_resizeMode := resizeMode p;
     arg_desiredWidth := desiredWidth p;
     arg_desiredHeight := desiredHeight p;
     arg_desiredLongestEdge := desiredLongestEdge p;
     arg_enlargeOrReduce := enlargeOrReduce p;
     arg_allowLargerFiles := allowLargerFiles p |}.

Definition quoted (s : string) : string := dq +:+ s +:+ dq.

(** The notice of the transcoding catch clause (main.ts 646-656). *)
Definition processingFailureNotice
    (file : File) (newFilename : string) (error : Thrown) : string :=
  match error with
  | ErrorObj message =>
      if Js.includes message "File already exists" then
        "Failed to process image: File " +:+ quoted newFilename +:+
        " already exists."
      else if Js.includes message "Invalid input file type" then
        "Failed to process image: Invalid input file type for " +:+
        quoted (file_name file) +:+ "."
      else
        "Failed to process image " +:+ quoted (file_name file) +:+ ": " +:+
        message +:+ ". Check console for details."
  | MessageObj _ | NonError =>
      "Failed to process image " +:+ quoted (file_name file) +:+
      ". Check console for details."
  end.

(** Step 3.5.3 to 3.5.6: transcode, materialize, insert the link
    (main.ts 586-658 and 884-960).  The drop handler awaits the link
    insertion and reads [tfile.path] unguarded; the paste handler checks
    [tfile] first and does not await. *)
Definition processAndCreate (k : EventKind) (file : File) (cursor : EditorPosition)
    (b : PresetBundle) (newFullPath newFilename : string) : Task unit :=
  try_catch
    (let originalSize := file_size file in
     emit (EProcessImage (file_name file) (processArgs (selConversion b))) ;;
     let* processedImage :=
       lift (processImage host file (processArgs (selConversion b))) in
     let* tfile :=
       (if revertToOriginalIfLarger settings &&
           (byteLength processedImage >? originalSize) then
          showSizeComparisonNotification originalSize (byteLength processedImage) ;;
          notice ("Using original image for " +:+ quoted (file_name file) +:+
                  " as processed image is larger.") ;;
          createBinary newFullPath (file_content file)
        else
          showSizeComparisonNotification originalSize (byteLength processedImage) ;;
          createBinary newFullPath processedImage) in
     match k, tfile with
     | Drop, Some t =>
         insertLinkAtCursorPosition (path t) cursor (selLinkFormat b) (selResize b)
     | Drop, None => throw TypeError
     | Paste, None =>
         notice ("Failed to create file " +:+ quoted newFilename +:+
                 ". Check console for details.")
     | Paste, Some t =>
         not_awaited
           (insertLinkAtCursorPosition (path t) cursor (selLinkFormat b) (selResize b))
     end)
    (fun error =>
       console_error "Image processing failed:" ;;
       notice (processingFailureNotice file newFilename error)).

(** Step 3.5.2: the file is saved as it came (main.ts 566-582, 866-880). *)
Definition saveUnprocessed (k : EventKind) (file : File) (cursor : EditorPosition)
    (b : PresetBundle) (newFullPath newFilename : string) : Task unit :=
  notice ("Skipped conversion of image " +:+ quoted (file_name file) +:+
          " due to skip pattern match in the conversion preset.") ;;
  let* tfile := createBinary newFullPath (file_content file) in
  match tfile with
  | None =>
      notice (match k with
              | Drop => "Failed to create file " +:+ quoted newFilename +:+
                        ". Check console for details."
              | Paste => "Failed to create file: " +:+ newFilename
              end)
  | Some t =>
      not_awaited
        (insertLinkAtCursorPosition (path t) cursor (selLinkFormat b) (selResize b))
  end.

(** [selectedConversionPreset && should_skip_conversion(file.name, preset)]. *)
Definition skipsConversion (file : File) (b : PresetBundle) : bool :=
  match selConversion b with
  | Some c => should_skip_conversion host (file_name file) c
  | None => false
  end.

(** [selectedFilenamePreset && should_skip_rename(file.name, preset)]. *)
Definition skipsRename (file : File) (b : PresetBundle) : bool :=
  match selFilename b with
  | Some f => should_skip_rename host (file_name file) f
  | None => false
  end.

(** [selectedFilenamePreset && preset.conflictResolution === mode]. *)
Definition conflictPolicyIs (b : PresetBundle) (mode : string) : bool :=
  match selFilename b with
  | Some f => String.eqb (conflictResolution f) mode
  | None => false
  end.

(** Step 3.5 and 3.6: process, reuse or skip (main.ts 550-666, 852-968). *)
Definition processReuseOrSkip (k : EventKind) (file : File) (cursor : EditorPosition)
    (b : PresetBundle) (destinationPath newFilename : string)
    (existingFile : option TAbstractFile) (skipFurtherProcessing : bool)
  : Task unit :=
  let newFullPath := combinePath host destinationPath newFilename in
  let saveOrProcess :=
    if skipsConversion file b then
      saveUnprocessed k file cursor b newFullPath newFilename
    else
      processAndCreate k file cursor b newFullPath newFilename in
  if negb skipFurtherProcessing then
    match existingFile with
    | Some existing =>
        if conflictPolicyIs b "reuse" then
          not_awaited
            (insertLinkAtCursorPosition (path existing) cursor
               (selLinkFormat b) (selResize b))
        else saveOrProcess
    | None => saveOrProcess
    end
  else
    match existingFile with
    | Some existing =>
        not_awaited
          (insertLinkAtCursorPosition (path existing) cursor
             (selLinkFormat b) (selResize b))
    | None => ret tt
    end.

(** Step 3.4: filename conflicts (main.ts 524-548, 817-850). *)
Definition handleConflicts (k : EventKind) (file : File) (cursor : EditorPosition)
    (b : PresetBundle) (destinationPath newFilename : string) : Task unit :=
  let* v := read_vault in
  let fullPath := destinationPath +:+ "/" +:+ newFilename in
  let existingFile := getAbstractFileByPath v fullPath in
  if skipsRename file b then
    notice ("Skipped renaming/conversion of image " +:+ quoted (file_name file) +:+
            " due to skip pattern match.") ;;
    processReuseOrSkip k file cursor b destinationPath newFilename existingFile true
  else if conflictPolicyIs b "increment" then
    match handleNameConflicts host v destinationPath newFilename "increment" with
    | Ok newFilename' =>
        let existingFile' :=
          getAbstractFileByPath v (destinationPath +:+ "/" +:+ newFilename') in
        processReuseOrSkip k file cursor b destinationPath newFilename'
          existingFile' false
    | Throw _ =>
        console_error "Error handling filename conflicts:" ;;
        notice ("Error incrementing filename for " +:+ quoted (file_name file) +:+
                ". Check console for details.")
    end
  else
    processReuseOrSkip k file cursor b destinationPath newFilename existingFile false.

(** The notice of a failed folder creation; the two handlers word it
    differently (main.ts 516 and 810). *)
Definition folderFailureNotice (k : EventKind) (destinationPath : string) : string :=
  match k with
  | Drop => "Failed to create folder " +:+ quoted destinationPath +:+
            ". Check console for details."
  | Paste => "Failed to create folder: " +:+ destinationPath
  end.

(** Step 3.3: the destination folder (main.ts 510-519, 805-813).
    [error.message.startsWith] throws a TypeError when the caught value
    has no message. *)
Definition createFolder (k : EventKind) (file : File) (cursor : EditorPosition)
    (b : PresetBundle) (destinationPath newFilename : string) : Task unit :=
  let* v := read_vault in
  match ensureFolderExists host v destinationPath with
  | Ok _ => handleConflicts k file cursor b destinationPath newFilename
  | Throw error =>
      match message_of error with
      | None => throw TypeError
      | Some message =>
          if negb (Js.startsWith message "Folder already exists") then
            console_error "Error creating folder:" ;;
            notice (folderFailureNotice k destinationPath)
          else handleConflicts k file cursor b destinationPath newFilename
      end
  end.

(** Step 3.2 onwards: destination, folder, conflicts, processing. *)
Definition planAndProcess (k : EventKind) (file : File) (activeFile : TAbstractFile)
    (cursor : EditorPosition) (b : PresetBundle) : Task unit :=
  let* v := read_vault in
  match determineDestination host v file activeFile
          (selConversion b) (selFilename b) (selFolder b) with
  | Ok (destinationPath, newFilename) =>
      createFolder k file cursor b destinationPath newFilename
  | Throw _ =>
      console_error "Error determining destination and filename:" ;;
      notice ("Failed to determine destination or filename for " +:+
              quoted (file_name file) +:+ ". Check console for details.")
  end.

(** Step 3.7: the outermost catch clause of a unit. *)
Definition unexpectedError (error : Thrown) : Task unit :=
  console_error "An unexpected error occurred:" ;;
  notice "An unexpected error occurred. Check console for details.".

(** One unit of [handleDrop]: the whole body, preset resolution
    included, is inside the try block (main.ts 402-673). *)
Definition dropUnit (activeFile : TAbstractFile) (cursor : EditorPosition)
    (file : File) : Task unit :=
  try_catch
    (let* b := resolvePresets file in
     planAndProcess Drop file activeFile cursor b)
    unexpectedError.

(** One unit of [handlePaste]: the try block opens after preset
    resolution (main.ts 701-975). *)
Definition pasteUnit (activeFile : TAbstractFile) (cursor : EditorPosition)
    (file : File) : Task unit :=
  let* b := resolvePresets file in
  try_catch (planAndProcess Paste file activeFile cursor b) unexpectedError.

Definition unitOf (k : EventKind) : TAbstractFile -> EditorPosition -> File -> Task unit :=
  match k with
  | Drop => dropUnit
  | Paste => pasteUnit
  end.

(** The units of one event, each run on the world the previous one left.
    JavaScript starts every unit in [map] and interleaves them at their
    await points; the model runs them one after the other in the order of
    the file list.  The order of actions across units, and the vault when
    two files of one event plan the same path, are therefore the model's
    and not the engine's: what is stated of an event with several files is
    kept to outcomes, to what every unit does from whatever world it
    starts in, and to properties of single actions. *)
Fixpoint runUnits (units : list (Task unit)) (w : World)
  : list (Outcome unit) * World :=
  match units with
  | [] => ([], w)
  | u :: rest =>
      let (o, w1) := u w in
      let (os, w2) := runUnits rest w1 in
      (o :: os, w2)
  end.

(** [Promise.all]: rejected as soon as one promise rejects, fulfilled
    when all are, unsettled otherwise. *)
Fixpoint promiseAll (os : list (Outcome unit)) : Outcome unit :=
  match os with
  | [] => Fulfilled tt
  | Rejected e :: _ => Rejected e
  | Fulfilled _ :: rest => promiseAll rest
  | Pending :: rest =>
      match promiseAll rest with
      | Rejected e => Rejected e
      | _ => Pending
      end
  end.

Definition awaitAll (units : list (Task unit)) : Task unit := fun w =>
  let (os, w') := runUnits units w in (promiseAll os, w').

(** handleDrop (main.ts 378-678). *)
Definition handleDrop (fileData : list File) (cursor : EditorPosition) : Task unit :=
  let supportedFiles :=
    List.filter (fun data => isSupported host (file_type data) (file_name data))
      fileData in
  match supportedFiles with
  | [] => ret tt
  | _ =>
      match getActiveFile host with
      | None => notice "No active file detected."
      | Some activeFile =>
          awaitAll (List.map (dropUnit activeFile cursor) supportedFiles)
      end
  end.

(** The files [handlePaste] keeps (main.ts 683-687). *)
Definition pastedFiles (itemData : list ItemData) : list File :=
  omap data_file
    (List.filter
       (fun data =>
          String.eqb (data_kind data) "file" &&
          match data_file data with
          | Some f => isSupported host (data_type data) (file_name f)
          | None => false
          end)
       itemData).

(** handlePaste (main.ts 680-980). *)
Definition handlePaste (itemData : list ItemData) (cursor : EditorPosition)
  : Task unit :=
  match pastedFiles itemData with
  | [] => ret tt
  | supportedFiles =>
      match getActiveFile host with
      | None => notice "No active file found!"
      | Some activeFile =>
          awaitAll (List.map (pasteUnit activeFile cursor) supportedFiles)
      end
  end.

(** The files of a drop that the handler's gate counts (main.ts 330-333). *)
Definition dropGate (data : File) : bool :=
  isSupported host (file_type data) (file_name data) &&
  negb (matches_patterns host (file_name data) (neverProcessFilenames settings)).

(** The "editor-drop" handler (main.ts 310-341); both handlers are
    registered on desktop only. *)
Definition onEditorDrop (evt : DragEvent) : Task unit :=
  match dataTransfer evt with
  | None =>
      console_warn "DataTransfer object is null initially. Cannot process drop event."
  | Some files =>
      match posAtMouse evt with
      | None => console_warn "Could not determine drop position"
      | Some pos =>
          let fileData := files in
          let hasSupportedFiles := existsb dropGate fileData in
          if hasSupportedFiles then
            emit EPreventDefault ;;
            handleDrop fileData pos
          else ret tt
      end
  end.

Definition pasteGate (data : ItemData) : bool :=
  String.eqb (data_kind data) "file" &&
  match data_file data with
  | Some f =>
      isSupported host (data_type data) (file_name f) &&
      negb (matches_patterns host (file_name f) (neverProcessFilenames settings))
  | None => false
  end.

(** The "editor-paste" handler (main.ts 346-374). *)
Definition onEditorPaste (evt : ClipboardEvent) : Task unit :=
  match clipboardData evt with
  | None =>
      console_warn "ClipboardData object is null. Cannot process paste event."
  | Some items =>
      fun w =>
        let cursor := cursor w in
        let itemData :=
          List.map
            (fun item =>
               {| data_kind := kind item;
                  data_type := item_type item;
                  data_file :=
                    if String.eqb (kind item) "file" then getAsFile item else None |})
            items in
        let hasSupportedItems := existsb pasteGate itemData in
        (if hasSupportedItems then
           emit EPreventDefault ;;
           handlePaste itemData cursor
         else ret tt) w
  end.

End Pipeline.

(** ** Propositions the statements below are written with *)

(** [t] tenths is a nearest one-decimal value of [n / d]. *)
Definition nearest_tenth (n d t : Z) : Prop := 2 * Z.abs (10 * n - d * t) <= d.

(** No blank in a string. *)
Fixpoint no_space (s : string) : bool :=
  match s with
  | EmptyString => true
  | String c s' => negb (Ascii.eqb c " "%char) && no_space s'
  end.

(** What follows the first blank of a string: the unit of a formatted size. *)
Fixpoint after_space (s : string) : string :=
  match s with
  | EmptyString => EmptyString
  | String c s' => if Ascii.eqb c " "%char then s' else after_space s'
  end.

(** Step 3.3 lets the unit go on: the folder was created, or the
    failure's message begins with "Folder already exists". *)
Definition folderReady (host : Host) (v : gmap string (list Byte.byte))
    (destinationPath : string) : bool :=
  match ensureFolderExists host v destinationPath with
  | Ok _ => true
  | Throw error =>
      match message_of error with
      | Some message => Js.startsWith message "Folder already exists"
      | None => false
      end
  end.

(** The filename step 3.4 settles on for a unit that is not skipped:
    the planner's, or the incremented one under the increment policy. *)
Definition settledName (host : Host) (b : PresetBundle)
    (v : gmap string (list Byte.byte)) (destinationPath newFilename : string)
  : Result string :=
  if conflictPolicyIs b "increment" then
    handleNameConflicts host v destinationPath newFilename "increment"
  else Ok newFilename.

(** The effects the vault and the transcoding service see. *)
Definition isWrite (e : Effect) : bool :=
  match e with ECreateBinary _ _ => true | _ => false end.

Definition isTranscoding (e : Effect) : bool :=
  match e with EProcessImage _ _ => true | _ => false end.

Definition isNotice (e : Effect) : bool :=
  match e with ENotice _ => true | _ => false end.

Definition isConsole (e : Effect) : bool :=
  match e with EConsole _ _ => true | _ => false end.

(** The editor calls of a link insertion: [replaceRange], then
    [setCursor] behind the link when the cursor goes to the back. *)
Definition linkEffects (settings : ImageConverterSettings)
    (pos : EditorPosition) (formattedLink : string) : list Effect :=
  EReplaceRange formattedLink pos ::
  if String.eqb (cursorLocation settings) "back" then
    [ESetCursor {| line := line pos; ch := ch pos + Js.length formattedLink |}]
  else [].

(** The world after a link was inserted. *)
Definition linked (host : Host) (settings : ImageConverterSettings)
    (pos : EditorPosition) (formattedLink : string) (w : World) : World :=
  {| vault := vault w;
     cursor :=
       if String.eqb (cursorLocation settings) "back" then
         {| line := line pos; ch := ch pos + Js.length formattedLink |}
       else cursorAfterInsert host (cursor w) formattedLink pos;
     trace := trace w ++ linkEffects settings pos formattedLink |}.

(** The world after an entry was created. *)
Definition written (p : string) (data : list Byte.byte) (w : World) : World :=
  {| vault := <[p := data]> (vault w); cursor := cursor w; trace := trace w |}.

(** An entry sits at the settled path and the policy is to reuse it. *)
Definition reuseHit (b : PresetBundle) (v : gmap string (list Byte.byte))
    (destinationPath newFilename : string) : bool :=
  conflictPolicyIs b "reuse" &&
  bool_decide (is_Some (v !! (destinationPath +:+ "/" +:+ newFilename))).

(** The unit gets as far as step 3.5.2 with the filename [settled]. *)
Definition reachesProcessing (host : Host) (file : File) (b : PresetBundle)
    (v : gmap string (list Byte.byte))
    (destinationPath newFilename settled : string) : Prop :=
  folderReady host v destinationPath = true /\
  skipsRename host file b = false /\
  settledName host b v destinationPath newFilename = Ok settled /\
  reuseHit b v destinationPath settled = false.

(** Neither a vault write nor a call of the transcoding service. *)
Definition quiet (e : Effect) : bool := negb (isWrite e) && negb (isTranscoding e).

(** The world with some actions put before its trace. *)
Definition retraced (t : list Effect) (w : World) : World :=
  {| vault := vault w; cursor := cursor w; trace := t ++ trace w |}.

(** A task that never reads the trace: on a world with a longer past it
    ends the same way and adds the same actions. *)
Definition traceBlind {A : Type} (m : Task A) : Prop :=
  forall t w, m (retraced t w) = (fst (m w), retraced t (snd (m w))).

(** The notices of the two skip branches (main.ts 529-531 and 567). *)
Definition skippedRenameNotice (file : File) : string :=
  "Skipped renaming/conversion of image " +:+ quoted (file_name file) +:+
  " due to skip pattern match.".

Definition skippedConversionNotice (file : File) : string :=
  "Skipped conversion of image " +:+ quoted (file_name file) +:+
  " due to skip pattern match in the conversion preset.".

(** The notice of the revert branch (main.ts 629). *)
Definition usingOriginalNotice (file : File) : string :=
  "Using original image for " +:+ quoted (file_name file) +:+
  " as processed image is larger.".

(** What showSizeComparisonNotification records. *)
Definition sizeComparisonEffects (settings : ImageConverterSettings)
    (originalSize newSize : Z) : list Effect :=
  if showSpaceSavedNotification settings then
    [ENotice (sizeComparisonMessage originalSize newSize)]
  else [].


(** The revert-if-larger property as the specification words it: with
    the revert setting on and a transcoded result larger than the original,
    the original bytes are what is written, and the size notice shows the
    original size on both sides. *)
Definition revertNoticeShowsOriginalTwice (host : Host)
    (settings : ImageConverterSettings) (k : EventKind) (file : File)
    (activeFile : TAbstractFile) (pos : EditorPosition) (b : PresetBundle)
    (w : World) (newFullPath : string) : Prop :=
  revertToOriginalIfLarger settings = true ->
  (exists processedImage,
     processImage host file (processArgs settings (selConversion b))
     = Ok processedImage /\
     byteLength processedImage > file_size file) ->
  let after := snd (unitOf host settings k activeFile pos file w) in
  vault after !! newFullPath = Some (file_content file) /\
  ENotice (sizeComparisonMessage (file_size file) (file_size file)) ∈ trace after.

(** A task that never stays unsettled. *)
Definition settles {A : Type} (m : Task A) : Prop :=
  forall w, fst (m w) <> Pending.

(** A task that always fulfils. *)
Definition fulfils {A : Type} (m : Task A) : Prop :=
  forall w, exists a, fst (m w) = Fulfilled a.

(** Stored presets are used: the modal behaviour is neither "ask" nor
    "always". *)
Definition usesStoredPresets (settings : ImageConverterSettings) : Prop :=
  String.eqb (modalBehavior settings) "ask" = false /\
  String.eqb (modalBehavior settings) "always" = false.

(** [r] is what a stored collection gives for a name: [undefined] only
    for an empty collection, otherwise one of its presets, and one of that
    name when the collection has one. *)
Definition resolvedFrom {T : Type} `{Named T}
    (name : string) (presetArray : list T) (r : option T) : Prop :=
  (r = None <-> presetArray = []) /\
  (forall p, r = Some p -> p ∈ presetArray) /\
  ((exists p, p ∈ presetArray /\ name_of p = name) ->
   exists q, r = Some q /\ name_of q = name).

(** One of the dialogs of a unit's preset resolution throws [e]: the
    confirmation in "ask" mode, or the preset modal once it is shown. *)
Definition dialogThrows (host : Host) (settings : ImageConverterSettings)
    (file : File) (e : Thrown) : Prop :=
  (String.eqb (modalBehavior settings) "ask" = true /\
   (confirmDialog host file = PromptThrows e \/
    (confirmDialog host file = Answered tt /\
     presetSelectionModal host file = PromptThrows e))) \/
  (String.eqb (modalBehavior settings) "ask" = false /\
   String.eqb (modalBehavior settings) "always" = true /\
   presetSelectionModal host file = PromptThrows e).

(** A task that calls the transcoding service at most [t] times and
    [createBinary] at most [c] times, and leaves the vault as it was or with
    one more entry, of [allowed] content. *)
Definition bounded {A : Type} (t c : nat) (allowed : list Byte.byte -> Prop)
    (m : Task A) : Prop :=
  forall w, exists es,
    trace (snd (m w)) = trace w ++ es /\
    (length (List.filter isTranscoding es) <= t)%nat /\
    (length (List.filter isWrite es) <= c)%nat /\
    (vault (snd (m w)) = vault w \/
     ((1 <= c)%nat /\
      exists p data, allowed data /\ vault (snd (m w)) = <[p := data]> (vault w))).

(** What a unit for [file] may write: the file's own bytes, or what the
    transcoding service made of the file. *)
Definition originalOrTranscoded (host : Host) (file : File)
    (data : list Byte.byte) : Prop :=
  data = file_content file \/ exists args, processImage host file args = Ok data.

(** The bytes step 3.5.4 hands to [createBinary]: the original ones when
    reverting is on and the transcoded result is strictly larger, the
    transcoded ones otherwise. *)
Definition materialized (settings : ImageConverterSettings) (file : File)
    (processedImage : list Byte.byte) : list Byte.byte :=
  if revertToOriginalIfLarger settings &&
     (byteLength processedImage >? file_size file)
  then file_content file else processedImage.

(** What steps 3.5.3 and 3.5.4 record up to and including the call of
    [createBinary]. *)
Definition transcodingEffects (settings : ImageConverterSettings) (file : File)
    (b : PresetBundle) (processedImage : list Byte.byte) (newFullPath : string)
  : list Effect :=
  [EProcessImage (file_name file) (processArgs settings (selConversion b))] ++
  sizeComparisonEffects settings (file_size file) (byteLength processedImage) ++
  (if revertToOriginalIfLarger settings &&
      (byteLength processedImage >? file_size file)
   then [ENotice (usingOriginalNotice file)] else []) ++
  [ECreateBinary newFullPath (materialized settings file processedImage)].

(** The [itemData] the paste handler builds from the clipboard's items
    (main.ts 355-360). *)
Definition itemDataOf (items : list ClipboardItem) : list ItemData :=
  List.map
    (fun item =>
       {| data_kind := kind item;
          data_type := item_type item;
          data_file :=
            if String.eqb (kind item) "file" then getAsFile item else None |})
    items.

(** Whether a drop event gets as far as the gate and passes it: it has
    its data, the editor finds a position for the mouse, and some file
    passes (main.ts 312-333). *)
Definition dropOpensGate (host : Host) (settings : ImageConverterSettings)
    (evt : DragEvent) : bool :=
  match dataTransfer evt, posAtMouse evt with
  | Some files, Some _ => existsb (dropGate host settings) files
  | _, _ => false
  end.

(** The same for a paste event, which needs no position (main.ts 347-368). *)
Definition pasteOpensGate (host : Host) (settings : ImageConverterSettings)
    (evt : ClipboardEvent) : bool :=
  match clipboardData evt with
  | Some items => existsb (pasteGate host settings) (itemDataOf items)
  | None => false
  end.

(** What an event that does not open the gate leaves: the outcome is
    fulfilled, vault and cursor are as before, and at most one console
    entry was recorded, none when the event was [complete]. *)
Definition leftToTheHost (complete : bool) (w : World)
    (run : Outcome unit * World) : Prop :=
  fst run = Fulfilled tt /\
  vault (snd run) = vault w /\
  cursor (snd run) = cursor w /\
  exists es,
    trace (snd run) = trace w ++ es /\
    forallb isConsole es = true /\
    (length es <= 1)%nat /\
    (es = [] <-> complete = true).

(** What a handler does apart from what it reports: notices and console
    entries are reports, everything else is an act. *)
Definition isReport (e : Effect) : bool := isNotice e || isConsole e.

Definition acts (w : World) : list Effect :=
  List.filter (fun e => negb (isReport e)) (trace w).

(** Two worlds with the same vault, the same cursor and the same acts. *)
Definition sameActs (w1 w2 : World) : Prop :=
  vault w1 = vault w2 /\ cursor w1 = cursor w2 /\ acts w1 = acts w2.

(** Two tasks that, from worlds with the same acts, leave worlds with the
    same acts; [twin] tasks also end the same way. *)
Definition alike {A B : Type} (m1 : Task A) (m2 : Task B) : Prop :=
  forall w1 w2, sameActs w1 w2 -> sameActs (snd (m1 w1)) (snd (m2 w2)).

Definition twin {A : Type} (m1 m2 : Task A) : Prop :=
  forall w1 w2, sameActs w1 w2 ->
    fst (m1 w1) = fst (m2 w2) /\ sameActs (snd (m1 w1)) (snd (m2 w2)).

(** A task that only reports. *)
Definition mute {A : Type} (m : Task A) : Prop :=
  forall w, sameActs w (snd (m w)).

(** A task all of whose recorded actions satisfy [P]. *)
Definition emits {A : Type} (P : Effect -> Prop) (m : Task A) : Prop :=
  forall w, exists es, trace (snd (m w)) = trace w ++ es /\ Forall P es.

(** The editor calls an event at [pos] may make: text is inserted at
    [pos] itself, and the cursor is set only when it goes to the back, on
    the line of [pos] and not before it.  [preventDefault] is the
    registered handler's call, not the pipeline's. *)
Definition atEventPosition (settings : ImageConverterSettings)
    (pos : EditorPosition) (e : Effect) : Prop :=
  match e with
  | EReplaceRange _ p => p = pos
  | ESetCursor p =>
      cursorLocation settings = "back" /\ line p = line pos /\ ch pos <= ch p
  | EPreventDefault => False
  | _ => True
  end.

(** ** Settings on disk (main.ts 284-291)

    The settings object and the plugin's data file are maps from property
    names to values; the values are the JSON values the data file can
    hold, so a property without a value is an absent one.  [loadData]
    gives [None] while no data file exists. *)

Section StoredSettings.

Context {V : Type} (DEFAULT_SETTINGS : gmap string V).

(** [Object.assign(target, ...sources)]: the own properties of each source
    are copied onto the target in turn, a later source winning; a [null]
    source is skipped. *)
Definition Object_assign
    (target : gmap string V) (sources : list (option (gmap string V)))
  : gmap string V :=
  foldl (fun acc source =>
           match source with
           | Some o => o ∪ acc
           | None => acc
           end)
        target sources.

Record SettingsStore := {
  plugin_settings : gmap string V;        (* this.settings *)
  data_json : option (gmap string V);     (* what loadData returns *)
}.

Definition loadSettings (p : SettingsStore) : SettingsStore :=
  {| plugin_settings := Object_assign ∅ [Some DEFAULT_SETTINGS; data_json p];
     data_json := data_json p |}.

Definition saveSettings (p : SettingsStore) : SettingsStore :=
  {| plugin_settings := plugin_settings p;
     data_json := Some (plugin_settings p) |}.

End StoredSettings.

(** ** Components and registrations (main.ts 86-277)

    The plugin's optional components are followed as set or unset fields,
    the handlers and commands it registers as a list in registration
    order, and the calls it makes on its components as a list in call
    order.  The constructors of the components and their [onload] and
    [onunload] are taken to return; [ImageAlignmentManager.initialize()]
    is awaited and may fulfil, reject or stay pending.  The components
    created unconditionally at the start and the default given to a
    missing [nonDestructiveResizeSettings] are not followed. *)

Record ComponentSettings := {
  enableContextMenu : bool;
  isImageResizeEnbaled : bool;
  isImageAlignmentEnabled : bool;
}.

Record Platform := {
  isMobile : bool;
  activeMarkdownView : bool;      (* getActiveViewOfType(MarkdownView) *)
  initialize : Prompt unit;       (* ImageAlignmentManager.initialize() *)
}.

Inductive ComponentCall :=
  | ResizerOnload
  | ManagerInitialize
  | ContextMenuOnunload
  | ImageAlignmentOnunload
  | ManagerCleanupObserver
  | ManagerOnunload
  | ResizerOnunload.

Inductive Registration :=
  | WorkspaceEvent (name : string)
  | Command (id : string).

Record Plugin := {
  contextMenu : bool;
  imageResizer : bool;
  ImageAlignmentManager : bool;
  imageAlignment : bool;
  registered : list Registration;
  called : list ComponentCall;
}.

(** The plugin before [onLayoutReady] fires. *)
Definition freshPlugin : Plugin :=
  {| contextMenu := false; imageResizer := false;
     ImageAlignmentManager := false; imageAlignment := false;
     registered := []; called := [] |}.

Definition register (rs : list Registration) (p : Plugin) : Plugin :=
  {| contextMenu := contextMenu p; imageResizer := imageResizer p;
     ImageAlignmentManager := ImageAlignmentManager p;
     imageAlignment := imageAlignment p;
     registered := registered p ++ rs; called := called p |}.

Definition call (cs : list ComponentCall) (p : Plugin) : Plugin :=
  {| contextMenu := contextMenu p; imageResizer := imageResizer p;
     ImageAlignmentManager := ImageAlignmentManager p;
     imageAlignment := imageAlignment p;
     registered := registered p; called := called p ++ cs |}.

(** dropPaste_registerEvents (main.ts 304-376). *)
Definition dropPaste_registerEvents (platform : Platform) (p : Plugin) : Plugin :=
  if isMobile platform then p
  else register [WorkspaceEvent "editor-drop"; WorkspaceEvent "editor-paste"] p.

(** initializeComponents (main.ts 86-260). *)
Definition initializeComponents
    (flags : ComponentSettings) (platform : Platform) (p : Plugin)
  : Outcome unit * Plugin :=
  let p :=
    if enableContextMenu flags then
      {| contextMenu := true; imageResizer := imageResizer p;
         ImageAlignmentManager := ImageAlignmentManager p;
         imageAlignment := imageAlignment p;
         registered := registered p; called := called p |}
    else p in
  let p :=
    if isImageResizeEnbaled flags then
      let p :=
        {| contextMenu := contextMenu p; imageResizer := true;
           ImageAlignmentManager := ImageAlignmentManager p;
           imageAlignment := imageAlignment p;
           registered := registered p; called := called p |} in
      if activeMarkdownView platform then call [ResizerOnload] p else p
    else p in
  let rest (p : Plugin) : Outcome unit * Plugin :=
    let p := register [WorkspaceEvent "active-leaf-change";
                       WorkspaceEvent "editor-change";
                       WorkspaceEvent "layout-change"] p in
    let p := dropPaste_registerEvents platform p in
    let p := register [WorkspaceEvent "file-menu"] p in
    let p := register [Command "process-all-vault-images";
                       Command "process-all-images-current-note";
                       Command "open-image-converter-settings"] p in
    (Fulfilled tt, p) in
  if isImageAlignmentEnabled flags then
    let p :=
      call [ManagerInitialize]
        {| contextMenu := contextMenu p; imageResizer := imageResizer p;
           ImageAlignmentManager := true;
           imageAlignment := imageAlignment p;
           registered := registered p; called := called p |} in
    match initialize platform with
    | Answered _ =>
        rest {| contextMenu := contextMenu p; imageResizer := imageResizer p;
                ImageAlignmentManager := ImageAlignmentManager p;
                imageAlignment := true;
                registered := registered p; called := called p |}
    | Unanswered => (Pending, p)
    | PromptThrows e => (Rejected e, p)
    end
  else rest p.

(** onunload (main.ts 262-277). *)
Definition onunload (p : Plugin) : Plugin :=
  let p := if contextMenu p then call [ContextMenuOnunload] p else p in
  let p := if imageAlignment p then call [ImageAlignmentOnunload] p else p in
  let p :=
    if ImageAlignmentManager p then
      call [ManagerCleanupObserver; ManagerOnunload] p
    else p in
  if imageResizer p then call [ResizerOnunload] p else p.

(** The registrations of a completed initialization, in order. *)
Definition allRegistrations (platform : Platform) : list Registration :=
  [WorkspaceEvent "active-leaf-change"; WorkspaceEvent "editor-change";
   WorkspaceEvent "layout-change"] ++
  (if isMobile platform then []
   else [WorkspaceEvent "editor-drop"; WorkspaceEvent "editor-paste"]) ++
  [WorkspaceEvent "file-menu"; Command "process-all-vault-images";
   Command "process-all-images-current-note";
   Command "open-image-converter-settings"].

(** The teardown calls that belong to the components the settings ask
    for; the ImageAlignment exists only once [initialize()] has fulfilled. *)
Definition teardownOf (flags : ComponentSettings) (platform : Platform)
  : list ComponentCall :=
  (if enableContextMenu flags then [ContextMenuOnunload] else []) ++
  (if isImageAlignmentEnabled flags &&
      match initialize platform with Answered _ => true | _ => false end
   then [ImageAlignmentOnunload] else []) ++
  (if isImageAlignmentEnabled flags
   then [ManagerCleanupObserver; ManagerOnunload] else []) ++
  (if isImageResizeEnbaled flags then [ResizerOnunload] else []).

(** ** A concrete vault, host and settings

    A small configuration on which the statements below are run: one PNG
    of four bytes dropped on a note, a host whose planner puts every file
    under [attachments/], and a vault that refuses to create an entry
    where one exists. *)
Module Demo.

Import Byte.

Definition png : list Byte.byte := [x89; x50; x4e; x47].

Definition photo : File :=
  {| file_name := "photo.png"; file_type := "image/png"; file_content := png |}.

Definition sketch : File :=
  {| file_name := "sketch.png"; file_type := "image/png";
     file_content := [x89; x50; x4e; x47; x0d; x0a] |}.

Definition smaller : list Byte.byte := [x52; x49].
Definition larger : list Byte.byte := [x52; x49; x46; x46; x57; x45; x42; x50].

Definition note : TAbstractFile := {| path := "notes/today.md" |}.

Definition conversion (skip : string) : ConversionPreset :=
  {| conv_name := "webp"; outputFormat := "WEBP"; quality := 80; colorDepth := 1 # 1;
     resizeMode := "None"; desiredWidth := 800; desiredHeight := 600;
     desiredLongestEdge := 1000; enlargeOrReduce := "Auto";
     allowLargerFiles := false; skipConversionPatterns := skip |}.

Definition filename (policy skip : string) : FilenamePreset :=
  {| fn_name := "keep"; conflictResolution := policy; skipRenamePatterns := skip |}.

Definition folder : FolderPreset := {| folder_name := "attachments" |}.

Definition wikilink : LinkFormatPreset :=
  {| lf_name := "wiki"; linkFormat := "wikilink"; pathFormat := "shortest" |}.

Definition noResize : NonDestructiveResizePreset := {| rs_name := "none" |}.

(** Settings whose stored presets are the ones above. *)
Definition settings (modal policy skipRename skipConversion : string)
    (revert : bool) (cursorAt : string) : ImageConverterSettings :=
  {| modalBehavior := modal;
     selectedConversionPreset := "webp";
     conversionPresets := [conversion skipConversion];
     selectedFilenamePreset := "keep";
     filenamePresets := [filename policy skipRename];
     selectedFolderPreset := "attachments";
     folderPresets := [folder];
     linkFormatSettings :=
       {| selectedLinkFormatPreset := "wiki"; linkFormatPresets := [wikilink] |};
     nonDestructiveResizeSettings :=
       {| selectedResizePreset := "none"; resizePresets := [noResize] |};
     neverProcessFilenames := "sketch.png";
     revertToOriginalIfLarger := revert;
     showSpaceSavedNotification := true;
     cursorLocation := cursorAt;
     settings_conversion := conversion skipConversion |}.

(** The bundle preset resolution gives for these settings. *)
Definition bundle (policy skipRename skipConversion : string) : PresetBundle :=
  {| selConversion := Some (conversion skipConversion);
     selFilename := Some (filename policy skipRename);
     selFolder := Some folder;
     selLinkFormat := Some wikilink;
     selResize := Some noResize |}.

(** A host with a chosen transcoding result, folder-creation result and
    preset-modal behaviour; a pattern matches a name equal to it, and an
    insertion pushes a cursor to its right on the same line along. *)
Definition host (transcoded : Result (list Byte.byte)) (folderCreated : Result unit)
    (modal : Prompt PresetBundle) : Host :=
  {| isSupported := fun mime _ => String.prefix "image/" mime;
     matches_patterns := fun name patterns => String.eqb name patterns;
     should_skip_rename := fun name f => String.eqb name (skipRenamePatterns f);
     should_skip_conversion := fun name c => String.eqb name (skipConversionPatterns c);
     determineDestination := fun _ f _ _ _ _ => Ok ("attachments", file_name f);
     ensureFolderExists := fun _ _ => folderCreated;
     handleNameConflicts := fun v dir name _ =>
       match v !! (dir +:+ "/" +:+ name) with
       | Some _ => Ok ("1-" +:+ name)
       | None => Ok name
       end;
     combinePath := fun a b => a +:+ "/" +:+ b;
     processImage := fun _ _ => transcoded;
     formatLink := fun p _ _ _ _ => Ok ("![[" +:+ p +:+ "]]");
     confirmDialog := fun _ => Answered tt;
     presetSelectionModal := fun _ => modal;
     getActiveFile := Some note;
     cursorAfterInsert := fun c text at_pos =>
       if (line c =? line at_pos) && (ch at_pos <? ch c) then
         {| line := line c; ch := ch c + Js.length text |}
       else c;
     createBinary_fault := fun v p =>
       match v !! p with
       | Some _ => Some (CreateThrows (ErrorObj "File already exists."))
       | None => None
       end |}.

(** The same host with a preset modal that answers per file. *)
Definition withModal (modal : File -> Prompt PresetBundle) (h : Host) : Host :=
  {| isSupported := isSupported h;
     matches_patterns := matches_patterns h;
     should_skip_rename := should_skip_rename h;
     should_skip_conversion := should_skip_conversion h;
     determineDestination := determineDestination h;
     ensureFolderExists := ensureFolderExists h;
     handleNameConflicts := handleNameConflicts h;
     combinePath := combinePath h;
     processImage := processImage h;
     formatLink := formatLink h;
     confirmDialog := confirmDialog h;
     presetSelectionModal := modal;
     getActiveFile := getActiveFile h;
     cursorAfterInsert := cursorAfterInsert h;
     createBinary_fault := createBinary_fault h |}.

(** The same host with a confirmation dialog that answers per file. *)
Definition withConfirm (confirm : File -> Prompt unit) (h : Host) : Host :=
  {| isSupported := isSupported h;
     matches_patterns := matches_patterns h;
     should_skip_rename := should_skip_rename h;
     should_skip_conversion := should_skip_conversion h;
     determineDestination := determineDestination h;
     ensureFolderExists := ensureFolderExists h;
     handleNameConflicts := handleNameConflicts h;
     combinePath := combinePath h;
     processImage := processImage h;
     formatLink := formatLink h;
     confirmDialog := confirm;
     presetSelectionModal := presetSelectionModal h;
     getActiveFile := getActiveFile h;
     cursorAfterInsert := cursorAfterInsert h;
     createBinary_fault := createBinary_fault h |}.


(** The same host with another filename incrementer. *)
Definition withNameConflicts
    (increment : gmap string (list Byte.byte) -> string -> string -> string ->
                 Result string)
    (h : Host) : Host :=
  {| isSupported := isSupported h;
     matches_patterns := matches_patterns h;
     should_skip_rename := should_skip_rename h;
     should_skip_conversion := should_skip_conversion h;
     determineDestination := determineDestination h;
     ensureFolderExists := ensureFolderExists h;
     handleNameConflicts := increment;
     combinePath := combinePath h;
     processImage := processImage h;
     formatLink := formatLink h;
     confirmDialog := confirmDialog h;
     presetSelectionModal := presetSelectionModal h;
     getActiveFile := getActiveFile h;
     cursorAfterInsert := cursorAfterInsert h;
     createBinary_fault := createBinary_fault h |}.

(** The same host without an active note. *)
Definition withoutActiveFile (h : Host) : Host :=
  {| isSupported := isSupported h;
     matches_patterns := matches_patterns h;
     should_skip_rename := should_skip_rename h;
     should_skip_conversion := should_skip_conversion h;
     determineDestination := determineDestination h;
     ensureFolderExists := ensureFolderExists h;
     handleNameConflicts := handleNameConflicts h;
     combinePath := combinePath h;
     processImage := processImage h;
     formatLink := formatLink h;
     confirmDialog := confirmDialog h;
     presetSelectionModal := presetSelectionModal h;
     getActiveFile := None;
     cursorAfterInsert := cursorAfterInsert h;
     createBinary_fault := createBinary_fault h |}.

(** A preset modal that fails to open for [sketch.png] and is answered
    with the stored presets for every other file. *)
Definition modalFailingForSketch (f : File) : Prompt PresetBundle :=
  if String.eqb (file_name f) "sketch.png" then
    PromptThrows (ErrorObj "modal failed to open")
  else Answered (bundle "increment" "" "").

Definition diagram : File :=
  {| file_name := "diagram.png"; file_type := "image/png";
     file_content := [x89; x50; x4e; x47; x1a] |}.

Definition pasted (f : File) : ItemData :=
  {| data_kind := "file"; data_type := file_type f; data_file := Some f |}.

Definition origin : EditorPosition := {| line := 3; ch := 7 |}.

(** An empty vault, and one that already holds [attachments/photo.png]. *)
Definition emptyWorld : World :=
  {| vault := ∅; cursor := origin; trace := [] |}.

Definition worldWithPhoto : World :=
  {| vault := {[ "attachments/photo.png" := png ]}; cursor := origin; trace := [] |}.

End Demo.

(** * Properties *)

(** ** Number formatting *)

Example formatFileSize_512 : formatFileSize 512 = "512 bytes".
Proof. reflexivity. Qed.

Example formatFileSize_1280 : formatFileSize 1280 = "1.3 KB".
Proof. reflexivity. Qed.

Example formatFileSize_2MB : formatFileSize 2097152 = "2.0 MB".
Proof. reflexivity. Qed.

Example toFixed1_minus_small : Js.toFixed1 (-1 # 25) = "-0.0".
Proof. reflexivity. Qed.

Lemma tenths_nearest (n : Z) (d : positive) :
  0 <= n -> nearest_tenth n (Z.pos d) (Js.tenths n d).
Proof.
  intros Hn. unfold nearest_tenth, Js.tenths.
  rewrite (Z.abs_eq n) by exact Hn.
  pose proof (Z.div_mod (20 * n + Z.pos d) (2 * Z.pos d)) as Hdm.
  pose proof (Z.mod_pos_bound (20 * n + Z.pos d) (2 * Z.pos d)) as Hb.
  set (t := (20 * n + Z.pos d) / (2 * Z.pos d)) in *.
  set (r := (20 * n + Z.pos d) mod (2 * Z.pos d)) in *.
  lia.
Qed.

Lemma no_space_app (a b : string) :
  no_space (a +:+ b) = no_space a && no_space b.
Proof.
  induction a as [|c a IH]; simpl; [reflexivity|].
  rewrite IH. now rewrite andb_assoc.
Qed.

Lemma no_space_uint (d : Decimal.uint) : no_space (NilEmpty.string_of_uint d) = true.
Proof. induction d; simpl; auto. Qed.

Lemma no_space_of_int (z : Z) : no_space (Js.of_int z) = true.
Proof.
  unfold Js.of_int, NilZero.string_of_int, NilZero.string_of_uint.
  destruct (Z.to_int z) as [d|d]; destruct d; simpl; auto using no_space_uint.
Qed.

Lemma no_space_one_decimal (t : Z) : no_space (Js.one_decimal t) = true.
Proof.
  unfold Js.one_decimal. rewrite !no_space_app, !no_space_of_int. reflexivity.
Qed.

Lemma after_space_app (a u : string) :
  no_space a = true -> after_space (a +:+ String " "%char u) = u.
Proof.
  induction a as [|c a IH]; simpl; [reflexivity|].
  intros Hh. apply andb_prop in Hh as [Hc Ha].
  destruct (Ascii.eqb c " "%char); [discriminate|]. auto.
Qed.

Lemma toFixed1_nonneg (n : Z) (d : positive) :
  0 <= n -> Js.toFixed1 (n # d) = Js.one_decimal (Js.tenths n d).
Proof.
  intros Hn. unfold Js.toFixed1. simpl.
  destruct (Z.ltb_spec n 0); [lia|]. reflexivity.
Qed.

(** The three branches of [formatFileSize]. *)
Lemma formatFileSize_cases (n : Z) :
  0 <= n ->
  (n < 1024 -> formatFileSize n = Js.of_int n +:+ " bytes") /\
  (1024 <= n < 1048576 ->
   formatFileSize n = Js.one_decimal (Js.tenths n 1024) +:+ " KB") /\
  (1048576 <= n ->
   formatFileSize n = Js.one_decimal (Js.tenths n 1048576) +:+ " MB").
Proof.
  intros Hn. unfold formatFileSize.
  change (1024 * 1024) with 1048576.
  repeat split; intros Hr.
  - destruct (Z.ltb_spec n 1024); [reflexivity | lia].
  - destruct (Z.ltb_spec n 1024); [lia|].
    destruct (Z.ltb_spec n 1048576); [|lia].
    now rewrite toFixed1_nonneg.
  - destruct (Z.ltb_spec n 1024); [lia|].
    destruct (Z.ltb_spec n 1048576); [lia|].
    change (1024 * 1024)%positive with 1048576%positive.
    now rewrite toFixed1_nonneg.
Qed.

(** The unit a formatted size ends with tells the branch it came from. *)
Lemma formatFileSize_unit (n : Z) :
  0 <= n ->
  after_space (formatFileSize n) =
    if n <? 1024 then "bytes" else if n <? 1048576 then "KB" else "MB".
Proof.
  intros Hn. destruct (formatFileSize_cases n Hn) as (Hb & Hk & Hm).
  destruct (Z.ltb_spec n 1024).
  - rewrite Hb by assumption. apply after_space_app, no_space_of_int.
  - destruct (Z.ltb_spec n 1048576).
    + rewrite Hk by lia. apply after_space_app, no_space_one_decimal.
    + rewrite Hm by lia. apply after_space_app, no_space_one_decimal.
Qed.

(** C10. For a byte count [n >= 0], [formatFileSize n] is the count in
    plain bytes exactly when [n < 1024], a nearest one-decimal value of
    [n / 1024] followed by KB exactly when [1024 <= n < 1048576], and a
    nearest one-decimal value of [n / 1048576] followed by MB exactly
    when [1048576 <= n]. *)
Theorem formatFileSize_boundaries (n : Z) :
  0 <= n ->
  (n < 1024 <-> formatFileSize n = Js.of_int n +:+ " bytes") /\
  (1024 <= n < 1048576 <->
   exists t, nearest_tenth n 1024 t /\
             formatFileSize n = Js.one_decimal t +:+ " KB") /\
  (1048576 <= n <->
   exists t, nearest_tenth n 1048576 t /\
             formatFileSize n = Js.one_decimal t +:+ " MB").
Proof.
  intros Hn.
  destruct (formatFileSize_cases n Hn) as (Hb & Hk & Hm).
  pose proof (formatFileSize_unit n Hn) as Hu.
  split; [|split]; split.
  - exact Hb.
  - intros He. rewrite He, after_space_app in Hu by apply no_space_of_int.
    destruct (Z.ltb_spec n 1024); [assumption|].
    destruct (n <? 1048576); discriminate.
  - intros Hr. exists (Js.tenths n 1024). split.
    + now apply (tenths_nearest n 1024).
    + now apply Hk.
  - intros (t & _ & He).
    rewrite He, after_space_app in Hu by apply no_space_one_decimal.
    destruct (Z.ltb_spec n 1024); [discriminate|].
    destruct (Z.ltb_spec n 1048576); [lia | discriminate].
  - intros Hr. exists (Js.tenths n 1048576). split.
    + now apply (tenths_nearest n 1048576).
    + now apply Hm.
  - intros (t & _ & He).
    rewrite He, after_space_app in Hu by apply no_space_one_decimal.
    destruct (Z.ltb_spec n 1024); [discriminate|].
    destruct (Z.ltb_spec n 1048576); [discriminate | assumption].
Qed.

(** C10 at a concrete count: 1280 bytes are 1.3 KB. *)
Lemma formatFileSize_boundaries_witness :
  0 <= 1280 /\
  (1024 <= 1280 < 1048576 <->
   exists t, nearest_tenth 1280 1024 t /\
             formatFileSize 1280 = Js.one_decimal t +:+ " KB").
Proof.
  split; [lia|].
  apply (formatFileSize_boundaries 1280). lia.
Defined.

(** ** Preset resolution *)

Lemma find_none_absent {T : Type} (f : T -> bool) (l : list T) :
  List.find f l = None <-> (forall x, x ∈ l -> f x = false).
Proof.
  split.
  - intros Hf x Hx. apply list_elem_of_In in Hx.
    exact (List.find_none f l Hf x Hx).
  - intros Hall. induction l as [|a l IH]; simpl; [reflexivity|].
    rewrite (Hall a) by constructor.
    apply IH. intros x Hx. apply Hall. now constructor.
Qed.

(** C6. On a non-empty collection [getPresetByName] never rejects and
    never yields [undefined]: when no element has the name it logs one
    warning and returns the first element; when some element has the name
    it returns such an element (the first one) and logs nothing. *)
Theorem getPresetByName_fallback {T : Type} `{Named T}
    (presetName : string) (presetArray : list T) (presetType : string) (w : World) :
  presetArray <> [] ->
  (exists p w', getPresetByName presetName presetArray presetType w
                = (Fulfilled (Some p), w') /\ p ∈ presetArray) /\
  ((forall p, p ∈ presetArray -> name_of p <> presetName) ->
   exists first rest,
     presetArray = first :: rest /\
     getPresetByName presetName presetArray presetType w =
       (Fulfilled (Some first),
        logged w [EConsole Warn
                    (presetType +:+ " preset " +:+ dq +:+ presetName +:+ dq +:+
                     " not found, using default")])) /\
  ((exists p, p ∈ presetArray /\ name_of p = presetName) ->
   exists before p after,
     presetArray = before ++ p :: after /\
     name_of p = presetName /\
     (forall q, q ∈ before -> name_of q <> presetName) /\
     getPresetByName presetName presetArray presetType w = (Fulfilled (Some p), w)).
Proof.
  intros Hne. unfold getPresetByName.
  destruct (List.find (fun p => String.eqb (name_of p) presetName) presetArray)
    as [p|] eqn:Hfind.
  - split; [|split].
    + exists p, w. split; [reflexivity|].
      apply list_elem_of_In. exact (proj1 (List.find_some _ _ Hfind)).
    + intros Habs. exfalso.
      destruct (List.find_some _ _ Hfind) as [Hin Heq].
      apply String.eqb_eq in Heq.
      exact (Habs p (proj2 (list_elem_of_In _ _) Hin) Heq).
    + intros _. clear Hne.
      induction presetArray as [|a l IH]; simpl in Hfind; [discriminate|].
      destruct (String.eqb (name_of a) presetName) eqn:Ha.
      * injection Hfind as ->. exists [], p, l.
        repeat split; [now apply String.eqb_eq | intros q Hq; inversion Hq].
      * destruct (IH Hfind) as (before & p' & after & -> & Hn & Hb & Hr).
        injection Hr as <-.
        exists (a :: before), p, after. repeat split; [assumption|].
        intros q Hq. apply elem_of_cons in Hq as [->|Hq]; [|now apply Hb].
        now apply String.eqb_neq.
  - destruct presetArray as [|first rest]; [contradiction|].
    split; [|split].
    + eexists first, _. split; [reflexivity | constructor].
    + intros _. exists first, rest. split; reflexivity.
    + intros (p & Hin & Hname). exfalso.
      pose proof (proj1 (find_none_absent _ _) Hfind p Hin) as Hp.
      simpl in Hp. apply String.eqb_neq in Hp. contradiction.
Qed.

(** C6 on the demo settings: no filename preset is called [missing], so
    the first one is used; the preset called [keep] is found. *)
Lemma getPresetByName_fallback_witness :
  [Demo.filename "reuse" ""] <> [] /\
  getPresetByName "missing" [Demo.filename "reuse" ""] "Filename" Demo.emptyWorld =
    (Fulfilled (Some (Demo.filename "reuse" "")),
     logged Demo.emptyWorld
       [EConsole Warn
          ("Filename preset " +:+ dq +:+ "missing" +:+ dq +:+
           " not found, using default")]).
Proof.
  assert (Hne : [Demo.filename "reuse" ""] <> []) by discriminate.
  split; [exact Hne|].
  destruct (proj1 (proj2 (getPresetByName_fallback "missing"
              [Demo.filename "reuse" ""] "Filename" Demo.emptyWorld Hne)))
    as (first & rest & Hlist & Hrun).
  - intros p Hp. apply list_elem_of_singleton in Hp as ->. discriminate.
  - injection Hlist as <- <-. exact Hrun.
Defined.

(** ** Recorded actions *)

Lemma logged_nil (w : World) : logged w [] = w.
Proof. destruct w. unfold logged. simpl. now rewrite app_nil_r. Qed.

Lemma logged_app (w : World) (a b : list Effect) :
  logged (logged w a) b = logged w (a ++ b).
Proof. unfold logged. simpl. now rewrite app_assoc. Qed.

Lemma vault_logged (w : World) (es : list Effect) : vault (logged w es) = vault w.
Proof. reflexivity. Qed.

Lemma cursor_logged (w : World) (es : list Effect) : cursor (logged w es) = cursor w.
Proof. reflexivity. Qed.

(** Runs the monad's primitives on the world at hand. *)
Ltac run_task :=
  unfold try_catch, bind, ret, throw, lift, notice, console_warn, console_error,
    emit, read_vault, not_awaited, unexpectedError;
  cbn;
  rewrite ?logged_app; cbn.

(** ** Link insertion *)

Section LinkInsertion.

Context (host : Host) (settings : ImageConverterSettings).
Context (linkPath : string) (pos : EditorPosition).
Context (lfp : option LinkFormatPreset) (rsp : option NonDestructiveResizePreset).

(** What a link insertion whose formatting succeeds does to the world. *)
Lemma insertLink_run (formattedLink : string) (w : World) :
  formattedLinkFor host settings linkPath lfp rsp = Ok formattedLink ->
  insertLinkAtCursorPosition host settings linkPath pos lfp rsp w =
    (Fulfilled tt, linked host settings pos formattedLink w).
Proof.
  intros Hf.
  unfold insertLinkAtCursorPosition, replaceRange, linked, linkEffects.
  rewrite Hf.
  destruct (String.eqb (cursorLocation settings) "back"); cbn.
  - now rewrite <- app_assoc.
  - reflexivity.
Qed.

(** A link insertion whose formatting throws does nothing. *)
Lemma insertLink_throw (e : Thrown) (w : World) :
  formattedLinkFor host settings linkPath lfp rsp = Throw e ->
  insertLinkAtCursorPosition host settings linkPath pos lfp rsp w = (Rejected e, w).
Proof.
  intros Hf. unfold insertLinkAtCursorPosition. now rewrite Hf.
Qed.

(** A link insertion only calls the editor. *)
Lemma insertLink_quiet (w : World) :
  let after := snd (insertLinkAtCursorPosition host settings linkPath pos lfp rsp w) in
  vault after = vault w /\
  exists es, trace after = trace w ++ es /\ forallb quiet es = true.
Proof.
  destruct (formattedLinkFor host settings linkPath lfp rsp) as [s|e] eqn:Hf.
  - rewrite (insertLink_run s w Hf). cbn. split; [reflexivity|].
    eexists. split; [reflexivity|]. unfold linkEffects.
    now destruct (String.eqb (cursorLocation settings) "back").
  - rewrite (insertLink_throw e w Hf). cbn. split; [reflexivity|].
    exists []. now rewrite app_nil_r.
Qed.

End LinkInsertion.




(** ** Units *)

Lemma getPresetByName_run {T : Type} `{Named T}
    (presetName : string) (presetArray : list T) (presetType : string) (w : World) :
  exists x es,
    getPresetByName presetName presetArray presetType w = (Fulfilled x, logged w es) /\
    forallb isConsole es = true.
Proof.
  unfold getPresetByName.
  destruct (List.find _ presetArray) as [p|].
  - exists (Some p), []. now rewrite logged_nil.
  - eexists _, [_]. split; reflexivity.
Qed.

(** Preset resolution only logs to the console: it leaves the vault and
    the cursor alone and posts no notice. *)
Lemma resolvePresets_logged (host : Host) (settings : ImageConverterSettings)
    (file : File) (w : World) :
  exists es, snd (resolvePresets host settings file w) = logged w es /\
             forallb isConsole es = true.
Proof.
  assert (Hmodal : exists es,
             snd (await_prompt (presetSelectionModal host file) w) = logged w es /\
             forallb isConsole es = true).
  { exists []. rewrite logged_nil.
    destruct (presetSelectionModal host file); split; reflexivity. }
  assert (Hstored : exists es,
    snd ((let* c := getPresetByName (selectedConversionPreset settings)
                      (conversionPresets settings) "Conversion" in
          let* f := getPresetByName (selectedFilenamePreset settings)
                      (filenamePresets settings) "Filename" in
          let* d := getPresetByName (selectedFolderPreset settings)
                      (folderPresets settings) "Folder" in
          let* l := getPresetByName
                      (selectedLinkFormatPreset (linkFormatSettings settings))
                      (linkFormatPresets (linkFormatSettings settings))
                      "Link Format" in
          let* r := getPresetByName
                      (selectedResizePreset (nonDestructiveResizeSettings settings))
                      (resizePresets (nonDestructiveResizeSettings settings))
                      "Resize" in
          ret {| selConversion := c; selFilename := f; selFolder := d;
                 selLinkFormat := l; selResize := r |}) w) = logged w es /\
    forallb isConsole es = true).
  { unfold bind.
    destruct (getPresetByName_run (selectedConversionPreset settings)
                (conversionPresets settings) "Conversion" w) as (c & e1 & -> & H1).
    destruct (getPresetByName_run (selectedFilenamePreset settings)
                (filenamePresets settings) "Filename" (logged w e1))
      as (f & e2 & -> & H2).
    destruct (getPresetByName_run (selectedFolderPreset settings)
                (folderPresets settings) "Folder" (logged (logged w e1) e2))
      as (d & e3 & -> & H3).
    destruct (getPresetByName_run
                (selectedLinkFormatPreset (linkFormatSettings settings))
                (linkFormatPresets (linkFormatSettings settings)) "Link Format"
                (logged (logged (logged w e1) e2) e3)) as (l & e4 & -> & H4).
    destruct (getPresetByName_run
                (selectedResizePreset (nonDestructiveResizeSettings settings))
                (resizePresets (nonDestructiveResizeSettings settings)) "Resize"
                (logged (logged (logged (logged w e1) e2) e3) e4))
      as (r & e5 & -> & H5).
    exists (e1 ++ e2 ++ e3 ++ e4 ++ e5). cbn. rewrite !logged_app.
    split; [reflexivity|]. rewrite !forallb_app, H1, H2, H3, H4, H5. reflexivity. }
  unfold resolvePresets.
  destruct (String.eqb (modalBehavior settings) "ask").
  - unfold bind at 1.
    destruct (confirmDialog host file) as [[]| |e]; cbn;
      [exact Hmodal | exists []; now rewrite logged_nil ..].
  - unfold bind at 1. cbn.
    destruct (String.eqb (modalBehavior settings) "always");
      [exact Hmodal | exact Hstored].
Qed.

Lemma console_quiet (es : list Effect) :
  forallb isConsole es = true -> forallb quiet es = true.
Proof.
  induction es as [|e es IH]; [reflexivity|]. simpl. intros Hc.
  apply andb_prop in Hc as [He Hes]. rewrite (IH Hes).
  destruct e; try discriminate He. reflexivity.
Qed.

Section UnitRun.

Context (host : Host) (settings : ImageConverterSettings).
Context (k : EventKind) (file : File) (activeFile : TAbstractFile).
Context (pos : EditorPosition) (w w1 : World) (b : PresetBundle).

Hypothesis Hresolve : resolvePresets host settings file w = (Fulfilled b, w1).

Lemma resolved_world : exists es, w1 = logged w es /\ forallb quiet es = true.
Proof.
  destruct (resolvePresets_logged host settings file w) as (es & Hes & Hc).
  rewrite Hresolve in Hes. exists es. split; [exact Hes | now apply console_quiet].
Qed.

Lemma resolved_vault : vault w1 = vault w.
Proof. destruct resolved_world as (es & -> & _). reflexivity. Qed.

Lemma resolved_cursor : cursor w1 = cursor w.
Proof. destruct resolved_world as (es & -> & _). reflexivity. Qed.

(** Both handlers' units go on from preset resolution in the same way. *)
Lemma unit_resolved :
  unitOf host settings k activeFile pos file w =
  try_catch (planAndProcess host settings k file activeFile pos b)
    (unexpectedError) w1.
Proof.
  destruct k; unfold unitOf, dropUnit, pasteUnit, try_catch, bind;
    now rewrite Hresolve.
Qed.

Context (destinationPath newFilename : string).

Hypothesis Hdest :
  determineDestination host (vault w) file activeFile
    (selConversion b) (selFilename b) (selFolder b)
  = Ok (destinationPath, newFilename).

Lemma unit_planned :
  unitOf host settings k activeFile pos file w =
  try_catch (createFolder host settings k file pos b destinationPath newFilename)
    unexpectedError w1.
Proof.
  rewrite unit_resolved. unfold try_catch, planAndProcess, bind, read_vault.
  now rewrite resolved_vault, Hdest.
Qed.

(** When step 3.3 lets the unit go on, step 3.4 is next. *)
Lemma unit_folder_ready :
  folderReady host (vault w) destinationPath = true ->
  unitOf host settings k activeFile pos file w =
  try_catch (handleConflicts host settings k file pos b destinationPath newFilename)
    unexpectedError w1.
Proof.
  intros Hready. rewrite unit_planned.
  unfold try_catch, createFolder, bind, read_vault, folderReady in *.
  rewrite resolved_vault.
  destruct (ensureFolderExists host (vault w) destinationPath) as [[]|error];
    cbn in *; [reflexivity|].
  destruct (message_of error) as [m|]; [|discriminate].
  now rewrite Hready.
Qed.

(** Step 3.4 of a unit that is not skipped settles the filename and
    hands over to step 3.5. *)
Lemma unit_settled (settled : string) :
  folderReady host (vault w) destinationPath = true ->
  skipsRename host file b = false ->
  settledName host b (vault w) destinationPath newFilename = Ok settled ->
  unitOf host settings k activeFile pos file w =
  try_catch
    (processReuseOrSkip host settings k file pos b destinationPath settled
       (getAbstractFileByPath (vault w) (destinationPath +:+ "/" +:+ settled))
       false)
    unexpectedError w1.
Proof.
  intros Hready Hskip Hname. rewrite (unit_folder_ready Hready).
  unfold try_catch, handleConflicts, bind, read_vault, settledName in *.
  rewrite resolved_vault, Hskip.
  destruct (conflictPolicyIs b "increment").
  - now rewrite Hname.
  - now injection Hname as <-.
Qed.

(** A unit that reaches step 3.5.2 saves the file as it is or
    transcodes it. *)
Lemma unit_processing (settled : string) :
  reachesProcessing host file b (vault w) destinationPath newFilename settled ->
  unitOf host settings k activeFile pos file w =
  try_catch
    (if skipsConversion host file b then
       saveUnprocessed host settings k file pos b
         (combinePath host destinationPath settled) settled
     else
       processAndCreate host settings k file pos b
         (combinePath host destinationPath settled) settled)
    unexpectedError w1.
Proof.
  intros (Hready & Hskip & Hname & Hreuse).
  rewrite (unit_settled settled Hready Hskip Hname).
  unfold try_catch, processReuseOrSkip, getAbstractFileByPath, reuseHit in *.
  cbn.
  destruct (vault w !! (destinationPath +:+ "/" +:+ settled)) as [data|] eqn:Hv;
    [|reflexivity].
  rewrite bool_decide_eq_true_2 in Hreuse by eauto.
  rewrite andb_true_r in Hreuse. now rewrite Hreuse.
Qed.

End UnitRun.

(** ** The join *)

(** A unit that fulfils hands its world to the units after it and does
    not show in the join. *)
Lemma awaitAll_cons_fulfilled (u : Task unit) (rest : list (Task unit))
    (w w' : World) :
  u w = (Fulfilled tt, w') ->
  awaitAll (u :: rest) w = awaitAll rest w'.
Proof.
  intros Hu. unfold awaitAll. simpl. rewrite Hu.
  now destruct (runUnits rest w').
Qed.

(** ** Folder creation *)

(** C8. For a unit whose presets are resolved and whose destination is
    planned: when [ensureFolderExists] fails with an Error whose message
    begins with "Folder already exists", the unit goes on with step 3.4
    exactly as when the folder was created; for any other failure the unit
    ends fulfilled after one console entry and one notice, with the vault
    and the cursor as they were, and the units after it run from there. *)
Theorem folder_creation_error_policy
    (host : Host) (settings : ImageConverterSettings) (k : EventKind)
    (file : File) (activeFile : TAbstractFile) (pos : EditorPosition)
    (w w1 : World) (b : PresetBundle) (destinationPath newFilename : string) :
  resolvePresets host settings file w = (Fulfilled b, w1) ->
  determineDestination host (vault w) file activeFile
    (selConversion b) (selFilename b) (selFolder b)
  = Ok (destinationPath, newFilename) ->
  let unit := unitOf host settings k activeFile pos file in
  let next :=
    try_catch (handleConflicts host settings k file pos b destinationPath newFilename)
      unexpectedError in
  (ensureFolderExists host (vault w) destinationPath = Ok tt ->
   unit w = next w1) /\
  (forall error message,
     ensureFolderExists host (vault w) destinationPath = Throw error ->
     message_of error = Some message ->
     Js.startsWith message "Folder already exists" = true ->
     unit w = next w1) /\
  (forall error,
     ensureFolderExists host (vault w) destinationPath = Throw error ->
     (forall message, message_of error = Some message ->
                      Js.startsWith message "Folder already exists" = false) ->
     let aborted :=
       logged w1
         match message_of error with
         | Some _ =>
             [EConsole Error "Error creating folder:";
              ENotice (folderFailureNotice k destinationPath)]
         | None =>
             [EConsole Error "An unexpected error occurred:";
              ENotice "An unexpected error occurred. Check console for details."]
         end in
     unit w = (Fulfilled tt, aborted) /\
     vault aborted = vault w /\
     cursor aborted = cursor w /\
     forall siblings, awaitAll (unit :: siblings) w = awaitAll siblings aborted).
Proof.
  intros Hresolve Hdest unit next.
  split; [|split].
  - intros Hok. subst unit next.
    apply (unit_folder_ready host settings k file activeFile pos w w1 b Hresolve
             destinationPath newFilename Hdest).
    unfold folderReady. now rewrite Hok.
  - intros error message Hthrow Hmessage Hprefix. subst unit next.
    apply (unit_folder_ready host settings k file activeFile pos w w1 b Hresolve
             destinationPath newFilename Hdest).
    unfold folderReady. now rewrite Hthrow, Hmessage.
  - intros error Hthrow Hother aborted.
    assert (Hrun : unit w = (Fulfilled tt, aborted)).
    { subst unit aborted.
      rewrite (unit_planned host settings k file activeFile pos w w1 b Hresolve
                 destinationPath newFilename Hdest).
      unfold try_catch, createFolder, bind, read_vault.
      rewrite (resolved_vault host settings file w w1 b Hresolve), Hthrow.
      destruct (message_of error) as [message|]; cbn.
      - rewrite (Hother message eq_refl). now run_task.
      - now run_task. }
    split; [exact Hrun|]. split; [|split].
    + subst aborted. rewrite vault_logged.
      apply (resolved_vault host settings file w w1 b Hresolve).
    + subst aborted. rewrite cursor_logged.
      apply (resolved_cursor host settings file w w1 b Hresolve).
    + intros siblings. now apply awaitAll_cons_fulfilled.
Qed.

(** C8 on the demo host: a folder that already exists does not stop the
    drop of [photo.png]; a full disk does, with one notice. *)
Lemma folder_creation_error_policy_witness :
  (let host := Demo.host (Ok Demo.smaller)
                 (Throw (ErrorObj "Folder already exists: attachments")) Unanswered in
   let settings := Demo.settings "never" "increment" "" "" true "front" in
   unitOf host settings Drop Demo.note Demo.origin Demo.photo Demo.emptyWorld =
   try_catch
     (handleConflicts host settings Drop Demo.photo Demo.origin
        (Demo.bundle "increment" "" "") "attachments" "photo.png")
     unexpectedError Demo.emptyWorld) /\
  (let host := Demo.host (Ok Demo.smaller) (Throw (ErrorObj "ENOSPC")) Unanswered in
   let settings := Demo.settings "never" "increment" "" "" true "front" in
   unitOf host settings Paste Demo.note Demo.origin Demo.photo Demo.emptyWorld =
   (Fulfilled tt,
    logged Demo.emptyWorld
      [EConsole Error "Error creating folder:";
       ENotice "Failed to create folder: attachments"])).
Proof.
  split.
  - intros host settings.
    refine (proj1 (proj2 (folder_creation_error_policy host settings Drop
              Demo.photo Demo.note Demo.origin Demo.emptyWorld Demo.emptyWorld
              (Demo.bundle "increment" "" "") "attachments" "photo.png" _ _))
              (ErrorObj "Folder already exists: attachments")
              "Folder already exists: attachments" _ _ _);
      reflexivity.
  - intros host settings.
    refine (proj1 (proj2 (proj2 (folder_creation_error_policy host settings Paste
              Demo.photo Demo.note Demo.origin Demo.emptyWorld Demo.emptyWorld
              (Demo.bundle "increment" "" "") "attachments" "photo.png" _ _))
              (ErrorObj "ENOSPC") _ _));
      try reflexivity.
    intros message [= <-]. reflexivity.
Defined.

(** ** Transcoding failures *)



(** ** Reuse of an existing entry *)

Lemma reuse_not_increment (b : PresetBundle) :
  conflictPolicyIs b "reuse" = true -> conflictPolicyIs b "increment" = false.
Proof.
  unfold conflictPolicyIs. destruct (selFilename b) as [f|]; [|discriminate].
  intros Hreuse. apply String.eqb_eq in Hreuse. now rewrite Hreuse.
Qed.

(** C5. For a unit whose filename preset says "reuse", that is not in
    the skip-rename branch and finds an entry at the planned path: the
    unit is the insertion of a link to that entry's path and nothing
    else, so the vault is as before and neither [createBinary] nor
    [processImage] is called; when the link formats, the editor receives
    that link at the captured position. *)
Theorem reuse_short_circuit
    (host : Host) (settings : ImageConverterSettings) (k : EventKind)
    (file : File) (activeFile : TAbstractFile) (pos : EditorPosition)
    (w w1 : World) (b : PresetBundle) (destinationPath newFilename : string)
    (data : list Byte.byte) :
  resolvePresets host settings file w = (Fulfilled b, w1) ->
  determineDestination host (vault w) file activeFile
    (selConversion b) (selFilename b) (selFolder b)
  = Ok (destinationPath, newFilename) ->
  folderReady host (vault w) destinationPath = true ->
  skipsRename host file b = false ->
  conflictPolicyIs b "reuse" = true ->
  vault w !! (destinationPath +:+ "/" +:+ newFilename) = Some data ->
  let existing := destinationPath +:+ "/" +:+ newFilename in
  let unit := unitOf host settings k activeFile pos file in
  unit w =
    (Fulfilled tt,
     snd (insertLinkAtCursorPosition host settings existing pos
            (selLinkFormat b) (selResize b) w1)) /\
  vault (snd (unit w)) = vault w /\
  (exists es, trace (snd (unit w)) = trace w ++ es /\ forallb quiet es = true) /\
  (forall link,
     formattedLinkFor host settings existing (selLinkFormat b) (selResize b)
     = Ok link ->
     exists warnings,
       forallb isConsole warnings = true /\
       trace (snd (unit w)) =
         trace w ++ warnings ++ linkEffects settings pos link).
Proof.
  intros Hresolve Hdest Hready Hskip Hreuse Hentry existing unit.
  assert (Hrun : unit w =
    (Fulfilled tt,
     snd (insertLinkAtCursorPosition host settings existing pos
            (selLinkFormat b) (selResize b) w1))).
  { subst unit existing.
    rewrite (unit_settled host settings k file activeFile pos w w1 b Hresolve
               destinationPath newFilename Hdest newFilename Hready Hskip).
    - unfold try_catch, processReuseOrSkip, getAbstractFileByPath, not_awaited.
      cbn. now rewrite Hentry, Hreuse.
    - unfold settledName. now rewrite (reuse_not_increment b Hreuse). }
  destruct (resolvePresets_logged host settings file w) as (warnings & Hw1 & Hwarn).
  rewrite Hresolve in Hw1. simpl in Hw1.
  split; [exact Hrun|]. rewrite Hrun. cbn [snd].
  destruct (insertLink_quiet host settings existing pos
              (selLinkFormat b) (selResize b) w1) as (Hvault & es & Htrace & Hquiet).
  split; [|split].
  - rewrite Hvault, Hw1. reflexivity.
  - exists (warnings ++ es). rewrite Htrace, Hw1. cbn.
    rewrite <- app_assoc, forallb_app, Hquiet, (console_quiet _ Hwarn).
    split; reflexivity.
  - intros link Hlink. exists warnings. split; [exact Hwarn|].
    rewrite (insertLink_run host settings existing pos _ _ link w1 Hlink).
    rewrite Hw1. cbn. now rewrite <- app_assoc.
Qed.

(** C5 on the demo host: [photo.png] dropped where
    [attachments/photo.png] exists, with the reuse policy. *)
Lemma reuse_short_circuit_witness :
  let host := Demo.host (Ok Demo.smaller) (Ok tt) Unanswered in
  let settings := Demo.settings "never" "reuse" "" "" true "front" in
  unitOf host settings Drop Demo.note Demo.origin Demo.photo Demo.worldWithPhoto =
    (Fulfilled tt,
     snd (insertLinkAtCursorPosition host settings "attachments/photo.png"
            Demo.origin (Some Demo.wikilink) (Some Demo.noResize)
            Demo.worldWithPhoto)) /\
  trace (snd (unitOf host settings Drop Demo.note Demo.origin Demo.photo
                Demo.worldWithPhoto))
  = [EReplaceRange "![[attachments/photo.png]]" Demo.origin].
Proof.
  intros host settings.
  split; [|reflexivity].
  refine (proj1 (reuse_short_circuit host settings Drop Demo.photo Demo.note
            Demo.origin Demo.worldWithPhoto Demo.worldWithPhoto
            (Demo.bundle "reuse" "" "") "attachments" "photo.png" Demo.png
            _ _ _ _ _ _));
    reflexivity.
Defined.

(** ** The two skip patterns *)


Example skip_rename_only_trace :
  trace (snd (unitOf (Demo.host (Ok Demo.smaller) (Ok tt) Unanswered)
                (Demo.settings "never" "increment" "photo.png" "" true "front")
                Drop Demo.note Demo.origin Demo.photo Demo.emptyWorld))
  = [ENotice (skippedRenameNotice Demo.photo)].
Proof. reflexivity. Qed.



(** ** Reverting to the original *)

Lemma showSizeComparisonNotification_run (settings : ImageConverterSettings)
    (originalSize newSize : Z) (w : World) :
  showSizeComparisonNotification settings originalSize newSize w =
  (Fulfilled tt, logged w (sizeComparisonEffects settings originalSize newSize)).
Proof.
  unfold showSizeComparisonNotification, sizeComparisonEffects.
  destruct (showSpaceSavedNotification settings); cbn; [reflexivity|].
  now rewrite logged_nil.
Qed.

(** The specification's revert notice fails on the demo host: the
    transcoder turns the four bytes of [photo.png] into eight, the original
    is written, and the size notice reads "4 bytes → 8 bytes (+100.0%)". *)
Lemma revert_notice_shows_transcoded_size :
  ~ revertNoticeShowsOriginalTwice
      (Demo.host (Ok Demo.larger) (Ok tt) Unanswered)
      (Demo.settings "never" "increment" "" "" true "front")
      Drop Demo.photo Demo.note Demo.origin (Demo.bundle "increment" "" "")
      Demo.emptyWorld "attachments/photo.png".
Proof.
  intros Hclaim.
  destruct (Hclaim eq_refl) as [_ Hnotice].
  { exists Demo.larger. split; reflexivity. }
  vm_compute in Hnotice.
  repeat (apply elem_of_cons in Hnotice as [Hnotice|Hnotice];
          [discriminate Hnotice|]).
  inversion Hnotice.
Qed.

Example revert_trace :
  filter (fun e => isNotice e = true)
    (trace (snd (unitOf (Demo.host (Ok Demo.larger) (Ok tt) Unanswered)
                   (Demo.settings "never" "increment" "" "" true "front")
                   Drop Demo.note Demo.origin Demo.photo Demo.emptyWorld)))
  = [ENotice "4 bytes → 8 bytes (+100.0%)";
     ENotice (usingOriginalNotice Demo.photo)].
Proof. reflexivity. Qed.

(** C2, as the code has it. For a unit that reaches the transcoding
    step with [revertToOriginalIfLarger] on and a transcoded result strictly
    larger than the original, and whose [createBinary] does not fault: the
    entry written at the destination holds the original file's bytes
    exactly, and before the write the unit posts the size comparison of the
    original size against the transcoded size (when that notice is enabled)
    and the notice that the original is used. *)
Theorem revert_if_larger_as_coded
    (host : Host) (settings : ImageConverterSettings) (k : EventKind)
    (file : File) (activeFile : TAbstractFile) (pos : EditorPosition)
    (w w1 : World) (b : PresetBundle)
    (destinationPath newFilename settled : string)
    (processedImage : list Byte.byte) :
  resolvePresets host settings file w = (Fulfilled b, w1) ->
  determineDestination host (vault w) file activeFile
    (selConversion b) (selFilename b) (selFolder b)
  = Ok (destinationPath, newFilename) ->
  reachesProcessing host file b (vault w) destinationPath newFilename settled ->
  skipsConversion host file b = false ->
  processImage host file (processArgs settings (selConversion b))
  = Ok processedImage ->
  revertToOriginalIfLarger settings = true ->
  byteLength processedImage > file_size file ->
  let newFullPath := combinePath host destinationPath settled in
  createBinary_fault host (vault w) newFullPath = None ->
  let after := snd (unitOf host settings k activeFile pos file w) in
  fst (unitOf host settings k activeFile pos file w) = Fulfilled tt /\
  vault after = <[newFullPath := file_content file]> (vault w) /\
  vault after !! newFullPath = Some (file_content file) /\
  exists rest,
    trace after =
      trace w1 ++
      [EProcessImage (file_name file) (processArgs settings (selConversion b))] ++
      sizeComparisonEffects settings (file_size file) (byteLength processedImage) ++
      [ENotice (usingOriginalNotice file);
       ECreateBinary newFullPath (file_content file)] ++
      rest /\
    forallb quiet rest = true.
Proof.
  intros Hresolve Hdest Hreach Hconv Hprocessed Hrevert Hlarger newFullPath Hfault.
  set (saved :=
    written newFullPath (file_content file)
      (logged w1
         ([EProcessImage (file_name file) (processArgs settings (selConversion b))] ++
          sizeComparisonEffects settings (file_size file) (byteLength processedImage) ++
          [ENotice (usingOriginalNotice file);
           ECreateBinary newFullPath (file_content file)]))).
  set (linking :=
    try_catch
      (match k with
       | Drop =>
           insertLinkAtCursorPosition host settings newFullPath pos
             (selLinkFormat b) (selResize b)
       | Paste =>
           not_awaited
             (insertLinkAtCursorPosition host settings newFullPath pos
                (selLinkFormat b) (selResize b))
       end)
      (fun error =>
         console_error "Image processing failed:" ;;
         notice (processingFailureNotice file settled error))).
  assert (Hrun :
    unitOf host settings k activeFile pos file w =
    try_catch linking unexpectedError saved).
  { rewrite (unit_processing host settings k file activeFile pos w w1 b Hresolve
               destinationPath newFilename Hdest settled Hreach).
    rewrite Hconv. subst linking. unfold processAndCreate, createBinary.
    unfold try_catch at 1 2 3 4. unfold bind at 1 2.
    unfold emit at 1. cbn. rewrite Hprocessed. cbn.
    rewrite Hrevert. cbn.
    destruct (Z.gtb_spec (byteLength processedImage) (file_size file)) as [_|Hle];
      [|lia].
    unfold bind at 1 2. rewrite showSizeComparisonNotification_run.
    run_task.
    rewrite (resolved_vault host settings file w w1 b Hresolve).
    fold newFullPath. rewrite Hfault.
    subst saved. unfold written, logged, usingOriginalNotice. cbn.
    rewrite (resolved_vault host settings file w w1 b Hresolve).
    rewrite <- !app_assoc. cbn.
    destruct k; reflexivity. }
  intros after. subst after. rewrite Hrun.
  assert (Hsaved : vault saved = <[newFullPath := file_content file]> (vault w)).
  { subst saved. cbn. now rewrite (resolved_vault host settings file w w1 b Hresolve). }
  destruct (insertLink_quiet host settings newFullPath pos
              (selLinkFormat b) (selResize b) saved)
    as (Hvault & es & Htrace & Hquiet).
  assert (Hgoal :
    fst (linking saved) = Fulfilled tt /\
    vault (snd (linking saved)) = vault saved /\
    exists rest, trace (snd (linking saved)) = trace saved ++ rest /\
                 forallb quiet rest = true).
  { subst linking. destruct k.
    - destruct (formattedLinkFor host settings newFullPath
                  (selLinkFormat b) (selResize b)) as [link|e] eqn:Hlink.
      + unfold try_catch.
        rewrite (insertLink_run host settings newFullPath pos _ _ link saved Hlink).
        cbn. repeat split. eexists. split; [reflexivity|].
        unfold linkEffects.
        now destruct (String.eqb (cursorLocation settings) "back").
      + unfold try_catch.
        rewrite (insertLink_throw host settings newFullPath pos _ _ e saved Hlink).
        unfold bind, console_error, notice, emit. rewrite logged_app.
        split; [reflexivity|]. split; [reflexivity|].
        eexists. split; reflexivity.
    - unfold try_catch, not_awaited. cbn. repeat split; [exact Hvault|].
      exists es. split; assumption. }
  destruct Hgoal as (Hout & Hv & rest & Ht & Hq).
  assert (Houter : try_catch linking unexpectedError saved = linking saved).
  { unfold try_catch at 1. destruct (linking saved) as [[[]|e|] w']; 
      try reflexivity; discriminate Hout. }
  rewrite Houter.
  split; [exact Hout|]. split; [now rewrite Hv|].
  split; [rewrite Hv, Hsaved; apply lookup_insert_eq|].
  exists rest. split; [|exact Hq].
  rewrite Ht. subst saved. cbn. repeat (rewrite <- app_assoc; cbn). reflexivity.
Qed.

(** C2 on the demo host: the eight transcoded bytes are dropped for the
    four original ones. *)
Lemma revert_if_larger_as_coded_witness :
  let host := Demo.host (Ok Demo.larger) (Ok tt) Unanswered in
  let settings := Demo.settings "never" "increment" "" "" true "front" in
  vault (snd (unitOf host settings Drop Demo.note Demo.origin Demo.photo
                Demo.emptyWorld)) !! "attachments/photo.png"
  = Some Demo.png.
Proof.
  intros host settings.
  refine (proj1 (proj2 (proj2 (revert_if_larger_as_coded host settings Drop
            Demo.photo Demo.note Demo.origin Demo.emptyWorld Demo.emptyWorld
            (Demo.bundle "increment" "" "") "attachments" "photo.png" "photo.png"
            Demo.larger _ _ _ _ _ _ _ _))));
    try reflexivity.
  repeat split; reflexivity.
Defined.

(** ** The event gate and the units of an event *)

(** A drop none of whose files passes the gate is left to the host:
    nothing is recorded, [preventDefault] is not called. *)
Lemma drop_gate_closed (host : Host) (settings : ImageConverterSettings)
    (files : list File) (pos : EditorPosition) (w : World) :
  existsb (dropGate host settings) files = false ->
  onEditorDrop host settings
    {| dataTransfer := Some files; posAtMouse := Some pos |} w
  = (Fulfilled tt, w).
Proof. intros Hgate. unfold onEditorDrop. cbn. now rewrite Hgate. Qed.

(** A drop with a file that passes the gate suppresses the host's
    handling and hands every dropped file to [handleDrop]. *)
Lemma drop_gate_open (host : Host) (settings : ImageConverterSettings)
    (files : list File) (pos : EditorPosition) (w : World) :
  existsb (dropGate host settings) files = true ->
  onEditorDrop host settings
    {| dataTransfer := Some files; posAtMouse := Some pos |} w
  = handleDrop host settings files pos (logged w [EPreventDefault]).
Proof. intros Hgate. unfold onEditorDrop. cbn. now rewrite Hgate. Qed.

(** A paste none of whose items passes the gate is left to the host. *)
Lemma paste_gate_closed (host : Host) (settings : ImageConverterSettings)
    (items : list ClipboardItem) (w : World) :
  existsb (pasteGate host settings)
    (List.map
       (fun item =>
          {| data_kind := kind item;
             data_type := item_type item;
             data_file :=
               if String.eqb (kind item) "file" then getAsFile item else None |})
       items) = false ->
  onEditorPaste host settings {| clipboardData := Some items |} w
  = (Fulfilled tt, w).
Proof. intros Hgate. unfold onEditorPaste. cbn. now rewrite Hgate. Qed.

(** C3 fails on the demo host. [sketch.png] matches the never-process
    pattern; dropped together with [photo.png] it passes [handleDrop]'s
    filter, which asks [isSupported] only, and is transcoded and written
    like any other file. *)
Lemma never_process_file_is_processed :
  let host := Demo.host (Ok Demo.smaller) (Ok tt) Unanswered in
  let settings := Demo.settings "never" "increment" "" "" true "front" in
  let after :=
    snd (onEditorDrop host settings
           {| dataTransfer := Some [Demo.photo; Demo.sketch];
              posAtMouse := Some Demo.origin |} Demo.emptyWorld) in
  matches_patterns host (file_name Demo.sketch) (neverProcessFilenames settings)
  = true /\
  dropGate host settings Demo.sketch = false /\
  vault after !! "attachments/sketch.png" = Some Demo.smaller /\
  EReplaceRange "![[attachments/sketch.png]]" Demo.origin ∈ trace after.
Proof.
  intros host settings after.
  repeat split; try reflexivity.
  vm_compute. repeat first [apply list_elem_of_here | apply list_elem_of_further].
Qed.

(** Dropped alone, the same file is left to the host. *)
Example never_process_file_alone :
  onEditorDrop (Demo.host (Ok Demo.smaller) (Ok tt) Unanswered)
    (Demo.settings "never" "increment" "" "" true "front")
    {| dataTransfer := Some [Demo.sketch]; posAtMouse := Some Demo.origin |}
    Demo.emptyWorld
  = (Fulfilled tt, Demo.emptyWorld).
Proof. reflexivity. Qed.

(** ** The join of an event's units *)

(** The outermost catch clause turns every rejection into a notice. *)
Lemma try_catch_unexpected (body : Task unit) (w : World) (e : Thrown) :
  fst (try_catch body unexpectedError w) <> Rejected e.
Proof.
  unfold try_catch. destruct (body w) as [[[]|e'|] w']; cbn; discriminate.
Qed.

Lemma promiseAll_rejected (os : list (Outcome unit)) (e : Thrown) :
  promiseAll os = Rejected e -> exists e', Rejected e' ∈ os.
Proof.
  induction os as [|o os IH]; cbn; [discriminate|].
  destruct o as [[]|e'|].
  - intros Hr. destruct (IH Hr) as (e'' & Hin). exists e''. now constructor.
  - intros _. exists e'. constructor.
  - destruct (promiseAll os) as [[]|e'|] eqn:Hos; try discriminate.
    intros [= <-]. destruct (IH eq_refl) as (e'' & Hin). exists e''. now constructor.
Qed.

Lemma runUnits_outcomes (units : list (Task unit)) (w : World) (o : Outcome unit) :
  o ∈ fst (runUnits units w) -> exists u w', u ∈ units /\ fst (u w') = o.
Proof.
  revert w. induction units as [|u units IH]; intros w; cbn.
  - intros Hin. inversion Hin.
  - destruct (u w) as [o1 w1] eqn:Hu.
    destruct (runUnits units w1) as [os w2] eqn:Hrest. cbn.
    intros Hin. apply elem_of_cons in Hin as [->|Hin].
    + exists u, w. split; [constructor | now rewrite Hu].
    + specialize (IH w1). rewrite Hrest in IH.
      destruct (IH Hin) as (u' & w' & Hu' & Ho). exists u', w'.
      split; [now constructor | exact Ho].
Qed.

(** The join of [handleDrop] never rejects, whatever its units meet. *)
Lemma handleDrop_never_rejects (host : Host) (settings : ImageConverterSettings)
    (fileData : list File) (pos : EditorPosition) (w : World) (e : Thrown) :
  fst (handleDrop host settings fileData pos w) <> Rejected e.
Proof.
  unfold handleDrop.
  destruct (List.filter _ fileData) as [|f fs] eqn:Hfiles; [discriminate|].
  destruct (getActiveFile host) as [activeFile|]; [|discriminate].
  unfold awaitAll.
  destruct (runUnits (List.map (dropUnit host settings activeFile pos) (f :: fs)) w)
    as [os w'] eqn:Hrun.
  cbn [fst]. intros Hrej.
  destruct (promiseAll_rejected os e Hrej) as (e' & Hin).
  pose proof (runUnits_outcomes
                (List.map (dropUnit host settings activeFile pos) (f :: fs)) w
                (Rejected e')) as Hout.
  rewrite Hrun in Hout. destruct (Hout Hin) as (u & w0 & Hu & Ho).
  apply list_elem_of_In, List.in_map_iff in Hu as (file & <- & _).
  unfold dropUnit in Ho. exact (try_catch_unexpected _ _ _ Ho).
Qed.


(** ** Units do not read the trace

    What a unit does depends on the vault and the cursor it starts from,
    not on what was recorded before: the notices and console entries of
    one unit cannot change what another unit does. *)

Section TraceBlind.

Lemma retraced_logged (t es : list Effect) (w : World) :
  logged (retraced t w) es = retraced t (logged w es).
Proof. unfold logged, retraced. cbn. now rewrite app_assoc. Qed.

Lemma traceBlind_ret {A : Type} (a : A) : traceBlind (ret a).
Proof. intros t w. reflexivity. Qed.

Lemma traceBlind_throw {A : Type} (e : Thrown) : traceBlind (@throw A e).
Proof. intros t w. reflexivity. Qed.

Lemma traceBlind_emit (e : Effect) : traceBlind (emit e).
Proof. intros t w. unfold emit. now rewrite retraced_logged. Qed.

Lemma traceBlind_lift {A : Type} (r : Result A) : traceBlind (lift r).
Proof. destruct r; [apply traceBlind_ret | apply traceBlind_throw]. Qed.

Lemma traceBlind_await_prompt {A : Type} (p : Prompt A) : traceBlind (await_prompt p).
Proof. destruct p; intros t w; reflexivity. Qed.

Lemma traceBlind_read_vault : traceBlind read_vault.
Proof. intros t w. reflexivity. Qed.

Lemma traceBlind_bind {A B : Type} (m : Task A) (k : A -> Task B) :
  traceBlind m -> (forall a, traceBlind (k a)) -> traceBlind (bind m k).
Proof.
  intros Hm Hk t w. unfold bind. rewrite Hm.
  destruct (m w) as [[a|e|] w']; cbn; [apply Hk | reflexivity..].
Qed.

Lemma traceBlind_try_catch {A : Type} (m : Task A) (h : Thrown -> Task A) :
  traceBlind m -> (forall e, traceBlind (h e)) -> traceBlind (try_catch m h).
Proof.
  intros Hm Hh t w. unfold try_catch. rewrite Hm.
  destruct (m w) as [[a|e|] w']; cbn; [reflexivity | apply Hh | reflexivity].
Qed.

Lemma traceBlind_not_awaited {A : Type} (m : Task A) :
  traceBlind m -> traceBlind (not_awaited m).
Proof. intros Hm t w. unfold not_awaited. now rewrite Hm. Qed.

Context (host : Host) (settings : ImageConverterSettings).

Lemma traceBlind_createBinary (p : string) (data : list Byte.byte) :
  traceBlind (createBinary host p data).
Proof.
  unfold createBinary. apply traceBlind_bind; [apply traceBlind_emit|].
  intros _ t w. cbn.
  destruct (createBinary_fault host (vault w) p) as [[e|]|]; reflexivity.
Qed.

Lemma traceBlind_replaceRange (text : string) (pos : EditorPosition) :
  traceBlind (replaceRange host text pos).
Proof.
  unfold replaceRange. apply traceBlind_bind; [apply traceBlind_emit|].
  intros _ t w. reflexivity.
Qed.

Lemma traceBlind_setCursor (pos : EditorPosition) : traceBlind (setCursor pos).
Proof.
  unfold setCursor. apply traceBlind_bind; [apply traceBlind_emit|].
  intros _ t w. reflexivity.
Qed.

End TraceBlind.

(** Proves [traceBlind] of a task built from the primitives and from
    tasks known to be blind by a hypothesis. *)
Ltac trace_blind :=
  repeat first
    [ match goal with
      | Hblind : context [traceBlind] |- traceBlind _ => apply Hblind
      end
    | apply traceBlind_ret
    | apply traceBlind_throw
    | apply traceBlind_emit
    | apply traceBlind_lift
    | apply traceBlind_await_prompt
    | apply traceBlind_read_vault
    | apply traceBlind_createBinary
    | apply traceBlind_setCursor
    | apply traceBlind_replaceRange
    | apply traceBlind_not_awaited
    | apply traceBlind_bind; [|intros ?]
    | apply traceBlind_try_catch; [|intros ?]
    | match goal with
      | |- traceBlind (match ?x with _ => _ end) => destruct x
      | |- traceBlind (let (_, _) := ?x in _) => destruct x
      end ].

Section UnitsTraceBlind.

Context (host : Host) (settings : ImageConverterSettings).

Lemma traceBlind_getPresetByName {T : Type} `{Named T}
    (presetName : string) (presetArray : list T) (presetType : string) :
  traceBlind (getPresetByName presetName presetArray presetType).
Proof. unfold getPresetByName, console_warn. trace_blind. Qed.

Lemma traceBlind_resolvePresets (file : File) :
  traceBlind (resolvePresets host settings file).
Proof.
  unfold resolvePresets.
  pose proof (@traceBlind_getPresetByName ConversionPreset _) as Hc.
  pose proof (@traceBlind_getPresetByName FilenamePreset _) as Hf.
  pose proof (@traceBlind_getPresetByName FolderPreset _) as Hd.
  pose proof (@traceBlind_getPresetByName LinkFormatPreset _) as Hl.
  pose proof (@traceBlind_getPresetByName NonDestructiveResizePreset _) as Hr.
  trace_blind.
Qed.

Lemma traceBlind_insertLink (linkPath : string) (pos : EditorPosition)
    (lfp : option LinkFormatPreset) (rsp : option NonDestructiveResizePreset) :
  traceBlind (insertLinkAtCursorPosition host settings linkPath pos lfp rsp).
Proof. unfold insertLinkAtCursorPosition. trace_blind. Qed.

Lemma traceBlind_showSizeComparisonNotification (originalSize newSize : Z) :
  traceBlind (showSizeComparisonNotification settings originalSize newSize).
Proof. unfold showSizeComparisonNotification, notice. trace_blind. Qed.

Lemma traceBlind_planAndProcess (k : EventKind) (file : File)
    (activeFile : TAbstractFile) (pos : EditorPosition) (b : PresetBundle) :
  traceBlind (planAndProcess host settings k file activeFile pos b).
Proof.
  pose proof traceBlind_insertLink as Hlink.
  pose proof traceBlind_showSizeComparisonNotification as Hsize.
  unfold planAndProcess, createFolder, handleConflicts, processReuseOrSkip,
    saveUnprocessed, processAndCreate, notice, console_error.
  trace_blind.
Qed.

Lemma traceBlind_unit (k : EventKind) (activeFile : TAbstractFile)
    (pos : EditorPosition) (file : File) :
  traceBlind (unitOf host settings k activeFile pos file).
Proof.
  pose proof traceBlind_resolvePresets as Hres.
  pose proof traceBlind_planAndProcess as Hplan.
  destruct k; unfold unitOf, dropUnit, pasteUnit, unexpectedError, notice,
    console_error; trace_blind.
Qed.

(** A unit started after more was logged ends as it would have, writes
    the same vault, and adds the same actions. *)
Lemma unit_after_logging (k : EventKind) (activeFile : TAbstractFile)
    (pos : EditorPosition) (file : File) (w : World) (es : list Effect) :
  let u := unitOf host settings k activeFile pos file in
  fst (u (logged w es)) = fst (u w) /\
  vault (snd (u (logged w es))) = vault (snd (u w)) /\
  cursor (snd (u (logged w es))) = cursor (snd (u w)) /\
  exists added,
    trace (snd (u w)) = trace w ++ added /\
    trace (snd (u (logged w es))) = trace w ++ es ++ added.
Proof.
  intros u.
  set (w0 := {| vault := vault w; cursor := cursor w; trace := [] |}).
  assert (Hw : w = retraced (trace w) w0).
  { destruct w. unfold retraced, w0. cbn. now rewrite app_nil_r. }
  assert (Hl : logged w es = retraced (trace w ++ es) w0).
  { unfold logged, retraced, w0. cbn. now rewrite app_nil_r. }
  pose proof (traceBlind_unit k activeFile pos file (trace w ++ es) w0) as Hlogged.
  pose proof (traceBlind_unit k activeFile pos file (trace w) w0) as Hplain.
  fold u in Hlogged, Hplain. rewrite <- Hl in Hlogged. rewrite <- Hw in Hplain.
  rewrite Hlogged, Hplain. cbn.
  repeat split. exists (trace (snd (u w0))).
  split; [reflexivity | now rewrite app_assoc].
Qed.

End UnitsTraceBlind.

(** * Further properties of the pipeline *)

(** ** Which joins settle, and how *)

Section Settling.

Lemma settles_ret {A : Type} (a : A) : settles (ret a).
Proof. intros w. discriminate. Qed.

Lemma settles_throw {A : Type} (e : Thrown) : settles (@throw A e).
Proof. intros w. discriminate. Qed.

Lemma settles_emit (e : Effect) : settles (emit e).
Proof. intros w. discriminate. Qed.

Lemma settles_lift {A : Type} (r : Result A) : settles (lift r).
Proof. destruct r; intros w; discriminate. Qed.

Lemma settles_read_vault : settles read_vault.
Proof. intros w. discriminate. Qed.

Lemma settles_not_awaited {A : Type} (m : Task A) : settles (not_awaited m).
Proof. intros w. discriminate. Qed.

Lemma settles_bind {A B : Type} (m : Task A) (k : A -> Task B) :
  settles m -> (forall a, settles (k a)) -> settles (bind m k).
Proof.
  intros Hm Hk w. unfold bind. specialize (Hm w).
  destruct (m w) as [[a|e|] w']; cbn in *; [apply Hk | discriminate | contradiction].
Qed.

Lemma settles_try_catch {A : Type} (m : Task A) (h : Thrown -> Task A) :
  settles m -> (forall e, settles (h e)) -> settles (try_catch m h).
Proof.
  intros Hm Hh w. unfold try_catch. specialize (Hm w).
  destruct (m w) as [[a|e|] w']; cbn in *; [discriminate | apply Hh | contradiction].
Qed.

Context (host : Host) (settings : ImageConverterSettings).

Lemma settles_createBinary (p : string) (data : list Byte.byte) :
  settles (createBinary host p data).
Proof.
  unfold createBinary. apply settles_bind; [apply settles_emit|].
  intros _ w. destruct (createBinary_fault host (vault w) p) as [[e|]|];
    discriminate.
Qed.

Lemma settles_setCursor (pos : EditorPosition) : settles (setCursor pos).
Proof.
  unfold setCursor. apply settles_bind; [apply settles_emit|].
  intros _ w. discriminate.
Qed.

Lemma settles_replaceRange (text : string) (pos : EditorPosition) :
  settles (replaceRange host text pos).
Proof.
  unfold replaceRange. apply settles_bind; [apply settles_emit|].
  intros _ w. discriminate.
Qed.

End Settling.

(** Proves [settles] of a task built from the primitives and from tasks
    known to settle by a hypothesis. *)
Ltac settles_task :=
  repeat first
    [ match goal with
      | Hsettles : context [settles] |- settles _ => apply Hsettles
      end
    | apply settles_ret
    | apply settles_throw
    | apply settles_emit
    | apply settles_lift
    | apply settles_read_vault
    | apply settles_createBinary
    | apply settles_setCursor
    | apply settles_replaceRange
    | apply settles_not_awaited
    | apply settles_bind; [|intros ?]
    | apply settles_try_catch; [|intros ?]
    | match goal with
      | |- settles (match ?x with _ => _ end) => destruct x
      | |- settles (let (_, _) := ?x in _) => destruct x
      end ].

Section UnitsSettle.

Context (host : Host) (settings : ImageConverterSettings).

(** Everything after preset resolution settles: no dialog is awaited there. *)
Lemma settles_planAndProcess (k : EventKind) (file : File)
    (activeFile : TAbstractFile) (pos : EditorPosition) (b : PresetBundle) :
  settles (planAndProcess host settings k file activeFile pos b).
Proof.
  unfold planAndProcess, createFolder, handleConflicts, processReuseOrSkip,
    saveUnprocessed, processAndCreate, insertLinkAtCursorPosition,
    showSizeComparisonNotification, notice, console_error.
  settles_task.
Qed.

(** With a thrown value at hand the outermost catch clause fulfils. *)
Lemma guarded_fulfils (body : Task unit) :
  settles body -> fulfils (try_catch body unexpectedError).
Proof.
  intros Hbody w. unfold try_catch. specialize (Hbody w).
  destruct (body w) as [[[]|e|] w']; cbn in *;
    [exists tt; reflexivity | exists tt; reflexivity | contradiction].
Qed.

End UnitsSettle.

(** C4 fails for pastes. Three files are pasted with the preset modal
    always shown; the modal throws for the second one. [handlePaste]
    resolves presets before its try block, so the unit of that file
    rejects, from whatever world it starts in and without reporting
    anything, while the units of the two other files fulfil: the join
    rejects.  [handleDrop], whose try block covers preset resolution,
    catches the same throw in the unit, reports it, and fulfils on the
    same files. *)
Lemma paste_join_rejects_on_preset_throw :
  let host :=
    Demo.withModal Demo.modalFailingForSketch
      (Demo.host (Ok Demo.smaller) (Ok tt) Unanswered) in
  let settings := Demo.settings "always" "increment" "" "" true "front" in
  let files := [Demo.photo; Demo.sketch; Demo.diagram] in
  let failure := ErrorObj "modal failed to open" in
  (forall w,
     pasteUnit host settings Demo.note Demo.origin Demo.sketch w
     = (Rejected failure, w)) /\
  (forall f w, f ∈ files -> f <> Demo.sketch ->
     fst (pasteUnit host settings Demo.note Demo.origin f w) = Fulfilled tt) /\
  fst (handlePaste host settings (List.map Demo.pasted files) Demo.origin
         Demo.emptyWorld)
  = Rejected failure /\
  (forall w,
     dropUnit host settings Demo.note Demo.origin Demo.sketch w
     = (Fulfilled tt,
        logged w
          [EConsole Error "An unexpected error occurred:";
           ENotice "An unexpected error occurred. Check console for details."])) /\
  (forall f w, f ∈ files ->
     fst (dropUnit host settings Demo.note Demo.origin f w) = Fulfilled tt) /\
  fst (handleDrop host settings files Demo.origin Demo.emptyWorld) = Fulfilled tt.
Proof.
  intros host settings files failure.
  assert (Hanswered : forall f w, f = Demo.photo \/ f = Demo.diagram ->
            resolvePresets host settings f w
            = (Fulfilled (Demo.bundle "increment" "" ""), w))
    by (intros f w [-> | ->]; reflexivity).
  assert (Hthrows : forall w,
            resolvePresets host settings Demo.sketch w = (Rejected failure, w))
    by (intros w; reflexivity).
  assert (Hcases : forall f, f ∈ files ->
            f = Demo.sketch \/ (f = Demo.photo \/ f = Demo.diagram)).
  { intros f Hin. unfold files in Hin.
    repeat (apply elem_of_cons in Hin as [->|Hin]; [tauto|]). inversion Hin. }
  assert (Hguarded : forall f b w,
            fst (try_catch
                   (planAndProcess host settings Paste f Demo.note Demo.origin b)
                   unexpectedError w) = Fulfilled tt).
  { intros f b w.
    destruct (guarded_fulfils _
                (settles_planAndProcess host settings Paste f Demo.note
                   Demo.origin b) w) as ([] & Hw).
    exact Hw. }
  split; [|split; [|split; [|split; [|split]]]].
  - intros w. unfold pasteUnit, bind. rewrite Hthrows. reflexivity.
  - intros f w Hin Hne. destruct (Hcases f Hin) as [->|Hf]; [contradiction|].
    unfold pasteUnit, bind. rewrite (Hanswered f w Hf). apply Hguarded.
  - vm_compute. reflexivity.
  - intros w. unfold dropUnit, try_catch, bind. rewrite Hthrows.
    unfold unexpectedError, console_error, notice, bind, emit, logged. cbn.
    now rewrite <- app_assoc.
  - intros f w Hin. destruct (Hcases f Hin) as [->|Hf].
    + unfold dropUnit, try_catch, bind. rewrite Hthrows. reflexivity.
    + unfold dropUnit, try_catch, bind. rewrite (Hanswered f w Hf).
      pose proof (settles_planAndProcess host settings Drop f Demo.note
                    Demo.origin (Demo.bundle "increment" "" "") w) as Hsettles.
      destruct (planAndProcess host settings Drop f Demo.note Demo.origin
                  (Demo.bundle "increment" "" "") w) as [[[]|e|] w'];
        cbn in *; [reflexivity | reflexivity | contradiction].
  - vm_compute. reflexivity.
Qed.

(** ** Preset resolution, mode by mode *)

Lemma getPresetByName_resolved {T : Type} `{Named T}
    (presetName : string) (presetArray : list T) (presetType : string) (w : World) :
  exists r es,
    getPresetByName presetName presetArray presetType w = (Fulfilled r, logged w es) /\
    forallb isConsole es = true /\
    resolvedFrom presetName presetArray r.
Proof.
  unfold getPresetByName.
  destruct (List.find (fun p => String.eqb (name_of p) presetName) presetArray)
    as [p|] eqn:Hfind.
  - exists (Some p), []. rewrite logged_nil.
    destruct (List.find_some _ _ Hfind) as [Hin Hname].
    apply String.eqb_eq in Hname. apply list_elem_of_In in Hin.
    split; [reflexivity|]. split; [reflexivity|].
    split; [|split].
    + split; [discriminate|]. intros ->. inversion Hin.
    + now intros q [= <-].
    + intros _. now exists p.
  - eexists (head presetArray), [_].
    split; [reflexivity|]. split; [reflexivity|].
    split; [|split].
    + destruct presetArray; cbn; split; congruence.
    + intros p Hp. destruct presetArray as [|a l]; [discriminate|].
      injection Hp as ->. constructor.
    + intros (p & Hin & Hname). exfalso.
      pose proof (proj1 (find_none_absent _ _) Hfind p Hin) as Hp.
      cbn in Hp. apply String.eqb_neq in Hp. contradiction.
Qed.

(** With stored presets, preset resolution asks no dialog and always
    fulfils; it only logs to the console, and each preset of the bundle is
    [undefined] exactly when its collection is empty, else a preset of the
    collection, of the selected name when there is one. *)
Theorem stored_presets_resolution
    (host : Host) (settings : ImageConverterSettings) (file : File) (w : World) :
  usesStoredPresets settings ->
  exists b warnings,
    resolvePresets host settings file w = (Fulfilled b, logged w warnings) /\
    forallb isConsole warnings = true /\
    resolvedFrom (selectedConversionPreset settings) (conversionPresets settings)
      (selConversion b) /\
    resolvedFrom (selectedFilenamePreset settings) (filenamePresets settings)
      (selFilename b) /\
    resolvedFrom (selectedFolderPreset settings) (folderPresets settings)
      (selFolder b) /\
    resolvedFrom (selectedLinkFormatPreset (linkFormatSettings settings))
      (linkFormatPresets (linkFormatSettings settings)) (selLinkFormat b) /\
    resolvedFrom (selectedResizePreset (nonDestructiveResizeSettings settings))
      (resizePresets (nonDestructiveResizeSettings settings)) (selResize b).
Proof.
  intros [Hask Halways]. unfold resolvePresets. rewrite Hask, Halways.
  unfold bind at 1. cbn. unfold bind.
  destruct (getPresetByName_resolved (selectedConversionPreset settings)
              (conversionPresets settings) "Conversion" w)
    as (c & e1 & -> & H1 & R1).
  destruct (getPresetByName_resolved (selectedFilenamePreset settings)
              (filenamePresets settings) "Filename" (logged w e1))
    as (f & e2 & -> & H2 & R2).
  destruct (getPresetByName_resolved (selectedFolderPreset settings)
              (folderPresets settings) "Folder" (logged (logged w e1) e2))
    as (d & e3 & -> & H3 & R3).
  destruct (getPresetByName_resolved
              (selectedLinkFormatPreset (linkFormatSettings settings))
              (linkFormatPresets (linkFormatSettings settings)) "Link Format"
              (logged (logged (logged w e1) e2) e3)) as (l & e4 & -> & H4 & R4).
  destruct (getPresetByName_resolved
              (selectedResizePreset (nonDestructiveResizeSettings settings))
              (resizePresets (nonDestructiveResizeSettings settings)) "Resize"
              (logged (logged (logged (logged w e1) e2) e3) e4))
    as (r & e5 & -> & H5 & R5).
  eexists _, (e1 ++ e2 ++ e3 ++ e4 ++ e5). cbn. rewrite !logged_app.
  split; [reflexivity|].
  split; [now rewrite !forallb_app, H1, H2, H3, H4, H5|].
  cbn. auto.
Qed.

(** On the demo settings the five stored presets are found without a
    warning. *)
Lemma stored_presets_resolution_witness :
  usesStoredPresets (Demo.settings "never" "reuse" "" "" true "front") /\
  exists b warnings,
    resolvePresets (Demo.host (Ok Demo.smaller) (Ok tt) Unanswered)
      (Demo.settings "never" "reuse" "" "" true "front") Demo.photo Demo.emptyWorld
    = (Fulfilled b, logged Demo.emptyWorld warnings) /\
    resolvedFrom "keep" [Demo.filename "reuse" ""] (selFilename b).
Proof.
  assert (Hs : usesStoredPresets (Demo.settings "never" "reuse" "" "" true "front"))
    by (split; reflexivity).
  split; [exact Hs|].
  destruct (stored_presets_resolution (Demo.host (Ok Demo.smaller) (Ok tt) Unanswered)
              (Demo.settings "never" "reuse" "" "" true "front") Demo.photo
              Demo.emptyWorld Hs)
    as (b & warnings & Hrun & _ & _ & Hf & _).
  exists b, warnings. split; [exact Hrun | exact Hf].
Defined.

(** In "ask" mode the stored presets are never used: the confirmation
    can only be answered with yes, so a resolution that fulfils has shown
    the preset modal and returns its answer, leaving the world as it was;
    a confirmation that is never answered leaves the resolution pending. *)
Theorem ask_mode_resolution
    (host : Host) (settings : ImageConverterSettings) (file : File) (w : World) :
  modalBehavior settings = "ask" ->
  (forall b w1,
     resolvePresets host settings file w = (Fulfilled b, w1) ->
     w1 = w /\ confirmDialog host file = Answered tt /\
     presetSelectionModal host file = Answered b) /\
  (confirmDialog host file = Unanswered ->
   resolvePresets host settings file w = (Pending, w)).
Proof.
  intros Hask. unfold resolvePresets. rewrite Hask. cbn.
  unfold bind at 1.
  destruct (confirmDialog host file) as [[]| |e]; cbn.
  - split; [|discriminate]. intros b w1.
    destruct (presetSelectionModal host file) as [b'| |e]; cbn; try discriminate.
    intros [= <- <-]. auto.
  - split; [discriminate | reflexivity].
  - split; discriminate.
Qed.

(** In "ask" mode on the demo host with an answered confirmation, a
    resolution for [photo.png] that fulfils carries the modal's answer. *)
Lemma ask_mode_resolution_witness :
  let host :=
    Demo.withModal (fun _ => Answered (Demo.bundle "reuse" "" ""))
      (Demo.host (Ok Demo.smaller) (Ok tt) Unanswered) in
  let settings := Demo.settings "ask" "reuse" "" "" true "front" in
  modalBehavior settings = "ask" /\
  forall b w1,
    resolvePresets host settings Demo.photo Demo.emptyWorld = (Fulfilled b, w1) ->
    w1 = Demo.emptyWorld /\ confirmDialog host Demo.photo = Answered tt /\
    presetSelectionModal host Demo.photo = Answered b.
Proof.
  intros host settings. split; [reflexivity|].
  exact (proj1 (ask_mode_resolution host settings Demo.photo Demo.emptyWorld
                  eq_refl)).
Defined.

(** ** Joins *)

Lemma fulfils_bind {A B : Type} (m : Task A) (k : A -> Task B) :
  fulfils m -> (forall a, fulfils (k a)) -> fulfils (bind m k).
Proof.
  intros Hm Hk w. unfold bind. destruct (Hm w) as (a & Ha).
  destruct (m w) as [o w']. cbn in Ha. subst o. apply Hk.
Qed.

Lemma fulfils_settles {A : Type} (m : Task A) : fulfils m -> settles m.
Proof. intros Hm w. destruct (Hm w) as (a & ->). discriminate. Qed.

Lemma fulfils_getPresetByName {T : Type} `{Named T}
    (presetName : string) (presetArray : list T) (presetType : string) :
  fulfils (getPresetByName presetName presetArray presetType).
Proof.
  intros w.
  destruct (getPresetByName_run presetName presetArray presetType w)
    as (x & es & -> & _).
  now exists x.
Qed.

Lemma fulfils_resolvePresets_stored (host : Host)
    (settings : ImageConverterSettings) (file : File) :
  usesStoredPresets settings -> fulfils (resolvePresets host settings file).
Proof.
  intros [Hask Halways] w. unfold resolvePresets. rewrite Hask, Halways.
  unfold bind at 1. cbn. revert w.
  repeat (refine (fulfils_bind _ _ (fulfils_getPresetByName _ _ _) _); intros ?).
  intros w. eexists. reflexivity.
Qed.

Lemma fulfils_unit_stored (host : Host) (settings : ImageConverterSettings)
    (k : EventKind) (activeFile : TAbstractFile) (pos : EditorPosition)
    (file : File) :
  usesStoredPresets settings ->
  fulfils (unitOf host settings k activeFile pos file).
Proof.
  intros Hstored.
  pose proof (fulfils_resolvePresets_stored host settings file Hstored) as Hres.
  destruct k; unfold unitOf, dropUnit, pasteUnit.
  - apply guarded_fulfils. apply settles_bind; [now apply fulfils_settles|].
    intros b. apply settles_planAndProcess.
  - apply fulfils_bind; [exact Hres|]. intros b.
    apply guarded_fulfils, settles_planAndProcess.
Qed.

Lemma awaitAll_fulfils (units : list (Task unit)) :
  (forall u, u ∈ units -> fulfils u) ->
  forall w, fst (awaitAll units w) = Fulfilled tt.
Proof.
  unfold awaitAll. induction units as [|u units IH]; intros Hall w; [reflexivity|].
  cbn. destruct (Hall u (list_elem_of_here _ _) w) as ([] & Hu).
  destruct (u w) as [o w1]. cbn in Hu. subst o.
  specialize (IH (fun u' Hu' => Hall u' (list_elem_of_further _ _ _ Hu')) w1).
  destruct (runUnits units w1) as [os w2]. exact IH.
Qed.

(** With stored presets no dialog is awaited, and the join of either
    handler fulfils for every drop and every paste, whatever the
    collaborators throw. *)
Theorem joins_fulfil_with_stored_presets
    (host : Host) (settings : ImageConverterSettings) :
  usesStoredPresets settings ->
  (forall fileData pos w,
     fst (handleDrop host settings fileData pos w) = Fulfilled tt) /\
  (forall itemData pos w,
     fst (handlePaste host settings itemData pos w) = Fulfilled tt).
Proof.
  intros Hstored.
  assert (Hunits : forall k activeFile pos files u,
            u ∈ List.map (unitOf host settings k activeFile pos) files -> fulfils u).
  { intros k activeFile pos files u Hu.
    apply list_elem_of_In, List.in_map_iff in Hu as (file & <- & _).
    now apply fulfils_unit_stored. }
  split.
  - intros fileData pos w. unfold handleDrop.
    destruct (List.filter _ fileData) as [|f fs]; [reflexivity|].
    destruct (getActiveFile host) as [activeFile|]; [|reflexivity].
    apply awaitAll_fulfils. exact (Hunits Drop activeFile pos (f :: fs)).
  - intros itemData pos w. unfold handlePaste.
    destruct (pastedFiles host itemData) as [|f fs]; [reflexivity|].
    destruct (getActiveFile host) as [activeFile|]; [|reflexivity].
    apply awaitAll_fulfils. exact (Hunits Paste activeFile pos (f :: fs)).
Qed.

(** On the demo settings with "never", a paste whose transcoder throws
    still has a fulfilled join. *)
Lemma joins_fulfil_with_stored_presets_witness :
  fst (handlePaste (Demo.host (Throw NonError) (Ok tt) Unanswered)
         (Demo.settings "never" "increment" "" "" true "front")
         [Demo.pasted Demo.photo; Demo.pasted Demo.sketch] Demo.origin
         Demo.emptyWorld)
  = Fulfilled tt.
Proof.
  refine (proj2 (joins_fulfil_with_stored_presets
                   (Demo.host (Throw NonError) (Ok tt) Unanswered)
                   (Demo.settings "never" "increment" "" "" true "front") _)
            _ _ _).
  split; reflexivity.
Defined.

Lemma resolvePresets_rejects (host : Host) (settings : ImageConverterSettings)
    (file : File) (w : World) (e : Thrown) :
  (fst (resolvePresets host settings file w) = Rejected e <->
   dialogThrows host settings file e) /\
  (fst (resolvePresets host settings file w) = Rejected e ->
   snd (resolvePresets host settings file w) = w).
Proof.
  unfold dialogThrows.
  destruct (String.eqb (modalBehavior settings) "ask") eqn:Hask.
  - unfold resolvePresets. rewrite Hask. unfold bind.
    destruct (confirmDialog host file) as [[]| |e1]; cbn.
    + destruct (presetSelectionModal host file) as [b| |e2]; cbn.
      * split; [split|]; try discriminate.
        intros [(_ & [Hc | (_ & Hm)]) | (Hf & _)]; discriminate.
      * split; [split|]; try discriminate.
        intros [(_ & [Hc | (_ & Hm)]) | (Hf & _)]; discriminate.
      * split; [split|]; [| |reflexivity].
        -- intros [= ->]. left. split; [reflexivity|]. right. now split.
        -- intros [(_ & [Hc | (_ & Hm)]) | (Hf & _)]; try discriminate.
           now injection Hm as ->.
    + split; [split|]; try discriminate.
      intros [(_ & [Hc | (Hc & _)]) | (Hf & _)]; discriminate.
    + split; [split|]; [| |reflexivity].
      * intros [= ->]. left. split; [reflexivity|]. now left.
      * intros [(_ & [Hc | (Hc & _)]) | (Hf & _)]; try discriminate.
        now injection Hc as ->.
  - destruct (String.eqb (modalBehavior settings) "always") eqn:Halways.
    + unfold resolvePresets. rewrite Hask, Halways. unfold bind at 1. cbn.
      destruct (presetSelectionModal host file) as [b| |e2]; cbn.
      * split; [split|]; try discriminate.
        intros [(Hf & _) | (_ & _ & Hm)]; discriminate.
      * split; [split|]; try discriminate.
        intros [(Hf & _) | (_ & _ & Hm)]; discriminate.
      * split; [split|]; [| |reflexivity].
        -- intros [= ->]. right. now repeat split.
        -- intros [(Hf & _) | (_ & _ & Hm)]; try discriminate.
           now injection Hm as ->.
    + destruct (fulfils_resolvePresets_stored host settings file
                  (conj Hask Halways) w) as (b & ->).
      split; [split|]; try discriminate.
      intros [(Hc & _) | (_ & Hc & _)]; discriminate.
Qed.

(** A paste unit rejects exactly when one of its dialogs throws, with
    what the dialog threw; nothing was recorded or written by then. *)
Theorem paste_unit_rejects_iff_dialog_throws
    (host : Host) (settings : ImageConverterSettings)
    (activeFile : TAbstractFile) (pos : EditorPosition) (file : File)
    (w : World) (e : Thrown) :
  (fst (pasteUnit host settings activeFile pos file w) = Rejected e <->
   dialogThrows host settings file e) /\
  (fst (pasteUnit host settings activeFile pos file w) = Rejected e ->
   snd (pasteUnit host settings activeFile pos file w) = w).
Proof.
  destruct (resolvePresets_rejects host settings file w e) as [Hiff Hworld].
  unfold pasteUnit, bind.
  destruct (resolvePresets host settings file w) as [[b|e'|] w1] eqn:Hres;
    cbn in *.
  - split; [split|].
    + intros Hr. now destruct (try_catch_unexpected _ _ _ Hr).
    + intros Hd. now apply Hiff in Hd.
    + intros Hr. now destruct (try_catch_unexpected _ _ _ Hr).
  - split; [split|].
    + intros [= ->]. now apply Hiff.
    + intros Hd. apply Hiff in Hd. now injection Hd as ->.
    + intros [= ->]. now apply Hworld.
  - split; [split|]; try discriminate.
    intros Hd. apply Hiff in Hd. discriminate.
Qed.

Lemma runUnits_has (units : list (Task unit)) (u : Task unit) (o : Outcome unit) :
  u ∈ units -> (forall w, fst (u w) = o) ->
  forall w, o ∈ fst (runUnits units w).
Proof.
  intros Hin Hu. induction units as [|u' units IH]; intros w; [inversion Hin|].
  cbn. destruct (u' w) as [o' w1] eqn:Hrun.
  destruct (runUnits units w1) as [os w2] eqn:Hrest. cbn.
  apply elem_of_cons in Hin as [<-|Hin].
  - specialize (Hu w). rewrite Hrun in Hu. cbn in Hu. subst o'. constructor.
  - constructor. specialize (IH Hin w1). now rewrite Hrest in IH.
Qed.

Lemma promiseAll_pending (os : list (Outcome unit)) :
  Pending ∈ os -> (forall e, Rejected e ∉ os) -> promiseAll os = Pending.
Proof.
  induction os as [|o os IH]; intros Hin Hno; [inversion Hin|].
  assert (Hrest : forall e, Rejected e ∉ os).
  { intros e He. apply (Hno e). now constructor. }
  cbn. destruct o as [[]|e|].
  - apply IH; [|exact Hrest]. apply elem_of_cons in Hin as [Hp|Hin];
      [discriminate | exact Hin].
  - destruct (Hno e). constructor.
  - destruct (promiseAll os) as [[]|e|] eqn:Hos; try reflexivity.
    destruct (promiseAll_rejected os e Hos) as (e' & He').
    now destruct (Hrest e').
Qed.

Lemma drop_outcomes_not_rejected (host : Host) (settings : ImageConverterSettings)
    (activeFile : TAbstractFile) (pos : EditorPosition) (files : list File)
    (w : World) (e : Thrown) :
  Rejected e ∉ fst (runUnits (List.map (dropUnit host settings activeFile pos) files) w).
Proof.
  intros Hin.
  destruct (runUnits_outcomes _ _ _ Hin) as (u & w0 & Hu & Ho).
  apply list_elem_of_In, List.in_map_iff in Hu as (file & <- & _).
  unfold dropUnit in Ho. exact (try_catch_unexpected _ _ _ Ho).
Qed.

(** In "ask" mode a confirmation that is never answered keeps its unit
    pending, and with it the join of the whole drop: [handleDrop] never
    completes, whatever the other files of the drop do. *)
Theorem unanswered_confirmation_blocks_drop
    (host : Host) (settings : ImageConverterSettings)
    (activeFile : TAbstractFile) (fileData : list File) (file : File)
    (pos : EditorPosition) (w : World) :
  modalBehavior settings = "ask" ->
  getActiveFile host = Some activeFile ->
  file ∈ fileData ->
  isSupported host (file_type file) (file_name file) = true ->
  confirmDialog host file = Unanswered ->
  fst (handleDrop host settings fileData pos w) = Pending.
Proof.
  intros Hask Hactive Hin Hsupported Hconfirm. unfold handleDrop.
  assert (Hkept : file ∈ List.filter
                    (fun data => isSupported host (file_type data) (file_name data))
                    fileData).
  { apply list_elem_of_In, List.filter_In. split; [now apply list_elem_of_In|].
    exact Hsupported. }
  destruct (List.filter _ fileData) as [|f fs] eqn:Hfiles; [inversion Hkept|].
  rewrite Hactive. unfold awaitAll.
  pose proof (drop_outcomes_not_rejected host settings activeFile pos (f :: fs) w)
    as Hno.
  pose proof (runUnits_has
                (List.map (dropUnit host settings activeFile pos) (f :: fs))
                (dropUnit host settings activeFile pos file) Pending) as Hhas.
  destruct (runUnits (List.map (dropUnit host settings activeFile pos) (f :: fs)) w)
    as [os w'] eqn:Hrun.
  cbn [fst] in *. apply promiseAll_pending; [|exact Hno].
  specialize (Hhas (proj2 (list_elem_of_In _ _)
                      (List.in_map _ _ _ (proj1 (list_elem_of_In _ _) Hkept)))).
  assert (Hunit : forall w0, fst (dropUnit host settings activeFile pos file w0) = Pending).
  { intros w0. unfold dropUnit, try_catch, bind, resolvePresets.
    rewrite Hask. cbn. unfold bind. now rewrite Hconfirm. }
  specialize (Hhas Hunit w). now rewrite Hrun in Hhas.
Qed.

(** On the demo host in "ask" mode with a confirmation nobody answers
    for [sketch.png], the drop of three files never completes. *)
Lemma unanswered_confirmation_blocks_drop_witness :
  fst (handleDrop
         (Demo.withConfirm
            (fun f => if String.eqb (file_name f) "sketch.png"
                      then Unanswered else Answered tt)
            (Demo.host (Ok Demo.smaller) (Ok tt)
               (Answered (Demo.bundle "increment" "" ""))))
         (Demo.settings "ask" "increment" "" "" true "front")
         [Demo.photo; Demo.sketch; Demo.diagram] Demo.origin Demo.emptyWorld)
  = Pending.
Proof.
  refine (unanswered_confirmation_blocks_drop _ _ Demo.note _ Demo.sketch _ _
            _ _ _ _ _);
    try reflexivity.
  apply list_elem_of_further, list_elem_of_here.
Defined.

(** ** What a unit can do to the vault *)

Section Bounded.

Context (allowed : list Byte.byte -> Prop).

Lemma bounded_weaken {A : Type} (t c t' c' : nat) (m : Task A) :
  (t <= t')%nat -> (c <= c')%nat -> bounded t c allowed m -> bounded t' c' allowed m.
Proof.
  intros Ht Hc Hm w. destruct (Hm w) as (es & Htr & Hnt & Hnc & Hv).
  exists es. repeat split; [exact Htr | lia | lia |].
  destruct Hv as [Hv|(Hone & Hv)]; [now left | right; split; [lia | exact Hv]].
Qed.

Lemma bounded_still {A : Type} (m : Task A) :
  (forall w, snd (m w) = w) -> bounded 0 0 allowed m.
Proof.
  intros Hm w. exists []. rewrite Hm, app_nil_r. cbn. auto.
Qed.

Lemma bounded_ret {A : Type} (a : A) : bounded 0 0 allowed (ret a).
Proof. now apply bounded_still. Qed.

Lemma bounded_throw {A : Type} (e : Thrown) : bounded 0 0 allowed (@throw A e).
Proof. now apply bounded_still. Qed.

Lemma bounded_lift {A : Type} (r : Result A) : bounded 0 0 allowed (lift r).
Proof. destruct r; now apply bounded_still. Qed.

Lemma bounded_read_vault : bounded 0 0 allowed read_vault.
Proof. now apply bounded_still. Qed.

Lemma bounded_await_prompt {A : Type} (p : Prompt A) :
  bounded 0 0 allowed (await_prompt p).
Proof. destruct p; now apply bounded_still. Qed.

Lemma bounded_emit (e : Effect) : quiet e = true -> bounded 0 0 allowed (emit e).
Proof.
  intros Hq w. exists [e]. cbn. unfold quiet in Hq.
  apply andb_prop in Hq as [Hw Ht].
  destruct (isTranscoding e), (isWrite e); try discriminate. cbn. auto.
Qed.

Lemma bounded_transcoding (file : string) (args : ProcessArgs) :
  bounded 1 0 allowed (emit (EProcessImage file args)).
Proof. intros w. exists [EProcessImage file args]. cbn. auto. Qed.

Lemma bounded_bind {A B : Type} (t1 c1 t2 c2 : nat) (m : Task A) (k : A -> Task B) :
  (c1 + c2 <= 1)%nat ->
  bounded t1 c1 allowed m -> (forall a, bounded t2 c2 allowed (k a)) ->
  bounded (t1 + t2) (c1 + c2) allowed (bind m k).
Proof.
  intros Hc Hm Hk w. unfold bind.
  destruct (Hm w) as (es1 & Htr1 & Hnt1 & Hnc1 & Hv1).
  destruct (m w) as [[a|e|] w1]; cbn in *.
  - destruct (Hk a w1) as (es2 & Htr2 & Hnt2 & Hnc2 & Hv2).
    exists (es1 ++ es2). rewrite Htr2, Htr1, <- app_assoc.
    rewrite !List.filter_app, !length_app.
    repeat split; [lia | lia |].
    destruct Hv1 as [Hv1|(Hone1 & p & data & Hd & Hv1)].
    + destruct Hv2 as [Hv2|(Hone2 & p & data & Hd & Hv2)].
      * left. congruence.
      * right. split; [lia|]. exists p, data. split; [exact Hd | congruence].
    + destruct Hv2 as [Hv2|(Hone2 & _)]; [|lia].
      right. split; [lia|]. exists p, data. split; [exact Hd | congruence].
  - exists es1. repeat split; [exact Htr1 | lia | lia |].
    destruct Hv1 as [Hv1|(Hone1 & Hv1)]; [now left | right; split; [lia | exact Hv1]].
  - exists es1. repeat split; [exact Htr1 | lia | lia |].
    destruct Hv1 as [Hv1|(Hone1 & Hv1)]; [now left | right; split; [lia | exact Hv1]].
Qed.

Lemma bounded_try_catch {A : Type} (t1 c1 t2 c2 : nat)
    (m : Task A) (h : Thrown -> Task A) :
  (c1 + c2 <= 1)%nat ->
  bounded t1 c1 allowed m -> (forall e, bounded t2 c2 allowed (h e)) ->
  bounded (t1 + t2) (c1 + c2) allowed (try_catch m h).
Proof.
  intros Hc Hm Hh w. unfold try_catch.
  destruct (Hm w) as (es1 & Htr1 & Hnt1 & Hnc1 & Hv1).
  destruct (m w) as [[a|e|] w1]; cbn in *.
  - exists es1. repeat split; [exact Htr1 | lia | lia |].
    destruct Hv1 as [Hv1|(Hone1 & Hv1)]; [now left | right; split; [lia | exact Hv1]].
  - destruct (Hh e w1) as (es2 & Htr2 & Hnt2 & Hnc2 & Hv2).
    exists (es1 ++ es2). rewrite Htr2, Htr1, <- app_assoc.
    rewrite !List.filter_app, !length_app.
    repeat split; [lia | lia |].
    destruct Hv1 as [Hv1|(Hone1 & p & data & Hd & Hv1)].
    + destruct Hv2 as [Hv2|(Hone2 & p & data & Hd & Hv2)].
      * left. congruence.
      * right. split; [lia|]. exists p, data. split; [exact Hd | congruence].
    + destruct Hv2 as [Hv2|(Hone2 & _)]; [|lia].
      right. split; [lia|]. exists p, data. split; [exact Hd | congruence].
  - exists es1. repeat split; [exact Htr1 | lia | lia |].
    destruct Hv1 as [Hv1|(Hone1 & Hv1)]; [now left | right; split; [lia | exact Hv1]].
Qed.

Lemma bounded_not_awaited {A : Type} (t c : nat) (m : Task A) :
  bounded t c allowed m -> bounded t c allowed (not_awaited m).
Proof. intros Hm w. exact (Hm w). Qed.

(** Sequencing with a task that neither writes nor transcodes. *)
Lemma bounded_after {A B : Type} (t c : nat) (m : Task A) (k : A -> Task B) :
  (c <= 1)%nat ->
  bounded 0 0 allowed m -> (forall a, bounded t c allowed (k a)) ->
  bounded t c allowed (bind m k).
Proof. intros Hc Hm Hk. now apply (bounded_bind 0 0 t c). Qed.

Lemma bounded_before {A B : Type} (t c : nat) (m : Task A) (k : A -> Task B) :
  (c <= 1)%nat ->
  bounded t c allowed m -> (forall a, bounded 0 0 allowed (k a)) ->
  bounded t c allowed (bind m k).
Proof.
  intros Hc Hm Hk.
  pose proof (bounded_bind t c 0 0 m k) as Hb.
  rewrite !Nat.add_0_r in Hb. now apply Hb.
Qed.

Lemma bounded_guarded {A : Type} (t c : nat) (m : Task A) (h : Thrown -> Task A) :
  (c <= 1)%nat ->
  bounded t c allowed m -> (forall e, bounded 0 0 allowed (h e)) ->
  bounded t c allowed (try_catch m h).
Proof.
  intros Hc Hm Hh.
  pose proof (bounded_try_catch t c 0 0 m h) as Hb.
  rewrite !Nat.add_0_r in Hb. now apply Hb.
Qed.

Context (host : Host) (settings : ImageConverterSettings).

Lemma bounded_createBinary (p : string) (data : list Byte.byte) :
  allowed data -> bounded 0 1 allowed (createBinary host p data).
Proof.
  intros Hd w. unfold createBinary, bind. cbn.
  exists [ECreateBinary p data]. cbn.
  destruct (createBinary_fault host (vault w) p) as [[e|]|]; cbn;
    repeat split; auto.
  right. split; [lia|]. now exists p, data.
Qed.

Lemma bounded_insertLink (linkPath : string) (pos : EditorPosition)
    (lfp : option LinkFormatPreset) (rsp : option NonDestructiveResizePreset) :
  bounded 0 0 allowed (insertLinkAtCursorPosition host settings linkPath pos lfp rsp).
Proof.
  intros w.
  destruct (insertLink_quiet host settings linkPath pos lfp rsp w)
    as (Hv & es & Htr & Hq).
  exists es. split; [exact Htr|].
  assert (Hcount : length (List.filter isTranscoding es) = 0%nat /\
                   length (List.filter isWrite es) = 0%nat).
  { clear Htr. induction es as [|e es IH]; [auto|]. cbn in Hq.
    apply andb_prop in Hq as [He Hes]. destruct (IH Hes) as [Ht Hw].
    unfold quiet in He. apply andb_prop in He as [Hew Het]. cbn.
    destruct (isTranscoding e), (isWrite e); try discriminate. auto. }
  destruct Hcount as [-> ->]. auto.
Qed.

Lemma bounded_showSizeComparisonNotification (originalSize newSize : Z) :
  bounded 0 0 allowed (showSizeComparisonNotification settings originalSize newSize).
Proof.
  unfold showSizeComparisonNotification.
  destruct (negb (showSpaceSavedNotification settings));
    [apply bounded_ret | now apply bounded_emit].
Qed.

Lemma bounded_resolvePresets (file : File) :
  bounded 0 0 allowed (resolvePresets host settings file).
Proof.
  intros w.
  destruct (resolvePresets_logged host settings file w) as (es & Hw & Hc).
  exists es. rewrite Hw. cbn. split; [reflexivity|].
  assert (Hcount : length (List.filter isTranscoding es) = 0%nat /\
                   length (List.filter isWrite es) = 0%nat).
  { clear Hw. induction es as [|e es IH]; [auto|]. cbn in Hc.
    apply andb_prop in Hc as [He Hes]. destruct (IH Hes) as [Ht Hw].
    destruct e; try discriminate He. auto. }
  destruct Hcount as [-> ->]. auto.
Qed.

End Bounded.

Section UnitsBounded.

Context (host : Host) (settings : ImageConverterSettings).
Context (k : EventKind) (file : File) (pos : EditorPosition) (b : PresetBundle).

Let allowed := originalOrTranscoded host file.

Lemma bounded_saveUnprocessed (newFullPath newFilename : string) :
  bounded 0 1 allowed
    (saveUnprocessed host settings k file pos b newFullPath newFilename).
Proof.
  unfold saveUnprocessed.
  apply bounded_after; [lia | now apply bounded_emit |]. intros _.
  apply bounded_before; [lia | |].
  - apply bounded_createBinary. now left.
  - intros [t|]; [|now apply bounded_emit].
    apply bounded_not_awaited, bounded_insertLink.
Qed.

Lemma bounded_processAndCreate (newFullPath newFilename : string) :
  bounded 1 1 allowed
    (processAndCreate host settings k file pos b newFullPath newFilename).
Proof.
  unfold processAndCreate.
  apply bounded_guarded; [lia | |].
  - apply (bounded_bind allowed 1 0 0 1); [lia | apply bounded_transcoding |].
    intros _.
    destruct (processImage host file (processArgs settings (selConversion b)))
      as [processedImage|e] eqn:Hprocessed.
    + intros w. unfold bind at 1. cbn. revert w.
      apply bounded_before; [lia | |].
      * destruct (revertToOriginalIfLarger settings &&
                  (byteLength processedImage >? file_size file)).
        -- apply bounded_after;
             [lia | apply bounded_showSizeComparisonNotification |]. intros _.
           apply bounded_after; [lia | now apply bounded_emit |]. intros _.
           apply bounded_createBinary. now left.
        -- apply bounded_after;
             [lia | apply bounded_showSizeComparisonNotification |]. intros _.
           apply bounded_createBinary. right. eauto.
      * intros tfile. destruct k, tfile as [t|].
        -- apply bounded_insertLink.
        -- apply bounded_throw.
        -- apply bounded_not_awaited, bounded_insertLink.
        -- now apply bounded_emit.
    + apply (bounded_weaken allowed 0 0); [lia | lia |].
      now apply bounded_still.
  - intros e.
    apply bounded_after; [lia | now apply bounded_emit | intros _].
    now apply bounded_emit.
Qed.

Lemma bounded_processReuseOrSkip (destinationPath newFilename : string)
    (existingFile : option TAbstractFile) (skipFurtherProcessing : bool) :
  bounded 1 1 allowed
    (processReuseOrSkip host settings k file pos b destinationPath newFilename
       existingFile skipFurtherProcessing).
Proof.
  unfold processReuseOrSkip.
  assert (Hlink : forall p, bounded 1 1 allowed
            (not_awaited (insertLinkAtCursorPosition host settings p pos
                            (selLinkFormat b) (selResize b)))).
  { intros p. apply (bounded_weaken allowed 0 0); [lia | lia |].
    apply bounded_not_awaited, bounded_insertLink. }
  assert (Hrest : bounded 1 1 allowed
            (if skipsConversion host file b then
               saveUnprocessed host settings k file pos b
                 (combinePath host destinationPath newFilename) newFilename
             else
               processAndCreate host settings k file pos b
                 (combinePath host destinationPath newFilename) newFilename)).
  { destruct (skipsConversion host file b).
    - apply (bounded_weaken allowed 0 1); [lia | lia |].
      apply bounded_saveUnprocessed.
    - apply bounded_processAndCreate. }
  destruct skipFurtherProcessing; cbn.
  - destruct existingFile; [apply Hlink|].
    apply (bounded_weaken allowed 0 0); [lia | lia | apply bounded_ret].
  - destruct existingFile; [|exact Hrest].
    destruct (conflictPolicyIs b "reuse"); [apply Hlink | exact Hrest].
Qed.

Lemma bounded_aborted (c n : string) :
  bounded 1 1 allowed (console_error c ;; notice n).
Proof.
  apply (bounded_weaken allowed 0 0); [lia | lia |].
  apply bounded_after; [lia | now apply bounded_emit | intros _].
  now apply bounded_emit.
Qed.

Lemma bounded_handleConflicts (destinationPath newFilename : string) :
  bounded 1 1 allowed
    (handleConflicts host settings k file pos b destinationPath newFilename).
Proof.
  unfold handleConflicts.
  apply bounded_after; [lia | apply bounded_read_vault |]. intros v.
  destruct (skipsRename host file b).
  - apply bounded_after; [lia | now apply bounded_emit | intros _].
    apply bounded_processReuseOrSkip.
  - destruct (conflictPolicyIs b "increment");
      [|apply bounded_processReuseOrSkip].
    destruct (handleNameConflicts host v destinationPath newFilename "increment");
      [apply bounded_processReuseOrSkip | apply bounded_aborted].
Qed.

Lemma bounded_planAndProcess (activeFile : TAbstractFile) :
  bounded 1 1 allowed (planAndProcess host settings k file activeFile pos b).
Proof.
  unfold planAndProcess.
  apply bounded_after; [lia | apply bounded_read_vault |]. intros v.
  destruct (determineDestination host v file activeFile
              (selConversion b) (selFilename b) (selFolder b))
    as [[destinationPath newFilename]|e]; [|apply bounded_aborted].
  unfold createFolder.
  apply bounded_after; [lia | apply bounded_read_vault |]. intros v'.
  destruct (ensureFolderExists host v' destinationPath) as [[]|error];
    [apply bounded_handleConflicts|].
  destruct (message_of error) as [message|].
  - destruct (negb (Js.startsWith message "Folder already exists"));
      [apply bounded_aborted | apply bounded_handleConflicts].
  - apply (bounded_weaken allowed 0 0); [lia | lia | apply bounded_throw].
Qed.

End UnitsBounded.

(** Whatever happens, a unit calls the transcoding service at most once
    and [createBinary] at most once; afterwards the vault is as before or
    holds one more entry, whose bytes are the file's own or what the
    transcoding service returned for the file. *)
Theorem unit_writes_at_most_one_entry
    (host : Host) (settings : ImageConverterSettings) (k : EventKind)
    (activeFile : TAbstractFile) (pos : EditorPosition) (file : File) (w : World) :
  let after := snd (unitOf host settings k activeFile pos file w) in
  exists es,
    trace after = trace w ++ es /\
    (length (List.filter isTranscoding es) <= 1)%nat /\
    (length (List.filter isWrite es) <= 1)%nat /\
    (vault after = vault w \/
     exists p data,
       originalOrTranscoded host file data /\
       vault after = <[p := data]> (vault w)).
Proof.
  intros after.
  assert (Hunit : bounded 1 1 (originalOrTranscoded host file)
                    (unitOf host settings k activeFile pos file)).
  { assert (Hhandler : forall e,
              bounded 0 0 (originalOrTranscoded host file) (unexpectedError e)).
    { intros e. unfold unexpectedError.
      apply bounded_after; [lia | now apply bounded_emit | intros _].
      now apply bounded_emit. }
    destruct k; unfold unitOf, dropUnit, pasteUnit.
    - apply bounded_guarded; [lia | | exact Hhandler].
      apply bounded_after; [lia | apply bounded_resolvePresets |]. intros b.
      apply bounded_planAndProcess.
    - apply bounded_after; [lia | apply bounded_resolvePresets |]. intros b.
      apply bounded_guarded; [lia | | exact Hhandler].
      apply bounded_planAndProcess. }
  destruct (Hunit w) as (es & Htr & Ht & Hc & Hv).
  exists es. repeat split; try assumption.
  destruct Hv as [Hv|(_ & p & data & Hd & Hv)]; [now left|].
  right. now exists p, data.
Qed.

(** ** After the transcoder has answered *)

Section Transcoded.

Context (host : Host) (settings : ImageConverterSettings).
Context (k : EventKind) (file : File) (activeFile : TAbstractFile).
Context (pos : EditorPosition) (w w1 : World) (b : PresetBundle).
Context (destinationPath newFilename settled : string).
Context (processedImage : list Byte.byte).

Hypothesis Hresolve : resolvePresets host settings file w = (Fulfilled b, w1).
Hypothesis Hdest :
  determineDestination host (vault w) file activeFile
    (selConversion b) (selFilename b) (selFolder b)
  = Ok (destinationPath, newFilename).
Hypothesis Hreach :
  reachesProcessing host file b (vault w) destinationPath newFilename settled.
Hypothesis Hconv : skipsConversion host file b = false.
Hypothesis Hprocessed :
  processImage host file (processArgs settings (selConversion b))
  = Ok processedImage.

Let newFullPath := combinePath host destinationPath settled.
Let data := materialized settings file processedImage.
Let called := logged w1 (transcodingEffects settings file b processedImage newFullPath).

(** The unit up to the call of [createBinary]: what is left is the
    host's answer and the link. *)
Lemma unit_transcoded :
  unitOf host settings k activeFile pos file w =
  try_catch
    (try_catch
       (let* tfile :=
          (fun w' =>
             match createBinary_fault host (vault w') newFullPath with
             | Some (CreateThrows e) => (Rejected e, w')
             | Some CreateNull => (Fulfilled None, w')
             | None =>
                 (Fulfilled (Some {| path := newFullPath |}),
                  written newFullPath data w')
             end) in
        match k, tfile with
        | Drop, Some t =>
            insertLinkAtCursorPosition host settings (path t) pos
              (selLinkFormat b) (selResize b)
        | Drop, None => throw TypeError
        | Paste, None =>
            notice ("Failed to create file " +:+ quoted settled +:+
                    ". Check console for details.")
        | Paste, Some t =>
            not_awaited
              (insertLinkAtCursorPosition host settings (path t) pos
                 (selLinkFormat b) (selResize b))
        end)
       (fun error =>
          console_error "Image processing failed:" ;;
          notice (processingFailureNotice file settled error)))
    unexpectedError called.
Proof.
  rewrite (unit_processing host settings k file activeFile pos w w1 b Hresolve
             destinationPath newFilename Hdest settled Hreach).
  rewrite Hconv. unfold processAndCreate, createBinary.
  subst called data. unfold transcodingEffects, materialized, written,
    sizeComparisonEffects, showSizeComparisonNotification, usingOriginalNotice.
  fold newFullPath.
  unfold try_catch, bind, emit, lift, notice, ret, logged. cbn.
  rewrite Hprocessed. cbn.
  destruct (revertToOriginalIfLarger settings &&
            (byteLength processedImage >? file_size file));
    destruct (showSpaceSavedNotification settings); cbn;
    destruct (createBinary_fault host (vault w1) newFullPath) as [[e|]|]; cbn;
    repeat (rewrite <- app_assoc; cbn); reflexivity.
Qed.

End Transcoded.

(** When the transcoder has answered and the vault takes the entry, the
    bytes written are the transcoded ones unless reverting is on and they
    are strictly larger than the original: a result of equal size is kept. *)
Theorem transcoded_bytes_are_written
    (host : Host) (settings : ImageConverterSettings) (k : EventKind)
    (file : File) (activeFile : TAbstractFile) (pos : EditorPosition)
    (w w1 : World) (b : PresetBundle)
    (destinationPath newFilename settled : string)
    (processedImage : list Byte.byte) :
  resolvePresets host settings file w = (Fulfilled b, w1) ->
  determineDestination host (vault w) file activeFile
    (selConversion b) (selFilename b) (selFolder b)
  = Ok (destinationPath, newFilename) ->
  reachesProcessing host file b (vault w) destinationPath newFilename settled ->
  skipsConversion host file b = false ->
  processImage host file (processArgs settings (selConversion b))
  = Ok processedImage ->
  createBinary_fault host (vault w) (combinePath host destinationPath settled)
  = None ->
  revertToOriginalIfLarger settings = false \/
  byteLength processedImage <= file_size file ->
  let after := snd (unitOf host settings k activeFile pos file w) in
  fst (unitOf host settings k activeFile pos file w) = Fulfilled tt /\
  vault after =
    <[combinePath host destinationPath settled := processedImage]> (vault w).
Proof.
  intros Hresolve Hdest Hreach Hconv Hprocessed Hfault Hkeep after. subst after.
  rewrite (unit_transcoded host settings k file activeFile pos w w1 b
             destinationPath newFilename settled processedImage
             Hresolve Hdest Hreach Hconv Hprocessed).
  assert (Hdata : materialized settings file processedImage = processedImage).
  { unfold materialized. destruct Hkeep as [-> | Hle]; [reflexivity|].
    destruct (Z.gtb_spec (byteLength processedImage) (file_size file)); [lia|].
    now rewrite andb_false_r. }
  rewrite Hdata.
  pose proof (resolved_vault host settings file w w1 b Hresolve) as Hv1.
  set (newFullPath := combinePath host destinationPath settled) in *.
  set (called := logged w1 _).
  assert (Hcalled : vault called = vault w) by (subst called; exact Hv1).
  unfold try_catch, bind. cbn beta.
  rewrite Hcalled, Hfault.
  set (saved := written newFullPath processedImage called).
  assert (Hsaved : vault saved = <[newFullPath := processedImage]> (vault w)).
  { subst saved called. cbn. congruence. }
  destruct k; cbn [path].
  - destruct (formattedLinkFor host settings newFullPath
                (selLinkFormat b) (selResize b)) as [link|e] eqn:Hlink.
    + rewrite (insertLink_run host settings newFullPath pos _ _ link saved Hlink).
      cbn. split; [reflexivity | exact Hsaved].
    + rewrite (insertLink_throw host settings newFullPath pos _ _ e saved Hlink).
      unfold console_error, notice, emit. cbn.
      split; [reflexivity | exact Hsaved].
  - destruct (insertLink_quiet host settings newFullPath pos
                (selLinkFormat b) (selResize b) saved) as (Hvault & _).
    unfold not_awaited. cbn. split; [reflexivity | congruence].
Qed.

(** On the demo host a transcoded result of the original's size is
    written although reverting is on. *)
Lemma transcoded_bytes_are_written_witness :
  let host := Demo.host (Ok Demo.png) (Ok tt) Unanswered in
  let settings := Demo.settings "never" "increment" "" "" true "front" in
  vault (snd (unitOf host settings Paste Demo.note Demo.origin Demo.photo
                Demo.emptyWorld))
  = <["attachments/photo.png" := Demo.png]> (vault Demo.emptyWorld).
Proof.
  intros host settings.
  refine (proj2 (transcoded_bytes_are_written host settings Paste Demo.photo
            Demo.note Demo.origin Demo.emptyWorld Demo.emptyWorld
            (Demo.bundle "increment" "" "") "attachments" "photo.png" "photo.png"
            Demo.png _ _ _ _ _ _ _));
    try reflexivity.
  - repeat split; reflexivity.
  - right. vm_compute. discriminate.
Defined.



(** When [createBinary] throws in the transcoding branch, the throw is
    caught by the transcoding catch clause: the unit fulfils with the vault
    unchanged and one failure notice chosen by the thrown message, so the
    vault's own "File already exists" yields the already-exists notice.
    In the skip-conversion branch the same throw reaches the outermost
    catch clause and yields the unexpected-error notice. *)
Theorem vault_refusal_is_reported
    (host : Host) (settings : ImageConverterSettings) (k : EventKind)
    (file : File) (activeFile : TAbstractFile) (pos : EditorPosition)
    (w w1 : World) (b : PresetBundle)
    (destinationPath newFilename settled : string) (e : Thrown) :
  resolvePresets host settings file w = (Fulfilled b, w1) ->
  determineDestination host (vault w) file activeFile
    (selConversion b) (selFilename b) (selFolder b)
  = Ok (destinationPath, newFilename) ->
  reachesProcessing host file b (vault w) destinationPath newFilename settled ->
  let newFullPath := combinePath host destinationPath settled in
  createBinary_fault host (vault w) newFullPath = Some (CreateThrows e) ->
  (forall processedImage,
     skipsConversion host file b = false ->
     processImage host file (processArgs settings (selConversion b))
     = Ok processedImage ->
     unitOf host settings k activeFile pos file w =
       (Fulfilled tt,
        logged w1
          (transcodingEffects settings file b processedImage newFullPath ++
           [EConsole Error "Image processing failed:";
            ENotice (processingFailureNotice file settled e)]))) /\
  (skipsConversion host file b = true ->
   unitOf host settings k activeFile pos file w =
     (Fulfilled tt,
      logged w1
        [ENotice (skippedConversionNotice file);
         ECreateBinary newFullPath (file_content file);
         EConsole Error "An unexpected error occurred:";
         ENotice "An unexpected error occurred. Check console for details."])).
Proof.
  intros Hresolve Hdest Hreach newFullPath Hfault.
  pose proof (resolved_vault host settings file w w1 b Hresolve) as Hv1.
  split.
  - intros processedImage Hconv Hprocessed.
    rewrite (unit_transcoded host settings k file activeFile pos w w1 b
               destinationPath newFilename settled processedImage
               Hresolve Hdest Hreach Hconv Hprocessed).
    fold newFullPath.
    set (called := logged w1 _) in *.
    assert (Hcalled : vault called = vault w) by (subst called; exact Hv1).
    unfold try_catch, bind. cbn beta.
    rewrite Hcalled, Hfault.
    unfold console_error, notice, emit. subst called. now rewrite !logged_app.
  - intros Hconv.
    rewrite (unit_processing host settings k file activeFile pos w w1 b Hresolve
               destinationPath newFilename Hdest settled Hreach).
    rewrite Hconv. fold newFullPath.
    unfold saveUnprocessed, createBinary, skippedConversionNotice. run_task.
    rewrite Hv1, Hfault. run_task. unfold logged. cbn.
    repeat (rewrite <- app_assoc; cbn). reflexivity.
Qed.

(** On the demo host, whose vault refuses to create an entry where one
    is, with neither increment nor reuse: [photo.png] dropped where
    [attachments/photo.png] exists gets the already-exists notice. *)
Lemma vault_refusal_is_reported_witness :
  let host := Demo.host (Ok Demo.smaller) (Ok tt) Unanswered in
  let settings := Demo.settings "never" "keep" "" "" true "front" in
  let after :=
    snd (unitOf host settings Drop Demo.note Demo.origin Demo.photo
           Demo.worldWithPhoto) in
  vault after = vault Demo.worldWithPhoto /\
  List.filter isNotice (trace after) =
    [ENotice "4 bytes → 2 bytes (-50.0%)";
     ENotice ("Failed to process image: File " +:+ quoted "photo.png" +:+
              " already exists.")].
Proof.
  intros host settings after.
  pose proof (proj1 (vault_refusal_is_reported host settings Drop Demo.photo
                Demo.note Demo.origin Demo.worldWithPhoto Demo.worldWithPhoto
                (Demo.bundle "keep" "" "") "attachments" "photo.png" "photo.png"
                (ErrorObj "File already exists.")
                eq_refl eq_refl
                (conj eq_refl (conj eq_refl (conj eq_refl eq_refl)))
                eq_refl)
              Demo.smaller eq_refl eq_refl) as Hrun.
  subst after. rewrite Hrun. split; reflexivity.
Defined.

(** ** Planning failures *)

(** A unit whose destination cannot be determined, or whose filename
    cannot be incremented under the increment policy, ends fulfilled after
    one console entry and one notice naming the file; it asks for no
    folder, transcodes nothing and writes nothing. *)
Theorem planning_failure_aborts_unit
    (host : Host) (settings : ImageConverterSettings) (k : EventKind)
    (file : File) (activeFile : TAbstractFile) (pos : EditorPosition)
    (w w1 : World) (b : PresetBundle) :
  resolvePresets host settings file w = (Fulfilled b, w1) ->
  let unit := unitOf host settings k activeFile pos file in
  (forall e,
     determineDestination host (vault w) file activeFile
       (selConversion b) (selFilename b) (selFolder b) = Throw e ->
     unit w =
       (Fulfilled tt,
        logged w1
          [EConsole Error "Error determining destination and filename:";
           ENotice ("Failed to determine destination or filename for " +:+
                    quoted (file_name file) +:+ ". Check console for details.")])) /\
  (forall destinationPath newFilename e,
     determineDestination host (vault w) file activeFile
       (selConversion b) (selFilename b) (selFolder b)
     = Ok (destinationPath, newFilename) ->
     folderReady host (vault w) destinationPath = true ->
     skipsRename host file b = false ->
     conflictPolicyIs b "increment" = true ->
     handleNameConflicts host (vault w) destinationPath newFilename "increment"
     = Throw e ->
     unit w =
       (Fulfilled tt,
        logged w1
          [EConsole Error "Error handling filename conflicts:";
           ENotice ("Error incrementing filename for " +:+
                    quoted (file_name file) +:+ ". Check console for details.")])).
Proof.
  intros Hresolve unit. subst unit.
  pose proof (resolved_vault host settings file w w1 b Hresolve) as Hv1.
  split.
  - intros e Hthrow.
    rewrite (unit_resolved host settings k file activeFile pos w w1 b Hresolve).
    unfold planAndProcess. run_task. rewrite Hv1, Hthrow. now run_task.
  - intros destinationPath newFilename e Hdest Hready Hskip Hinc Hthrow.
    rewrite (unit_folder_ready host settings k file activeFile pos w w1 b Hresolve
               destinationPath newFilename Hdest Hready).
    unfold handleConflicts. run_task. rewrite Hv1, Hskip, Hinc, Hthrow.
    now run_task.
Qed.

(** On a host whose planner cannot increment, the drop of [photo.png]
    under the increment policy ends with the incrementing notice. *)
Lemma planning_failure_aborts_unit_witness :
  let host :=
    Demo.withNameConflicts (fun _ _ _ _ => Throw (ErrorObj "too many files"))
      (Demo.host (Ok Demo.smaller) (Ok tt) Unanswered) in
  let settings := Demo.settings "never" "increment" "" "" true "front" in
  unitOf host settings Drop Demo.note Demo.origin Demo.photo Demo.emptyWorld =
    (Fulfilled tt,
     logged Demo.emptyWorld
       [EConsole Error "Error handling filename conflicts:";
        ENotice ("Error incrementing filename for " +:+ quoted "photo.png" +:+
                 ". Check console for details.")]).
Proof.
  intros host settings.
  refine (proj2 (planning_failure_aborts_unit host settings Drop Demo.photo
            Demo.note Demo.origin Demo.emptyWorld Demo.emptyWorld
            (Demo.bundle "increment" "" "") _)
            "attachments" "photo.png" (ErrorObj "too many files") _ _ _ _ _);
    reflexivity.
Defined.

(** ** Events without an active note, and the files of an event *)

Lemma onEditorPaste_itemData (host : Host) (settings : ImageConverterSettings)
    (items : list ClipboardItem) (w : World) :
  onEditorPaste host settings {| clipboardData := Some items |} w =
  if existsb (pasteGate host settings) (itemDataOf items) then
    (emit EPreventDefault ;;
     handlePaste host settings (itemDataOf items) (cursor w)) w
  else (Fulfilled tt, w).
Proof.
  unfold onEditorPaste, itemDataOf. cbn.
  now destruct (existsb (pasteGate host settings) _).
Qed.

Lemma pastedFiles_kept (host : Host) (itemData : list ItemData) (f : File) :
  f ∈ pastedFiles host itemData <->
  exists d, d ∈ itemData /\ data_kind d = "file" /\ data_file d = Some f /\
            isSupported host (data_type d) (file_name f) = true.
Proof.
  unfold pastedFiles. rewrite list_elem_of_omap. split.
  - intros (d & Hin & Hf). apply list_elem_of_In, List.filter_In in Hin as [Hin Hd].
    apply andb_prop in Hd as [Hkind Hsup]. rewrite Hf in Hsup.
    exists d. repeat split; try assumption.
    + now apply list_elem_of_In.
    + now apply String.eqb_eq.
  - intros (d & Hin & Hkind & Hf & Hsup). exists d. split; [|exact Hf].
    apply list_elem_of_In, List.filter_In. split; [now apply list_elem_of_In|].
    rewrite Hkind, Hf, Hsup. reflexivity.
Qed.

(** A drop or paste that passes the gate while no note is active
    suppresses the host's handling all the same and then only posts the
    no-active-file notice: nothing is written and no link is inserted. *)
Theorem no_active_file_drops_the_event
    (host : Host) (settings : ImageConverterSettings) (w : World) :
  getActiveFile host = None ->
  (forall files pos,
     existsb (dropGate host settings) files = true ->
     onEditorDrop host settings
       {| dataTransfer := Some files; posAtMouse := Some pos |} w
     = (Fulfilled tt,
        logged w [EPreventDefault; ENotice "No active file detected."])) /\
  (forall items,
     existsb (pasteGate host settings) (itemDataOf items) = true ->
     onEditorPaste host settings {| clipboardData := Some items |} w
     = (Fulfilled tt,
        logged w [EPreventDefault; ENotice "No active file found!"])).
Proof.
  intros Hnone. split.
  - intros files pos Hgate. unfold onEditorDrop. cbn. rewrite Hgate.
    unfold handleDrop.
    destruct (List.filter _ files) as [|f fs] eqn:Hfiles.
    + exfalso. apply List.existsb_exists in Hgate as (f & Hin & Hf).
      unfold dropGate in Hf. apply andb_prop in Hf as [Hsup _].
      assert (Hkept : List.In f (List.filter
                (fun data => isSupported host (file_type data) (file_name data))
                files)) by (apply List.filter_In; now split).
      rewrite Hfiles in Hkept. destruct Hkept.
    + rewrite Hnone. now run_task.
  - intros items Hgate. rewrite onEditorPaste_itemData, Hgate.
    unfold handlePaste.
    destruct (pastedFiles host (itemDataOf items)) as [|f fs] eqn:Hfiles.
    + exfalso. apply List.existsb_exists in Hgate as (d & Hin & Hd).
      unfold pasteGate in Hd. apply andb_prop in Hd as [Hkind Hfile].
      destruct (data_file d) as [f|] eqn:Hf; [|discriminate].
      apply andb_prop in Hfile as [Hsup _].
      assert (Hkept : f ∈ pastedFiles host (itemDataOf items)).
      { apply pastedFiles_kept. exists d. repeat split; try assumption.
        - now apply list_elem_of_In.
        - now apply String.eqb_eq. }
      rewrite Hfiles in Hkept. inversion Hkept.
    + rewrite Hnone. now run_task.
Qed.

(** On the demo host without an active note the drop of [photo.png] is
    swallowed. *)
Lemma no_active_file_drops_the_event_witness :
  onEditorDrop
    (Demo.withoutActiveFile (Demo.host (Ok Demo.smaller) (Ok tt) Unanswered))
    (Demo.settings "never" "increment" "" "" true "front")
    {| dataTransfer := Some [Demo.photo]; posAtMouse := Some Demo.origin |}
    Demo.emptyWorld
  = (Fulfilled tt,
     logged Demo.emptyWorld [EPreventDefault; ENotice "No active file detected."]).
Proof.
  refine (proj1 (no_active_file_drops_the_event
                   (Demo.withoutActiveFile
                      (Demo.host (Ok Demo.smaller) (Ok tt) Unanswered))
                   (Demo.settings "never" "increment" "" "" true "front")
                   Demo.emptyWorld _) [Demo.photo] Demo.origin _);
    reflexivity.
Defined.

(** A file is among the files a paste works on exactly when it is the
    file of a clipboard item of kind "file" that the registry supports
    under the item's type and the file's name: an item of another kind
    contributes no file, whatever it holds. *)
Theorem units_of_a_paste (host : Host) (items : list ClipboardItem) (f : File) :
  f ∈ pastedFiles host (itemDataOf items) <->
  exists item,
    item ∈ items /\ kind item = "file" /\ getAsFile item = Some f /\
    isSupported host (item_type item) (file_name f) = true.
Proof.
  rewrite pastedFiles_kept. unfold itemDataOf. split.
  - intros (d & Hin & Hkind & Hfile & Hsup).
    apply list_elem_of_In, List.in_map_iff in Hin as (item & <- & Hin).
    cbn in *. rewrite Hkind in Hfile. cbn in Hfile.
    exists item. repeat split; try assumption. now apply list_elem_of_In.
  - intros (item & Hin & Hkind & Hfile & Hsup).
    eexists. split; [apply list_elem_of_In, List.in_map, list_elem_of_In, Hin|].
    cbn. rewrite Hkind. cbn. auto.
Qed.

(** ** The link of a unit *)

Lemma resolvePresets_stored_absent
    (host : Host) (settings : ImageConverterSettings) (file : File)
    (w w1 : World) (b : PresetBundle) :
  usesStoredPresets settings ->
  resolvePresets host settings file w = (Fulfilled b, w1) ->
  (selLinkFormat b = None <->
   linkFormatPresets (linkFormatSettings settings) = []) /\
  (selResize b = None <->
   resizePresets (nonDestructiveResizeSettings settings) = []).
Proof.
  intros [Hask Halways]. unfold resolvePresets. rewrite Hask, Halways.
  unfold bind at 1. cbn. unfold bind.
  destruct (getPresetByName_resolved (selectedConversionPreset settings)
              (conversionPresets settings) "Conversion" w)
    as (c & e1 & -> & _ & _).
  destruct (getPresetByName_resolved (selectedFilenamePreset settings)
              (filenamePresets settings) "Filename" (logged w e1))
    as (f & e2 & -> & _ & _).
  destruct (getPresetByName_resolved (selectedFolderPreset settings)
              (folderPresets settings) "Folder" (logged (logged w e1) e2))
    as (d & e3 & -> & _ & _).
  destruct (getPresetByName_resolved
              (selectedLinkFormatPreset (linkFormatSettings settings))
              (linkFormatPresets (linkFormatSettings settings)) "Link Format"
              (logged (logged (logged w e1) e2) e3)) as (l & e4 & -> & _ & R4).
  destruct (getPresetByName_resolved
              (selectedResizePreset (nonDestructiveResizeSettings settings))
              (resizePresets (nonDestructiveResizeSettings settings)) "Resize"
              (logged (logged (logged (logged w e1) e2) e3) e4))
    as (r & e5 & -> & _ & R5).
  cbn. intros [= <- _]. cbn. split.
  - apply (proj1 R4).
  - apply (proj1 R5).
Qed.

(** With stored presets, the link of a unit is formatted with the link
    format and the resize preset the unit resolved: the second lookup by
    selected name inside insertLinkAtCursorPosition never changes them.
    With no link format preset stored at all the link is a "wikilink" with
    the "shortest" path. *)
Theorem stored_presets_format_the_link
    (host : Host) (settings : ImageConverterSettings) (file : File)
    (w w1 : World) (b : PresetBundle) (linkPath : string) :
  usesStoredPresets settings ->
  resolvePresets host settings file w = (Fulfilled b, w1) ->
  formattedLinkFor host settings linkPath (selLinkFormat b) (selResize b)
  = formatLink host linkPath
      (or_string (linkFormat <$> selLinkFormat b) "wikilink")
      (or_string (pathFormat <$> selLinkFormat b) "shortest")
      (getActiveFile host) (selResize b) /\
  (linkFormatPresets (linkFormatSettings settings) = [] ->
   formattedLinkFor host settings linkPath (selLinkFormat b) (selResize b)
   = formatLink host linkPath "wikilink" "shortest" (getActiveFile host)
       (selResize b)).
Proof.
  intros Hstored Hresolve.
  destruct (resolvePresets_stored_absent host settings file w w1 b Hstored Hresolve)
    as [Hl Hr].
  assert (Hlink :
    formattedLinkFor host settings linkPath (selLinkFormat b) (selResize b)
    = formatLink host linkPath
        (or_string (linkFormat <$> selLinkFormat b) "wikilink")
        (or_string (pathFormat <$> selLinkFormat b) "shortest")
        (getActiveFile host) (selResize b)).
  { unfold formattedLinkFor.
    destruct (selLinkFormat b) as [l|]; destruct (selResize b) as [r|];
      try rewrite (proj1 Hl eq_refl); try rewrite (proj1 Hr eq_refl);
      reflexivity. }
  split; [exact Hlink|].
  intros Hnone. rewrite Hlink, (proj2 Hl Hnone). reflexivity.
Qed.

(** On the demo settings the link of [photo.png] is formatted with the
    stored "wiki" preset and the stored resize preset. *)
Lemma stored_presets_format_the_link_witness :
  let host := Demo.host (Ok Demo.smaller) (Ok tt) Unanswered in
  let settings := Demo.settings "never" "reuse" "" "" true "front" in
  exists b w1,
    resolvePresets host settings Demo.photo Demo.emptyWorld = (Fulfilled b, w1) /\
    formattedLinkFor host settings "attachments/photo.webp"
      (selLinkFormat b) (selResize b)
    = formatLink host "attachments/photo.webp"
        (or_string (linkFormat <$> selLinkFormat b) "wikilink")
        (or_string (pathFormat <$> selLinkFormat b) "shortest")
        (getActiveFile host) (selResize b).
Proof.
  intros host settings.
  eexists _, _. split; [reflexivity|].
  refine (proj1 (stored_presets_format_the_link host settings Demo.photo
                   Demo.emptyWorld _ _ "attachments/photo.webp" _ _)).
  - split; reflexivity.
  - reflexivity.
Defined.

(** ** The size shown in a notice *)

Lemma kilobytes_below_1024 (t : Z) :
  10 <= t < 10240 -> Js.one_decimal t +:+ " KB" <> "1024.0 KB".
Proof.
  intros Ht.
  assert (Hall :
    forallb (fun k => negb (String.eqb (Js.one_decimal (Z.of_nat k) +:+ " KB")
                              "1024.0 KB"))
      (List.seq 10 (Z.to_nat 10230)) = true) by (vm_compute; reflexivity).
  rewrite List.forallb_forall in Hall.
  assert (Hin : List.In (Z.to_nat t) (List.seq 10 (Z.to_nat 10230)))
    by (apply List.in_seq; lia).
  specialize (Hall (Z.to_nat t) Hin).
  rewrite Z2Nat.id in Hall by lia.
  intros He. rewrite He in Hall. discriminate.
Qed.

(** A size shown in KB reads between 1.0 and 1024.0: the switch to MB is
    made on the byte count, before rounding, so the 51 counts from 1048525
    to 1048575 are shown as "1024.0 KB", and no other count is. *)
Theorem kilobytes_reach_1024 (n : Z) :
  1024 <= n < 1048576 ->
  (exists t, 10 <= t <= 10240 /\
             formatFileSize n = Js.one_decimal t +:+ " KB") /\
  (1048525 <= n <-> formatFileSize n = "1024.0 KB").
Proof.
  intros Hn.
  destruct (formatFileSize_cases n ltac:(lia)) as (_ & Hk & _).
  specialize (Hk Hn).
  assert (Ht : 10 <= Js.tenths n 1024 <= 10240 /\
               (1048525 <= n <-> Js.tenths n 1024 = 10240)).
  { unfold Js.tenths. rewrite (Z.abs_eq n) by lia.
    pose proof (Z.div_mod (20 * n + 1024) (2 * 1024) ltac:(lia)) as Hdm.
    pose proof (Z.mod_pos_bound (20 * n + 1024) (2 * 1024) ltac:(lia)) as Hb.
    change (Z.pos 1024) with 1024.
    set (t := (20 * n + 1024) / (2 * 1024)) in *.
    set (r := (20 * n + 1024) mod (2 * 1024)) in *. lia. }
  destruct Ht as [Hrange Hedge]. split.
  - exists (Js.tenths n 1024). split; [exact Hrange | exact Hk].
  - rewrite Hk. split.
    + intros Hlarge. rewrite (proj1 Hedge Hlarge). reflexivity.
    + intros He. apply Hedge.
      destruct (Z.eq_dec (Js.tenths n 1024) 10240) as [|Hne]; [assumption|].
      exfalso. apply (kilobytes_below_1024 (Js.tenths n 1024)); [lia | exact He].
Qed.

(** 1048575 bytes, one short of a megabyte, are shown as 1024.0 KB. *)
Lemma kilobytes_reach_1024_witness : formatFileSize 1048575 = "1024.0 KB".
Proof.
  refine (proj1 (proj2 (kilobytes_reach_1024 1048575 _)) _); lia.
Defined.

(** ** Settings on disk *)

Section StoredSettingsFacts.

Context {V : Type} (DEFAULT_SETTINGS : gmap string V).

Lemma loadSettings_lookup (p : SettingsStore) (k : string) :
  plugin_settings (loadSettings DEFAULT_SETTINGS p) !! k =
  match data_json p with
  | Some data =>
      match data !! k with
      | Some v => Some v
      | None => DEFAULT_SETTINGS !! k
      end
  | None => DEFAULT_SETTINGS !! k
  end.
Proof.
  unfold loadSettings, Object_assign. cbn.
  destruct (data_json p) as [data|].
  - rewrite lookup_union, lookup_union, lookup_empty.
    destruct (data !! k), (DEFAULT_SETTINGS !! k); reflexivity.
  - rewrite lookup_union, lookup_empty.
    destruct (DEFAULT_SETTINGS !! k); reflexivity.
Qed.

(** Loading merges the data file over the defaults one top-level property
    at a time: a stored property is taken whole, a missing one takes its
    default.  Saving and loading again gives back the settings in memory
    exactly when they have every property of the defaults, which the
    settings of an earlier load always do. *)
Theorem settings_round_trip (p : SettingsStore) :
  (forall k v, data_json p = Some v ->
     plugin_settings (loadSettings DEFAULT_SETTINGS p) !! k =
     match v !! k with Some x => Some x | None => DEFAULT_SETTINGS !! k end) /\
  (plugin_settings (loadSettings DEFAULT_SETTINGS (saveSettings p))
   = plugin_settings p
   <-> forall k, is_Some (DEFAULT_SETTINGS !! k) ->
                 is_Some (plugin_settings p !! k)) /\
  plugin_settings
    (loadSettings DEFAULT_SETTINGS
       (saveSettings (loadSettings DEFAULT_SETTINGS p)))
  = plugin_settings (loadSettings DEFAULT_SETTINGS p).
Proof.
  assert (Hround : forall q : SettingsStore,
    plugin_settings (loadSettings DEFAULT_SETTINGS (saveSettings q))
    = plugin_settings q
    <-> forall k, is_Some (DEFAULT_SETTINGS !! k) ->
                  is_Some (plugin_settings q !! k)).
  { intros q. split.
    - intros He k [d Hd]. rewrite <- He, loadSettings_lookup. cbn.
      destruct (plugin_settings q !! k); [eauto | rewrite Hd; eauto].
    - intros Hall. apply map_eq. intros k. rewrite loadSettings_lookup. cbn.
      destruct (plugin_settings q !! k) as [x|] eqn:Hk; [reflexivity|].
      destruct (DEFAULT_SETTINGS !! k) as [d|] eqn:Hd; [|reflexivity].
      destruct (Hall k) as [x Hx]; [rewrite Hd; eauto|]. congruence. }
  split; [|split].
  - intros k v Hv. rewrite loadSettings_lookup, Hv. reflexivity.
  - apply Hround.
  - apply Hround. intros k [d Hd]. rewrite loadSettings_lookup.
    destruct (data_json p) as [data|]; [destruct (data !! k)|];
      rewrite ?Hd; eauto.
Qed.

End StoredSettingsFacts.

(** ** Components and registrations *)

(** Handlers and commands are registered only at the end of
    initializeComponents: when the alignment manager is enabled and its
    [initialize()] rejects or never settles, initializeComponents does the
    same and nothing at all is registered, the drop and paste handlers
    included, while the manager stays set without an ImageAlignment.
    Otherwise everything is registered, the drop and paste handlers
    except on mobile. *)
Theorem nothing_registered_before_initialize
    (flags : ComponentSettings) (platform : Platform) :
  let run := initializeComponents flags platform freshPlugin in
  (fst run = Fulfilled tt <->
   (isImageAlignmentEnabled flags = true ->
    initialize platform = Answered tt)) /\
  (fst run = Fulfilled tt ->
   registered (snd run) = allRegistrations platform /\
   imageAlignment (snd run) = isImageAlignmentEnabled flags) /\
  (fst run <> Fulfilled tt ->
   registered (snd run) = [] /\
   ImageAlignmentManager (snd run) = true /\
   imageAlignment (snd run) = false /\
   (forall e, fst run = Rejected e <-> initialize platform = PromptThrows e)).
Proof.
  destruct flags as [menu resize align], platform as [mobile view init].
  destruct menu, resize, align, mobile, view, init as [[]| |e]; vm_compute;
    repeat split; try congruence; try tauto;
    try (intros H; exfalso; apply H; reflexivity);
    try (intros H; now specialize (H eq_refl));
    try (intros [= ->]; reflexivity).
Qed.

(** Unloading after initializeComponents, however that ended, calls the
    teardown of exactly the components the settings asked for and of no
    other, in the order context menu, alignment, manager, resizer, and
    registers nothing: the ImageAlignment is torn down only when
    [initialize()] fulfilled, the manager also when it did not. *)
Theorem unload_tears_down_what_was_created
    (flags : ComponentSettings) (platform : Platform) :
  let run := initializeComponents flags platform freshPlugin in
  called (onunload (snd run)) = called (snd run) ++ teardownOf flags platform /\
  registered (onunload (snd run)) = registered (snd run).
Proof.
  destruct flags as [menu resize align], platform as [mobile view init].
  destruct init as [[]| |e], menu, resize, align, mobile, view;
    vm_compute; split; reflexivity.
Qed.

(** ** Drop and paste side by side *)

Section Alike.

Lemma sameActs_refl (w : World) : sameActs w w.
Proof. repeat split. Qed.

Lemma sameActs_sym (w1 w2 : World) : sameActs w1 w2 -> sameActs w2 w1.
Proof. intros (Hv & Hc & Ha). repeat split; congruence. Qed.

Lemma sameActs_trans (w1 w2 w3 : World) :
  sameActs w1 w2 -> sameActs w2 w3 -> sameActs w1 w3.
Proof. intros (Hv & Hc & Ha) (Hv' & Hc' & Ha'). repeat split; congruence. Qed.

Lemma acts_retraced (t : list Effect) (w : World) :
  acts (retraced t w) =
  List.filter (fun e => negb (isReport e)) t ++ acts w.
Proof. unfold acts, retraced. cbn. apply List.filter_app. Qed.

Lemma twin_of_blind {A : Type} (m : Task A) : traceBlind m -> twin m m.
Proof.
  intros Hm w1 w2 (Hv & Hc & Ha).
  set (w0 := {| vault := vault w1; cursor := cursor w1; trace := [] |}).
  assert (H1 : w1 = retraced (trace w1) w0).
  { destruct w1. unfold retraced, w0. cbn. now rewrite app_nil_r. }
  assert (H2 : w2 = retraced (trace w2) w0).
  { destruct w2. unfold retraced, w0. cbn in *. rewrite app_nil_r. congruence. }
  pose proof (Hm (trace w1) w0) as E1. rewrite <- H1 in E1.
  pose proof (Hm (trace w2) w0) as E2. rewrite <- H2 in E2.
  rewrite E1, E2. cbn.
  split; [reflexivity|]. repeat split.
  rewrite !acts_retraced. unfold acts in Ha. now rewrite Ha.
Qed.

Lemma twin_alike {A : Type} (m1 m2 : Task A) : twin m1 m2 -> alike m1 m2.
Proof. intros H w1 w2 Hw. apply (H w1 w2 Hw). Qed.

Lemma alike_bind {A B C : Type} (m1 m2 : Task A)
    (k1 : A -> Task B) (k2 : A -> Task C) :
  twin m1 m2 -> (forall a, alike (k1 a) (k2 a)) -> alike (bind m1 k1) (bind m2 k2).
Proof.
  intros Hm Hk w1 w2 Hw. destruct (Hm w1 w2 Hw) as [Ho Hs]. unfold bind.
  destruct (m1 w1) as [o1 w1'], (m2 w2) as [o2 w2']. cbn in Ho, Hs. subst o2.
  destruct o1 as [a|e|]; cbn; [apply Hk|..]; assumption.
Qed.

Lemma twin_bind {A B : Type} (m1 m2 : Task A) (k1 k2 : A -> Task B) :
  twin m1 m2 -> (forall a, twin (k1 a) (k2 a)) -> twin (bind m1 k1) (bind m2 k2).
Proof.
  intros Hm Hk w1 w2 Hw. destruct (Hm w1 w2 Hw) as [Ho Hs]. unfold bind.
  destruct (m1 w1) as [o1 w1'], (m2 w2) as [o2 w2']. cbn in Ho, Hs. subst o2.
  destruct o1 as [a|e|]; cbn; [apply Hk; assumption|split; [reflexivity|assumption]..].
Qed.

Lemma mute_logged (w : World) (es : list Effect) :
  forallb isReport es = true -> sameActs w (logged w es).
Proof.
  intros Hes. repeat split. unfold acts, logged. cbn.
  rewrite List.filter_app.
  assert (Hnone : List.filter (fun e => negb (isReport e)) es = []).
  { induction es as [|e es IH]; [reflexivity|]. cbn in *.
    apply andb_prop in Hes as [He Hes]. rewrite He. cbn. auto. }
  now rewrite Hnone, app_nil_r.
Qed.

Lemma mute_ret {A : Type} (a : A) : mute (ret a).
Proof. intros w. apply sameActs_refl. Qed.

Lemma mute_throw {A : Type} (e : Thrown) : mute (@throw A e).
Proof. intros w. apply sameActs_refl. Qed.

Lemma mute_notice (msg : string) : mute (notice msg).
Proof. intros w. now apply (mute_logged w [ENotice msg]). Qed.

Lemma mute_console (lvl : ConsoleLevel) (msg : string) : mute (emit (EConsole lvl msg)).
Proof. intros w. now apply (mute_logged w [EConsole lvl msg]). Qed.

Lemma mute_bind {A B : Type} (m : Task A) (k : A -> Task B) :
  mute m -> (forall a, mute (k a)) -> mute (bind m k).
Proof.
  intros Hm Hk w. unfold bind. specialize (Hm w).
  destruct (m w) as [[a|e|] w']; cbn in *; try assumption.
  eapply sameActs_trans; [exact Hm | apply Hk].
Qed.

Lemma alike_mute {A B : Type} (m1 : Task A) (m2 : Task B) :
  mute m1 -> mute m2 -> alike m1 m2.
Proof.
  intros H1 H2 w1 w2 Hw.
  eapply sameActs_trans; [apply sameActs_sym, H1|].
  eapply sameActs_trans; [exact Hw | apply H2].
Qed.

Lemma alike_try_catch {A B : Type} (m1 : Task A) (m2 : Task B)
    (h1 : Thrown -> Task A) (h2 : Thrown -> Task B) :
  alike m1 m2 -> (forall e, mute (h1 e)) -> (forall e, mute (h2 e)) ->
  alike (try_catch m1 h1) (try_catch m2 h2).
Proof.
  intros Hm H1 H2 w1 w2 Hw. specialize (Hm w1 w2 Hw). unfold try_catch.
  destruct (m1 w1) as [[a1|e1|] w1'], (m2 w2) as [[a2|e2|] w2']; cbn in *;
    try assumption.
  - eapply sameActs_trans; [exact Hm | apply H2].
  - eapply sameActs_trans; [apply sameActs_sym, H1 | exact Hm].
  - eapply sameActs_trans; [apply sameActs_sym, H1|].
    eapply sameActs_trans; [exact Hm | apply H2].
  - eapply sameActs_trans; [apply sameActs_sym, H1 | exact Hm].
  - eapply sameActs_trans; [exact Hm | apply H2].
Qed.

Lemma alike_not_awaited {A B : Type} (m1 : Task A) (m2 : Task B) :
  alike m1 m2 -> alike m1 (not_awaited m2).
Proof. intros Hm w1 w2 Hw. apply (Hm w1 w2 Hw). Qed.

Context (host : Host) (settings : ImageConverterSettings).

Lemma mute_unexpectedError (e : Thrown) : mute (unexpectedError e).
Proof.
  unfold unexpectedError, console_error.
  apply mute_bind; [apply mute_console | intros _; apply mute_notice].
Qed.

Lemma alike_processAndCreate (file : File) (pos : EditorPosition)
    (b : PresetBundle) (newFullPath newFilename : string) :
  alike (processAndCreate host settings Drop file pos b newFullPath newFilename)
        (processAndCreate host settings Paste file pos b newFullPath newFilename).
Proof.
  pose proof (traceBlind_insertLink host settings) as Hlink.
  pose proof (traceBlind_showSizeComparisonNotification settings) as Hsize.
  unfold processAndCreate. apply alike_try_catch.
  - apply alike_bind; [apply twin_of_blind; trace_blind | intros _].
    apply alike_bind; [apply twin_of_blind; trace_blind | intros processedImage].
    apply alike_bind;
      [apply twin_of_blind; unfold notice; trace_blind | intros [t|]].
    + apply alike_not_awaited, twin_alike, twin_of_blind, Hlink.
    + apply alike_mute; [apply mute_throw | apply mute_notice].
  - intros e. unfold console_error.
    apply mute_bind; [apply mute_console | intros _; apply mute_notice].
  - intros e. unfold console_error.
    apply mute_bind; [apply mute_console | intros _; apply mute_notice].
Qed.

Lemma alike_saveUnprocessed (file : File) (pos : EditorPosition)
    (b : PresetBundle) (newFullPath newFilename : string) :
  alike (saveUnprocessed host settings Drop file pos b newFullPath newFilename)
        (saveUnprocessed host settings Paste file pos b newFullPath newFilename).
Proof.
  pose proof (traceBlind_insertLink host settings) as Hlink.
  unfold saveUnprocessed.
  apply alike_bind; [apply twin_of_blind; unfold notice; trace_blind | intros _].
  apply alike_bind; [apply twin_of_blind; trace_blind | intros [t|]].
  - apply twin_alike, twin_of_blind. trace_blind.
  - apply alike_mute; apply mute_notice.
Qed.

Lemma alike_processReuseOrSkip (file : File) (pos : EditorPosition)
    (b : PresetBundle) (destinationPath newFilename : string)
    (existingFile : option TAbstractFile) (skipFurtherProcessing : bool) :
  alike (processReuseOrSkip host settings Drop file pos b destinationPath
           newFilename existingFile skipFurtherProcessing)
        (processReuseOrSkip host settings Paste file pos b destinationPath
           newFilename existingFile skipFurtherProcessing).
Proof.
  pose proof (traceBlind_insertLink host settings) as Hlink.
  unfold processReuseOrSkip.
  destruct skipFurtherProcessing, existingFile as [existing|]; cbn;
    try (apply twin_alike, twin_of_blind; trace_blind);
    try destruct (conflictPolicyIs b "reuse");
    try (apply twin_alike, twin_of_blind; trace_blind);
    destruct (skipsConversion host file b);
    first [apply alike_saveUnprocessed | apply alike_processAndCreate].
Qed.

Lemma alike_handleConflicts (file : File) (pos : EditorPosition)
    (b : PresetBundle) (destinationPath newFilename : string) :
  alike (handleConflicts host settings Drop file pos b destinationPath newFilename)
        (handleConflicts host settings Paste file pos b destinationPath newFilename).
Proof.
  unfold handleConflicts.
  apply alike_bind; [apply twin_of_blind; trace_blind | intros v].
  destruct (skipsRename host file b).
  - apply alike_bind; [apply twin_of_blind; unfold notice; trace_blind | intros _].
    apply alike_processReuseOrSkip.
  - destruct (conflictPolicyIs b "increment").
    + destruct (handleNameConflicts host v destinationPath newFilename "increment").
      * apply alike_processReuseOrSkip.
      * apply twin_alike, twin_of_blind. unfold console_error, notice. trace_blind.
    + apply alike_processReuseOrSkip.
Qed.

Lemma alike_planAndProcess (file : File) (activeFile : TAbstractFile)
    (pos : EditorPosition) (b : PresetBundle) :
  alike (planAndProcess host settings Drop file activeFile pos b)
        (planAndProcess host settings Paste file activeFile pos b).
Proof.
  unfold planAndProcess.
  apply alike_bind; [apply twin_of_blind; trace_blind | intros v].
  destruct (determineDestination host v file activeFile _ _ _)
    as [[destinationPath newFilename]|e].
  - unfold createFolder.
    apply alike_bind; [apply twin_of_blind; trace_blind | intros v'].
    destruct (ensureFolderExists host v' destinationPath) as [|error].
    + apply alike_handleConflicts.
    + destruct (message_of error) as [message|].
      * destruct (negb (Js.startsWith message "Folder already exists")).
        -- unfold console_error.
           apply alike_mute;
             (apply mute_bind; [apply mute_console | intros _; apply mute_notice]).
        -- apply alike_handleConflicts.
      * apply twin_alike, twin_of_blind. trace_blind.
  - apply twin_alike, twin_of_blind. unfold console_error, notice. trace_blind.
Qed.

Lemma alike_units (activeFile : TAbstractFile) (pos : EditorPosition) (file : File) :
  alike (dropUnit host settings activeFile pos file)
        (pasteUnit host settings activeFile pos file).
Proof.
  intros w1 w2 Hw. unfold dropUnit, pasteUnit, try_catch, bind.
  destruct (twin_of_blind _ (traceBlind_resolvePresets host settings file) w1 w2 Hw)
    as [Ho Hs].
  destruct (resolvePresets host settings file w1) as [o1 w1'],
           (resolvePresets host settings file w2) as [o2 w2'].
  cbn in Ho, Hs. subst o2. destruct o1 as [b|e|]; cbn.
  - apply (alike_try_catch _ _ unexpectedError unexpectedError
             (alike_planAndProcess file activeFile pos b)
             mute_unexpectedError mute_unexpectedError w1' w2' Hs).
  - eapply sameActs_trans;
      [apply sameActs_sym; exact (mute_unexpectedError e w1') | exact Hs].
  - exact Hs.
Qed.

Lemma alike_runUnits (activeFile : TAbstractFile) (pos : EditorPosition)
    (files : list File) (w1 w2 : World) :
  sameActs w1 w2 ->
  sameActs
    (snd (runUnits (List.map (dropUnit host settings activeFile pos) files) w1))
    (snd (runUnits (List.map (pasteUnit host settings activeFile pos) files) w2)).
Proof.
  revert w1 w2. induction files as [|f fs IH]; intros w1 w2 Hw; [exact Hw|].
  cbn. pose proof (alike_units activeFile pos f w1 w2 Hw) as Hu.
  destruct (dropUnit host settings activeFile pos f w1) as [o1 w1'],
           (pasteUnit host settings activeFile pos f w2) as [o2 w2'].
  specialize (IH w1' w2' Hu).
  destruct (runUnits (List.map (dropUnit host settings activeFile pos) fs) w1'),
           (runUnits (List.map (pasteUnit host settings activeFile pos) fs) w2').
  exact IH.
Qed.

End Alike.

(** The two handlers are copies of one another that differ in what they
    report and in how they end, and in nothing else: given the same
    supported files and the same position, a drop and a paste leave the
    same vault and the same cursor and make the same transcoding, file
    creation and editor calls in the same order. *)
Theorem drop_and_paste_act_alike
    (host : Host) (settings : ImageConverterSettings)
    (files : list File) (itemData : list ItemData) (pos : EditorPosition)
    (w : World) :
  List.filter (fun data => isSupported host (file_type data) (file_name data))
    files = pastedFiles host itemData ->
  sameActs (snd (handleDrop host settings files pos w))
           (snd (handlePaste host settings itemData pos w)).
Proof.
  intros Hfiles. unfold handleDrop, handlePaste. rewrite Hfiles.
  destruct (pastedFiles host itemData) as [|f fs]; [apply sameActs_refl|].
  destruct (getActiveFile host) as [activeFile|].
  - unfold awaitAll.
    pose proof (alike_runUnits host settings activeFile pos (f :: fs) w w
                  (sameActs_refl w)) as Hrun.
    destruct (runUnits (List.map (dropUnit host settings activeFile pos) (f :: fs)) w),
             (runUnits (List.map (pasteUnit host settings activeFile pos) (f :: fs)) w).
    exact Hrun.
  - apply (alike_mute _ _ (mute_notice _) (mute_notice _) w w (sameActs_refl w)).
Qed.

(** Dropping [photo.png] and pasting it act alike on the demo host. *)
Lemma drop_and_paste_act_alike_witness :
  let host := Demo.host (Ok Demo.smaller) (Ok tt) Unanswered in
  let settings := Demo.settings "never" "increment" "" "" true "front" in
  sameActs
    (snd (handleDrop host settings [Demo.photo] Demo.origin Demo.emptyWorld))
    (snd (handlePaste host settings [Demo.pasted Demo.photo] Demo.origin
            Demo.emptyWorld)).
Proof.
  intros host settings.
  apply (drop_and_paste_act_alike host settings [Demo.photo]
           [Demo.pasted Demo.photo] Demo.origin Demo.emptyWorld).
  reflexivity.
Defined.

(** ** Where the editor is touched *)

Section Emits.

Context (P : Effect -> Prop).

Lemma emits_still {A : Type} (m : Task A) :
  (forall w, trace (snd (m w)) = trace w) -> emits P m.
Proof. intros Hm w. exists []. rewrite app_nil_r. split; [apply Hm | constructor]. Qed.

Lemma emits_ret {A : Type} (a : A) : emits P (ret a).
Proof. now apply emits_still. Qed.

Lemma emits_throw {A : Type} (e : Thrown) : emits P (@throw A e).
Proof. now apply emits_still. Qed.

Lemma emits_lift {A : Type} (r : Result A) : emits P (lift r).
Proof. destruct r; [apply emits_ret | apply emits_throw]. Qed.

Lemma emits_await_prompt {A : Type} (p : Prompt A) : emits P (await_prompt p).
Proof. destruct p; now apply emits_still. Qed.

Lemma emits_read_vault : emits P read_vault.
Proof. now apply emits_still. Qed.

Lemma emits_emit (e : Effect) : P e -> emits P (emit e).
Proof. intros He w. exists [e]. split; [reflexivity | now repeat constructor]. Qed.

Lemma emits_bind {A B : Type} (m : Task A) (k : A -> Task B) :
  emits P m -> (forall a, emits P (k a)) -> emits P (bind m k).
Proof.
  intros Hm Hk w. unfold bind. destruct (Hm w) as (es & Ht & Hes).
  destruct (m w) as [[a|e|] w']; cbn in Ht; [|now exists es..].
  destruct (Hk a w') as (es' & Ht' & Hes'). exists (es ++ es').
  rewrite Ht', Ht, app_assoc. split; [reflexivity | now apply Forall_app].
Qed.

Lemma emits_try_catch {A : Type} (m : Task A) (h : Thrown -> Task A) :
  emits P m -> (forall e, emits P (h e)) -> emits P (try_catch m h).
Proof.
  intros Hm Hh w. unfold try_catch. destruct (Hm w) as (es & Ht & Hes).
  destruct (m w) as [[a|e|] w']; cbn in Ht; [now exists es | | now exists es].
  destruct (Hh e w') as (es' & Ht' & Hes'). exists (es ++ es').
  rewrite Ht', Ht, app_assoc. split; [reflexivity | now apply Forall_app].
Qed.

Lemma emits_not_awaited {A : Type} (m : Task A) :
  emits P m -> emits P (not_awaited m).
Proof. intros Hm w. exact (Hm w). Qed.

Context (host : Host).

Lemma emits_createBinary (p : string) (data : list Byte.byte) :
  P (ECreateBinary p data) -> emits P (createBinary host p data).
Proof.
  intros He. unfold createBinary.
  apply emits_bind; [now apply emits_emit | intros _].
  apply emits_still. intros w.
  destruct (createBinary_fault host (vault w) p) as [[e|]|]; reflexivity.
Qed.

Lemma emits_replaceRange (text : string) (pos : EditorPosition) :
  P (EReplaceRange text pos) -> emits P (replaceRange host text pos).
Proof.
  intros He. unfold replaceRange.
  apply emits_bind; [now apply emits_emit | intros _]. now apply emits_still.
Qed.

Lemma emits_setCursor (pos : EditorPosition) :
  P (ESetCursor pos) -> emits P (setCursor pos).
Proof.
  intros He. unfold setCursor.
  apply emits_bind; [now apply emits_emit | intros _]. now apply emits_still.
Qed.

End Emits.

(** Proves [emits] of a task built from the primitives, from reports and
    from tasks covered by a hypothesis. *)
Ltac emits_all :=
  repeat match goal with
    | Hemits : context [emits] |- emits _ _ => apply Hemits
    | |- emits _ (ret _) => apply emits_ret
    | |- emits _ (throw _) => apply emits_throw
    | |- emits _ (lift _) => apply emits_lift
    | |- emits _ (await_prompt _) => apply emits_await_prompt
    | |- emits _ read_vault => apply emits_read_vault
    | |- emits _ (emit _) => apply emits_emit; exact I
    | |- emits _ (createBinary _ _ _) => apply emits_createBinary; exact I
    | |- emits _ (not_awaited _) => apply emits_not_awaited
    | |- emits _ (bind _ _) => apply emits_bind; [|intros ?]
    | |- emits _ (try_catch _ _) => apply emits_try_catch; [|intros ?]
    | |- emits _ (match ?x with _ => _ end) => destruct x
    | |- emits _ (let (_, _) := ?x in _) => destruct x
    end.

Section EventPosition.

Context (host : Host) (settings : ImageConverterSettings) (pos : EditorPosition).

Lemma emits_insertLink (linkPath : string)
    (lfp : option LinkFormatPreset) (rsp : option NonDestructiveResizePreset) :
  emits (atEventPosition settings pos)
    (insertLinkAtCursorPosition host settings linkPath pos lfp rsp).
Proof.
  unfold insertLinkAtCursorPosition.
  apply emits_bind; [apply emits_lift | intros formattedLink].
  apply emits_bind; [now apply emits_replaceRange | intros _].
  destruct (String.eqb (cursorLocation settings) "back") eqn:Hback;
    [|apply emits_ret].
  apply emits_setCursor. cbn. apply String.eqb_eq in Hback.
  repeat split; [assumption|]. unfold Js.length. lia.
Qed.

Lemma emits_getPresetByName {T : Type} `{Named T}
    (presetName : string) (presetArray : list T) (presetType : string) :
  emits (atEventPosition settings pos)
    (getPresetByName presetName presetArray presetType).
Proof. unfold getPresetByName, console_warn. emits_all. Qed.

Lemma emits_resolvePresets (file : File) :
  emits (atEventPosition settings pos) (resolvePresets host settings file).
Proof.
  unfold resolvePresets.
  pose proof (@emits_getPresetByName ConversionPreset _) as Hc.
  pose proof (@emits_getPresetByName FilenamePreset _) as Hf.
  pose proof (@emits_getPresetByName FolderPreset _) as Hd.
  pose proof (@emits_getPresetByName LinkFormatPreset _) as Hl.
  pose proof (@emits_getPresetByName NonDestructiveResizePreset _) as Hr.
  emits_all.
Qed.

Lemma emits_planAndProcess (k : EventKind) (file : File)
    (activeFile : TAbstractFile) (b : PresetBundle) :
  emits (atEventPosition settings pos)
    (planAndProcess host settings k file activeFile pos b).
Proof.
  pose proof emits_insertLink as Hlink.
  unfold planAndProcess, createFolder, handleConflicts, processReuseOrSkip,
    saveUnprocessed, processAndCreate, showSizeComparisonNotification,
    notice, console_error.
  emits_all.
Qed.

Lemma emits_unit (k : EventKind) (activeFile : TAbstractFile) (file : File) :
  emits (atEventPosition settings pos)
    (unitOf host settings k activeFile pos file).
Proof.
  pose proof emits_resolvePresets as Hres.
  pose proof emits_planAndProcess as Hplan.
  destruct k; unfold unitOf, dropUnit, pasteUnit, unexpectedError, notice,
    console_error; emits_all.
Qed.

Lemma emits_awaitAll (k : EventKind) (activeFile : TAbstractFile)
    (files : list File) :
  emits (atEventPosition settings pos)
    (awaitAll (List.map (unitOf host settings k activeFile pos) files)).
Proof.
  unfold awaitAll. induction files as [|f fs IH]; intros w.
  - exists []. cbn. rewrite app_nil_r. split; [reflexivity | constructor].
  - cbn. destruct (emits_unit k activeFile f w) as (es & Ht & Hes).
    destruct (unitOf host settings k activeFile pos f w) as [o w1]. cbn in Ht.
    destruct (IH w1) as (es' & Ht' & Hes').
    destruct (runUnits (List.map (unitOf host settings k activeFile pos) fs) w1)
      as [os w2]. cbn in *.
    exists (es ++ es'). rewrite Ht', Ht, app_assoc.
    split; [reflexivity | now apply Forall_app].
Qed.

End EventPosition.

Lemma emits_handleDrop (host : Host) (settings : ImageConverterSettings)
    (files : list File) (pos : EditorPosition) :
  emits (atEventPosition settings pos) (handleDrop host settings files pos).
Proof.
  intros w. unfold handleDrop.
  destruct (List.filter _ files) as [|f fs].
  - exists []. cbn. rewrite app_nil_r. split; [reflexivity | constructor].
  - destruct (getActiveFile host) as [activeFile|].
    + apply (emits_awaitAll host settings pos Drop activeFile (f :: fs) w).
    + exists [ENotice "No active file detected."].
      split; [reflexivity | now repeat constructor].
Qed.

Lemma emits_handlePaste (host : Host) (settings : ImageConverterSettings)
    (itemData : list ItemData) (pos : EditorPosition) :
  emits (atEventPosition settings pos) (handlePaste host settings itemData pos).
Proof.
  intros w. unfold handlePaste.
  destruct (pastedFiles host itemData) as [|f fs].
  - exists []. cbn. rewrite app_nil_r. split; [reflexivity | constructor].
  - destruct (getActiveFile host) as [activeFile|].
    + apply (emits_awaitAll host settings pos Paste activeFile (f :: fs) w).
    + exists [ENotice "No active file found!"].
      split; [reflexivity | now repeat constructor].
Qed.

Lemma atEventPosition_not_prevented (settings : ImageConverterSettings)
    (pos : EditorPosition) (es : list Effect) :
  Forall (atEventPosition settings pos) es -> EPreventDefault ∉ es.
Proof.
  intros Hes Hin. rewrite Forall_forall in Hes. exact (Hes _ Hin).
Qed.

(** Whatever the files and however their units end, every piece of text
    a drop or a paste inserts goes in at the position of the event, so the
    links of a multi-file event all land at the same place; the cursor is
    set only when it is to go to the back, and then on the line of the
    event and not before its column.  The handlers themselves never call
    [preventDefault]. *)
Theorem editor_is_touched_at_the_event_only
    (host : Host) (settings : ImageConverterSettings)
    (files : list File) (itemData : list ItemData) (pos : EditorPosition)
    (w : World) :
  (exists es,
     trace (snd (handleDrop host settings files pos w)) = trace w ++ es /\
     Forall (atEventPosition settings pos) es) /\
  (exists es,
     trace (snd (handlePaste host settings itemData pos w)) = trace w ++ es /\
     Forall (atEventPosition settings pos) es).
Proof.
  split; [apply emits_handleDrop | apply emits_handlePaste].
Qed.

(** The host's own handling of a drop or a paste is suppressed exactly
    when the event has its data (and a drop the position of the mouse) and
    a file passes the gate, and then once, before anything else the event
    does.  Every other event is left to the host with vault and cursor
    untouched: nothing is recorded when only the gate stays closed, one
    console warning when the data or the position is missing, even if a
    file of the event would pass the gate. *)
Theorem default_is_prevented_once_when_the_gate_opens
    (host : Host) (settings : ImageConverterSettings) (w : World) :
  (forall evt : DragEvent,
     let run := onEditorDrop host settings evt w in
     if dropOpensGate host settings evt then
       exists es, trace (snd run) = trace w ++ EPreventDefault :: es /\
                  EPreventDefault ∉ es
     else
       leftToTheHost
         (match dataTransfer evt, posAtMouse evt with
          | Some _, Some _ => true
          | _, _ => false
          end) w run) /\
  (forall evt : ClipboardEvent,
     let run := onEditorPaste host settings evt w in
     if pasteOpensGate host settings evt then
       exists es, trace (snd run) = trace w ++ EPreventDefault :: es /\
                  EPreventDefault ∉ es
     else
       leftToTheHost
         (match clipboardData evt with Some _ => true | None => false end)
         w run).
Proof.
  assert (Hwarned : forall msg complete, complete = false ->
            leftToTheHost complete w (console_warn msg w)).
  { intros msg complete ->. repeat split.
    exists [EConsole Warn msg].
    repeat split; try reflexivity; try discriminate; try (cbn; lia). }
  assert (Hquiet : leftToTheHost true w (Fulfilled tt, w)).
  { repeat split. exists []. cbn. rewrite app_nil_r.
    repeat split; try (cbn; lia). }
  split.
  - intros [[files|] [pos|]] run; subst run; unfold dropOpensGate;
      cbn [dataTransfer posAtMouse];
      [| exact (Hwarned "Could not determine drop position" false eq_refl)
       | exact (Hwarned
                  "DataTransfer object is null initially. Cannot process drop event."
                  false eq_refl)..].
    destruct (existsb (dropGate host settings) files) eqn:Hgate.
    + rewrite drop_gate_open by exact Hgate.
      destruct (emits_handleDrop host settings files pos (logged w [EPreventDefault]))
        as (es & Ht & Hes).
      exists es. split.
      * rewrite Ht. cbn. now rewrite <- app_assoc.
      * exact (atEventPosition_not_prevented settings pos es Hes).
    + rewrite drop_gate_closed by exact Hgate. exact Hquiet.
  - intros [[items|]] run; subst run; unfold pasteOpensGate;
      cbn [clipboardData];
      [| exact (Hwarned
                  "ClipboardData object is null. Cannot process paste event."
                  false eq_refl)].
    rewrite onEditorPaste_itemData.
    destruct (existsb (pasteGate host settings) (itemDataOf items));
      [|exact Hquiet].
    unfold bind, emit. cbn.
    destruct (emits_handlePaste host settings (itemDataOf items) (cursor w)
                (logged w [EPreventDefault])) as (es & Ht & Hes).
    exists es. split.
    + cbn in Ht. rewrite Ht. cbn. now rewrite <- app_assoc.
    + exact (atEventPosition_not_prevented settings (cursor w) es Hes).
Qed.
